(** * rag-ai-backend: a shallow embedding of the RAG orchestration core

    The development follows the JavaScript sources:
    - [services/ragService.js]   validateQuery, generateWithGemini,
                                 generateFallbackResponse, generateRAGResponse
    - [services/jinaService.js]  generateEmbedding, generateMockEmbedding,
                                 simpleHash
    - [services/qdrantService.js] searchVectors, getMockSearchResults
    - [config/redis.js]          saveSession, getSession, deleteSession,
                                 extendSessionTTL
    - [controllers/chatController.js] sendMessage, the send_message handler

    JavaScript strings are sequences of UTF-16 code units, numbers that
    carry a relevance score are IEEE-754 doubles (Rocq's primitive floats),
    external services are oracles that answer each attempt, and a rejected
    promise or a thrown exception is the [Throws] branch of [Outcome]. *)

From Stdlib Require Import Floats List ZArith NArith Bool Lia String Ascii.
From stdpp Require Import gmap.
Import ListNotations.

Local Open Scope N_scope.

(** ** JavaScript strings *)

Module JsString.

(** A string is the list of its UTF-16 code units; [length] is the
    JavaScript [.length]. *)
Abbreviation jsstring := (list N).

(** ASCII literals of the source, written as Rocq strings. *)
Fixpoint js (s : string) : jsstring :=
  match s with
  | EmptyString => []
  | String c s' => N_of_ascii c :: js s'
  end.

Definition quote : jsstring := [34].
Definition nl : jsstring := [10].

(** ECMAScript WhiteSpace and LineTerminator code points, the ones
    [String.prototype.trim] strips. *)
Definition isWhiteSpace (c : N) : bool :=
  ((9 <=? c) && (c <=? 13)) || (c =? 32) || (c =? 160) || (c =? 5760)
  || ((8192 <=? c) && (c <=? 8202)) || (c =? 8232) || (c =? 8233)
  || (c =? 8239) || (c =? 8287) || (c =? 12288) || (c =? 65279).

Fixpoint trimStart (s : jsstring) : jsstring :=
  match s with
  | [] => []
  | c :: s' => if isWhiteSpace c then trimStart s' else s
  end.

Definition trimEnd (s : jsstring) : jsstring := rev (trimStart (rev s)).

Definition trim (s : jsstring) : jsstring := trimEnd (trimStart s).

(** [substring(0, n)] for [0 <= n]. *)
Definition substring0 (n : nat) (s : jsstring) : jsstring := firstn n s.

Fixpoint startsWith (pat s : jsstring) : bool :=
  match pat, s with
  | [], _ => true
  | _ :: _, [] => false
  | p :: pat', c :: s' => (p =? c) && startsWith pat' s'
  end.

(** The first occurrence of [pat] in [s]: the text before it and the text
    after it. *)
Fixpoint splitFirst (pat s : jsstring) : option (jsstring * jsstring) :=
  if startsWith pat s then Some ([], skipn (List.length pat) s)
  else match s with
       | [] => None
       | c :: s' =>
           match splitFirst pat s' with
           | Some (b, a) => Some (c :: b, a)
           | None => None
           end
       end.

(** [s.includes(pat)] *)
Definition includes (s pat : jsstring) : bool :=
  match splitFirst pat s with Some _ => true | None => false end.

(** GetSubstitution for a string pattern (no capture groups): [$$] is a
    dollar sign, [$&] the matched text, [$`] the text before the match,
    [$'] the text after it; every other [$x] stays as it is. *)
Fixpoint getSubstitution (matched before after r : jsstring) : jsstring :=
  match r with
  | [] => []
  | c :: r' =>
      if c =? 36 then
        match r' with
        | [] => [c]
        | d :: r'' =>
            if d =? 36 then 36 :: getSubstitution matched before after r''
            else if d =? 38 then matched ++ getSubstitution matched before after r''
            else if d =? 96 then before ++ getSubstitution matched before after r''
            else if d =? 39 then after ++ getSubstitution matched before after r''
            else c :: getSubstitution matched before after r'
        end
      else c :: getSubstitution matched before after r'
  end.

(** [s.replace(pat, r)] with a string pattern: only the first occurrence
    is replaced. *)
Definition replace (s pat r : jsstring) : jsstring :=
  match splitFirst pat s with
  | None => s
  | Some (b, a) => b ++ getSubstitution pat b a r ++ a
  end.

(** [arr.join(sep)] on an array of strings. *)
Fixpoint join (sep : jsstring) (l : list jsstring) : jsstring :=
  match l with
  | [] => []
  | [x] => x
  | x :: l' => x ++ sep ++ join sep l'
  end.

(** Decimal rendering of a natural number, as in a template literal. *)
Fixpoint digitsAux (fuel : nat) (n : N) (acc : jsstring) : jsstring :=
  match fuel with
  | O => acc
  | S k => let acc' := (48 + n mod 10) :: acc in
           if n / 10 =? 0 then acc' else digitsAux k (n / 10) acc'
  end.

Definition showNat (n : nat) : jsstring :=
  digitsAux (S n) (N.of_nat n) [].

(** [toLowerCase] restricted to the ASCII letters. The full Unicode
    mapping is a parameter of the functions that call it. *)
Definition asciiLower (s : jsstring) : jsstring :=
  List.map (fun c => if (65 <=? c) && (c <=? 90) then c + 32 else c) s.

End JsString.
Import JsString.

(** ** Exceptions, outcomes and traces *)

(** An exception object: its [message] and, for an HTTP client error,
    [error.response.status]. *)
Record JsError := mkJsError {
  message : jsstring;
  responseStatus : option Z
}.

(** [new Error(msg)] *)
Definition Error (msg : jsstring) : JsError := mkJsError msg None.

(** A property read on [undefined], or a call of something that is not a
    function. *)
Definition TypeError (msg : jsstring) : JsError := mkJsError msg None.

(** What a call does: it returns a value or it throws (an [async]
    function resolves or rejects). *)
Inductive Outcome (A : Type) : Type :=
  | Returns (a : A)
  | Throws (e : JsError).
Arguments Returns {A} a.
Arguments Throws {A} e.

(** What a client does against an external service, in order: the request
    of an attempt, and a [setTimeout] wait of so many milliseconds. *)
Inductive Event : Type :=
  | Call (attempt : nat)
  | Sleep (ms : Z).

(** The number of requests in a trace. *)
Definition countCalls (tr : list Event) : nat :=
  List.length (List.filter (fun ev => match ev with Call _ => true | Sleep _ => false end) tr).

(** A text that starts with something other than an opening brace. *)
Definition startsPlain (s : jsstring) : bool :=
  match s with
  | h :: _ => negb (123 =? h)
  | [] => false
  end.

(** A JavaScript argument that is expected to be a string. [VOther] is any
    other value without string methods: [undefined], [null], a number, a
    boolean, an array, a plain object. *)
Inductive JsValue : Type :=
  | VString (s : jsstring)
  | VOther.

(** [x || d] on an optional string: an absent or empty string is falsy. *)
Definition orElse (x : option jsstring) (d : jsstring) : jsstring :=
  match x with
  | Some (c :: s) => c :: s
  | _ => d
  end.

(** An optional string inside a template literal. *)
Definition interpolate (x : option jsstring) : jsstring :=
  match x with
  | Some s => s
  | None => js "undefined"
  end.

(** ** Retrieval candidates *)

(** The payload stored with an indexed document. Every field may be
    absent; present fields are strings. *)
Record Payload := mkPayload {
  title : option jsstring;
  source : option jsstring;
  url : option jsstring;
  content : option jsstring;
  snippet : option jsstring;
  publishedAt : option jsstring;
  category : option jsstring
}.

Definition emptyPayload : Payload :=
  mkPayload None None None None None None None.

(** A scored document. [payload] is [None] when the object has no
    [payload] property. *)
Record Candidate := mkCandidate {
  id : jsstring;
  score : float;
  payload : option Payload
}.

(** The document has a [payload] object. *)
Definition hasPayload (doc : Candidate) : bool :=
  match payload doc with Some _ => true | None => false end.

(** ** services/ragService.js *)

Module RagService.

Inductive Validation : Type :=
  | Invalid (error : jsstring)
  | Valid (query : jsstring).

Definition validateQuery (query : JsValue) : Validation :=
  match query with
  | VOther => Invalid (js "Query must be a non-empty string")
  | VString [] => Invalid (js "Query must be a non-empty string")
  | VString s =>
      let cleanQuery := trim s in
      if (length cleanQuery <? 3)%nat then
        Invalid (js "Query is too short (minimum 3 characters)")
      else if (1000 <? length cleanQuery)%nat then
        Invalid (js "Query is too long (maximum 1000 characters)")
      else Valid cleanQuery
  end.

(** *** generateWithGemini *)

(** What [model.generateContent(prompt)] followed by [response.text()]
    does on one attempt. *)
Inductive GeminiReply : Type :=
  | GenText (text : jsstring)
  | GenFails (e : JsError).

(** The test of the [catch] block on [error.message]. *)
Definition isRetryable (msg : jsstring) : bool :=
  includes msg (js "503") || includes msg (js "overloaded")
  || includes msg (js "quota") || includes msg (js "rate limit").

(** The body of the [try] block of one attempt. *)
Definition geminiAttempt (reply : GeminiReply) : Outcome jsstring :=
  match reply with
  | GenText text =>
      if (10 <? length text)%nat then Returns text
      else Throws (Error (js "Empty or invalid response from Gemini"))
  | GenFails e => Throws e
  end.

(** The [for] loop from [attempt] on; [remaining] counts the iterations
    left, [maxRetries + 1 - attempt]. A loop that runs out returns
    [undefined], here [None]. *)
Fixpoint geminiLoop (model : nat -> GeminiReply) (maxRetries : nat)
    (retryDelay : Z) (remaining attempt : nat)
    : list Event * Outcome (option jsstring) :=
  match remaining with
  | O => ([], Returns None)
  | S k =>
      match geminiAttempt (model attempt) with
      | Returns text => ([Call attempt], Returns (Some text))
      | Throws error =>
          if isRetryable (message error) && (attempt <? maxRetries)%nat then
            let delay := (retryDelay * Z.of_nat attempt)%Z in
            let '(tr, r) := geminiLoop model maxRetries retryDelay k (S attempt) in
            (Call attempt :: Sleep delay :: tr, r)
          else if (attempt =? maxRetries)%nat then
            ([Call attempt], Throws error)
          else
            let '(tr, r) := geminiLoop model maxRetries retryDelay k (S attempt) in
            (Call attempt :: tr, r)
      end
  end.

Definition generateWithGemini (model : nat -> GeminiReply)
    (maxRetries : nat) (retryDelay : Z)
    : list Event * Outcome (option jsstring) :=
  geminiLoop model maxRetries retryDelay maxRetries 1.

(** The defaults [maxRetries = 3], [retryDelay = 2000]. *)
Definition generateWithGeminiDefault (model : nat -> GeminiReply) :=
  generateWithGemini model 3 2000.

End RagService.

(** ** services/ragService.js: the fallback generator *)

Module Fallback.

Record Template := mkTemplate {
  keywords : list jsstring;
  template : jsstring
}.

Definition sourcesSlot : jsstring := js "{sources}".

(** The shape shared by the four template literals: the query between
    double quotes, then the [{sources}] slot on a paragraph of its own. *)
Definition templateText (before query after closing : jsstring) : jsstring :=
  before ++ quote ++ query ++ quote ++ after ++ nl ++ nl
  ++ sourcesSlot ++ nl ++ nl ++ closing.

(** The three keyword buckets of [fallbackTemplates], each template with
    the query already interpolated. *)
Definition fallbackTemplates (query : jsstring) : list Template :=
  [ mkTemplate
      [js "yesterday"; js "recent"; js "latest"; js "today"; js "news"]
      (templateText
         (js "I apologize, but I'm currently experiencing high load and cannot generate a detailed response. However, based on your query about ")
         query
         (js ", here are some relevant sources I found:")
         (js "For the most up-to-date information, I recommend checking these news sources directly. Please try your question again in a moment when the system load is lighter."));
    mkTemplate
      [js "technology"; js "tech"; js "ai"; js "artificial intelligence"]
      (templateText
         (js "I'm currently experiencing high demand and cannot provide a full analysis. Your question about ")
         query
         (js " relates to technology news. Here are relevant sources I found:")
         (js "These sources contain the latest information on your topic. Please try again shortly for a more detailed AI-generated response."));
    mkTemplate
      [js "business"; js "market"; js "finance"; js "economic"]
      (templateText
         (js "Due to high system load, I cannot provide a detailed business analysis right now. However, I found relevant sources for your query ")
         query
         (js ":")
         (js "For current business and financial news, please check these sources directly. Try asking again in a few moments.")) ].

(** The template used when no bucket matches. *)
Definition genericTemplate (query : jsstring) : jsstring :=
  templateText
    (js "I apologize, but due to high system demand, I cannot generate a detailed response for ")
    query
    (js " right now. Here are relevant sources I found:")
    (js "Please check these sources for information and try your question again shortly.").

Definition noSourcesText : jsstring :=
  js "No specific sources found, but you can check major news outlets for the latest information.".

Section WithLowerCase.

(** [String.prototype.toLowerCase] *)
Variable toLowerCase : jsstring -> jsstring.

Definition templateMatches (query : jsstring) (t : Template) : bool :=
  existsb (fun keyword => includes (toLowerCase query) (toLowerCase keyword))
          (keywords t).

(** [matchedTemplate || { template: ... }] *)
Definition selectedTemplate (query : jsstring) : jsstring :=
  match List.find (templateMatches query) (fallbackTemplates query) with
  | Some t => template t
  | None => genericTemplate query
  end.

(** One entry of the source list; reading [doc.payload.title] throws when
    the document has no payload. *)
Definition formatDocument (index : nat) (doc : Candidate) : Outcome jsstring :=
  match payload doc with
  | None =>
      Throws (TypeError (js "Cannot read properties of undefined (reading 'title')"))
  | Some p =>
      Returns (showNat (index + 1) ++ js ". " ++ interpolate (title p)
               ++ js " (" ++ interpolate (source p) ++ js ")" ++ nl
               ++ js "   " ++ orElse (snippet p) (js "No preview available"))
  end.

(** [documents.map((doc, index) => ...)], stopping at the first throw. *)
Fixpoint formatDocuments (index : nat) (documents : list Candidate)
    : Outcome (list jsstring) :=
  match documents with
  | [] => Returns []
  | doc :: rest =>
      match formatDocument index doc with
      | Throws e => Throws e
      | Returns line =>
          match formatDocuments (S index) rest with
          | Throws e => Throws e
          | Returns lines => Returns (line :: lines)
          end
      end
  end.

Definition sourcesText (documents : list Candidate) : Outcome jsstring :=
  match documents with
  | [] => Returns noSourcesText
  | _ :: _ =>
      match formatDocuments 0 documents with
      | Throws e => Throws e
      | Returns lines => Returns (join (nl ++ nl) lines)
      end
  end.

Definition generateFallbackResponse (query : jsstring)
    (documents : list Candidate) : Outcome jsstring :=
  match sourcesText documents with
  | Throws e => Throws e
  | Returns text => Returns (replace (selectedTemplate query) sourcesSlot text)
  end.

End WithLowerCase.

End Fallback.

(** ** services/jinaService.js *)

Module JinaService.

(** [Math.sin] and [Math.cos], which the mock embedding calls. *)
Record MathLib := mkMathLib {
  Math_sin : float -> float;
  Math_cos : float -> float
}.

(** ToInt32: the wrap-around of the bitwise operators. *)
Definition toInt32 (z : Z) : Z :=
  ((z + 2147483648) mod 4294967296 - 2147483648)%Z.

(** The loop of [simpleHash]:
    [hash = (hash << 5) - hash + char; hash = hash & hash]. *)
Fixpoint hashLoop (str : jsstring) (hash : Z) : Z :=
  match str with
  | [] => hash
  | char :: rest =>
      let hash1 := (toInt32 (Z.shiftl hash 5) - hash + Z.of_N char)%Z in
      hashLoop rest (toInt32 hash1)
  end.

Definition simpleHash (str : jsstring) : Z :=
  match str with
  | [] => 0%Z
  | _ => Z.abs (hashLoop str 0)
  end.

(** A non-negative integer below 2^63 as a double. *)
Definition numberOfZ (z : Z) : float := PrimFloat.of_uint63 (Uint63.of_Z z).

Definition mockComponent (M : MathLib) (hash : Z) (i : nat) : float :=
  let seed := numberOfZ (hash + Z.of_nat i) in
  ((Math_sin M seed * Math_cos M (seed * 0x1.6666666666666p-1)
    + Math_sin M (seed * 0x1.4cccccccccccdp+0)) / 2)%float.

(** The 768 components pushed by the loop of [generateMockEmbedding]. *)
Definition generateMockEmbedding (M : MathLib) (text : jsstring) : list float :=
  let hash := simpleHash text in
  List.map (mockComponent M hash) (seq 0 768).

(** The value found at [response.data.data[0].embedding]. *)
Inductive JsEmbedding : Type :=
  | EmbArray (v : list float)
  | EmbNotArray.

(** What [client.post] does on one attempt. *)
Inductive JinaReply : Type :=
  | PostFails (e : JsError)
  | PostMalformed
  | PostNoEmbedding
  | PostEmbedding (embedding : JsEmbedding).

(** The [try] block of one attempt. [PostMalformed] is a response without
    [data.data[0]]; [PostNoEmbedding] has [data.data[0]] without an
    [embedding], whose [.length] is then read for the log. *)
Definition jinaAttempt (reply : JinaReply) : Outcome JsEmbedding :=
  match reply with
  | PostFails e => Throws e
  | PostMalformed => Throws (Error (js "Invalid response format from Jina API"))
  | PostNoEmbedding =>
      Throws (TypeError (js "Cannot read properties of undefined (reading 'length')"))
  | PostEmbedding embedding => Returns embedding
  end.

(** [error.response?.status && error.response.status < 500] *)
Definition isClientError (e : JsError) : bool :=
  match responseStatus e with
  | Some status => negb (status =? 0)%Z && (status <? 500)%Z
  | None => false
  end.

(** [text.substring(0, 8192)] caps the input at this many code units. *)
Definition maxInputLength : nat := 8 * 1024.

(** The retry loop; it ends by returning an embedding, by throwing to the
    enclosing [catch], or (only when [maxRetries] is 0) by running out,
    which is [Returns None]. *)
Fixpoint jinaLoop (post : nat -> JinaReply) (maxRetries remaining attempt : nat)
    : list Event * Outcome (option JsEmbedding) :=
  match remaining with
  | O => ([], Returns None)
  | S k =>
      match jinaAttempt (post attempt) with
      | Returns embedding => ([Call attempt], Returns (Some embedding))
      | Throws error =>
          if (attempt =? maxRetries)%nat || isClientError error then
            ([Call attempt], Throws error)
          else
            let '(tr, r) := jinaLoop post maxRetries k (S attempt) in
            (Call attempt :: Sleep (1000 * Z.of_nat attempt) :: tr, r)
      end
  end.

(** [generateEmbedding(text, maxRetries)]: [apiKey] tells whether
    [JINA_CONFIG.apiKey] is set, [post] answers a request by its input
    text and attempt. The outer [catch] turns every exception of the loop
    into the mock embedding. *)
Definition generateEmbedding (M : MathLib) (apiKey : bool)
    (post : jsstring -> nat -> JinaReply) (text : jsstring) (maxRetries : nat)
    : list Event * Outcome (option JsEmbedding) :=
  if negb apiKey then ([], Returns (Some (EmbArray (generateMockEmbedding M text))))
  else
    let '(tr, r) := jinaLoop (post (substring0 maxInputLength text)) maxRetries maxRetries 1 in
    match r with
    | Returns embedding => (tr, Returns embedding)
    | Throws _ => (tr, Returns (Some (EmbArray (generateMockEmbedding M text))))
    end.

(** The default [maxRetries = 2]. *)
Definition generateEmbeddingDefault (M : MathLib) (apiKey : bool)
    (post : jsstring -> nat -> JinaReply) (text : jsstring) :=
  generateEmbedding M apiKey post text 2.

End JinaService.

(** ** services/qdrantService.js *)

Module QdrantService.

Definition mockArticle (id' : string) (score' : float)
    (title' source' url' content' snippet' publishedAt' category' : jsstring)
    : Candidate :=
  mkCandidate (js id') score'
    (Some (mkPayload (Some title') (Some source') (Some url') (Some content')
             (Some snippet') (Some publishedAt') (Some category'))).

(** U+00FC and U+2013, the two characters of the mock data outside ASCII. *)
Definition u_umlaut : jsstring := [252].
Definition en_dash : jsstring := [8211].

Definition getMockSearchResults : list Candidate :=
  [ mockArticle "mock-1" 0x1.b333333333333p-1
      (js "Flying cars crash into each other at Chinese air show")
      (js "BBC News")
      (js "https://www.bbc.com/news/technology-flying-cars")
      (js "Two flying cars collided during a demonstration at an air show in China, raising concerns about the safety and regulation of flying car technology. The incident occurred during a rehearsal for an air show, with both vehicles crashing to the ground. No injuries were reported, but the accident has prompted calls for stricter safety protocols in the emerging flying car industry.")
      (js "Two flying cars collided during a demonstration at an air show in China...")
      (js "2025-09-17T10:30:00Z")
      (js "technology");
    mockArticle "mock-2" 0x1.a3d70a3d70a3dp-1
      (js "US tennis star sorry for offensive comments on Chinese food")
      (js "BBC News")
      (js "https://www.bbc.com/sport/tennis-controversy")
      (js "A prominent US tennis player has issued a public apology after making controversial comments about Chinese food during a press conference. The remarks, which were widely criticized as culturally insensitive, sparked outrage on social media and prompted calls for the player to be sanctioned.")
      (js "A prominent US tennis player has issued a public apology after making controversial comments...")
      (js "2025-09-17T14:20:00Z")
      (js "sports");
    mockArticle "mock-3" 0x1.947ae147ae148p-1
      (js "Madeleine McCann suspect freed from German prison")
      (js "BBC News")
      (js "https://www.bbc.com/news/uk-madeleine-mccann")
      (js "Christian Br" ++ u_umlaut ++ js "ckner, the prime suspect in the Madeleine McCann disappearance case, has been released from a German prison after serving his sentence for an unrelated rape conviction. His release has reignited public interest in the long-unsolved case.")
      (js "Christian Br" ++ u_umlaut ++ js "ckner, the prime suspect in the Madeleine McCann disappearance case...")
      (js "2025-09-17T16:45:00Z")
      (js "crime");
    mockArticle "mock-4" 0x1.851eb851eb852p-1
      (js "AI can forecast your future health " ++ en_dash ++ js " just like the weather")
      (js "BBC News")
      (js "https://www.bbc.com/news/technology-ai-health")
      (js "Researchers have developed an AI system that can predict future health conditions with accuracy similar to weather forecasting. The system analyzes various health indicators and lifestyle factors to provide personalized health predictions.")
      (js "Researchers have developed an AI system that can predict future health conditions...")
      (js "2025-09-17T12:15:00Z")
      (js "technology");
    mockArticle "mock-5" 0x1.75c28f5c28f5cp-1
      (js "Search for ancient Egyptian gold bracelet missing from Cairo museum")
      (js "BBC News")
      (js "https://www.bbc.com/news/world-middle-east-egypt")
      (js "Egyptian authorities have launched an investigation after a 3,000-year-old gold bracelet went missing from the Egyptian Museum in Cairo. The artifact, dating back to the reign of King Amenemhope, vanished from the museum's restoration laboratory.")
      (js "Egyptian authorities have launched an investigation after a 3,000-year-old gold bracelet...")
      (js "2025-09-17T09:30:00Z")
      (js "culture") ].

(** What [client.post] on the search endpoint does. [SearchNoResult] is a
    response whose [data] or [data.result] is missing. *)
Inductive QdrantReply : Type :=
  | SearchFails (e : JsError)
  | SearchNoResult
  | SearchResult (points : list Candidate).

(** [{ id: result.id, score: result.score, payload: result.payload || {} }] *)
Definition transformResult (result : Candidate) : Candidate :=
  mkCandidate (id result) (score result)
    (Some (match payload result with Some p => p | None => emptyPayload end)).

(** [searchVectors(queryVector, limit, scoreThreshold)]. [apiKey] tells
    whether [QDRANT_CONFIG.apiKey] is set ([QDRANT_CONFIG.url] always has
    its default). [limit] and [scoreThreshold] only travel in the request
    that [post] answers; nothing is filtered here. *)
Definition searchVectors
    (apiKey : bool) (post : list float -> nat -> float -> QdrantReply)
    (queryVector : list float) (limit : nat) (scoreThreshold : float)
    : Outcome (list Candidate) :=
  if negb apiKey then Returns getMockSearchResults
  else
    match post queryVector limit scoreThreshold with
    | SearchResult points => Returns (List.map transformResult points)
    | SearchNoResult => Returns []
    | SearchFails _ => Returns getMockSearchResults
    end.

(** The default [scoreThreshold = 0.7]. *)
Definition defaultScoreThreshold : float := 0x1.6666666666666p-1.

End QdrantService.

(** ** services/ragService.js: the orchestrator *)

Module Orchestrator.
Import RagService.

(** Everything outside the process that one turn consults. *)
Record World := mkWorld {
  math : JinaService.MathLib;
  toLowerCase : jsstring -> jsstring;
  jinaApiKey : bool;
  jinaPost : jsstring -> nat -> JinaService.JinaReply;
  qdrantApiKey : bool;
  qdrantPost : list float -> nat -> float -> QdrantService.QdrantReply;
  gemini : jsstring -> nat -> GeminiReply;
  startTime : Z;       (* Date.now() on entry *)
  endTime : Z;         (* Date.now() when the result is built *)
  isoNow : jsstring    (* new Date().toISOString() when the result is built *)
}.

Record Source := mkSource {
  s_title : jsstring;
  s_source : jsstring;
  s_url : jsstring;
  s_snippet : jsstring;
  relevanceScore : float;
  s_publishedAt : option jsstring
}.

(** The [metadata] object; a field that a result does not set is [None]. *)
Record Metadata := mkMetadata {
  processingTime : Z;
  documentsFound : option nat;
  sourcesUsed : option nat;
  queryLength : option nat;
  modelUsed : jsstring;
  error : option jsstring;
  timestamp : jsstring
}.

(** [answer] is [None] when it is [undefined]. *)
Record RAGResult := mkRAGResult {
  answer : option jsstring;
  sources : list Source;
  metadata : Metadata
}.

(** The threshold of the relevance filter, the literal [0.7]. *)
Definition relevanceThreshold : float := 0x1.6666666666666p-1.

(** [result.score > 0.7] *)
Definition isRelevant (result : Candidate) : bool :=
  (relevanceThreshold <? score result)%float.

Definition relevantDocsOf (searchResults : list Candidate) : list Candidate :=
  List.filter isRelevant searchResults.

(** [doc.payload || {}] *)
Definition payloadOf (doc : Candidate) : Payload :=
  match payload doc with Some p => p | None => emptyPayload end.

(** [doc.score || 0]: zero and NaN are falsy. *)
Definition scoreOrZero (s : float) : float :=
  if (s =? 0)%float || negb (s =? s)%float then 0%float else s.

(** [payload.publishedAt || null] *)
Definition orNull (x : option jsstring) : option jsstring :=
  match x with Some (c :: s) => Some (c :: s) | _ => None end.

Definition sourceOf (doc : Candidate) : Source :=
  let p := payloadOf doc in
  mkSource (orElse (title p) (js "Untitled"))
           (orElse (source p) (js "Unknown Source"))
           (orElse (url p) (js "#"))
           (orElse (snippet p)
              (orElse (option_map (substring0 150) (content p)) []))
           (scoreOrZero (score doc))
           (orNull (publishedAt p)).

Definition contextEntry (index : nat) (doc : Candidate) : jsstring :=
  let p := payloadOf doc in
  js "Source " ++ showNat (index + 1) ++ js ": "
  ++ orElse (title p) (js "Untitled") ++ nl
  ++ js "Content: "
  ++ orElse (content p) (orElse (snippet p) (js "No content available")) ++ nl
  ++ js "Published: " ++ orElse (publishedAt p) (js "Unknown date").

Fixpoint contextEntries (index : nat) (docs : list Candidate) : list jsstring :=
  match docs with
  | [] => []
  | doc :: rest => contextEntry index doc :: contextEntries (S index) rest
  end.

Definition contextOf (relevantDocs : list Candidate) : jsstring :=
  join (nl ++ nl) (contextEntries 0 relevantDocs).

Definition sourcesOf (relevantDocs : list Candidate) : list Source :=
  List.map sourceOf relevantDocs.

Definition systemPrompt (context query : jsstring) : jsstring :=
  js "You are a helpful news assistant that provides accurate, up-to-date information based on reliable sources. " ++ nl
  ++ js "    " ++ nl
  ++ js "Instructions:" ++ nl
  ++ js "- Answer the user's question using only the provided context" ++ nl
  ++ js "- Be informative and comprehensive" ++ nl
  ++ js "- If the context doesn't fully answer the question, acknowledge this" ++ nl
  ++ js "- Maintain a professional, journalistic tone" ++ nl
  ++ js "- Focus on factual information" ++ nl
  ++ js "- Don't make up information not in the sources" ++ nl
  ++ nl
  ++ js "Context from news sources:" ++ nl
  ++ orElse (Some context) (js "No specific recent news found for this query.") ++ nl
  ++ nl
  ++ js "User Question: " ++ query ++ nl
  ++ nl
  ++ js "Please provide a helpful response based on the available information:".

Definition bullet : jsstring := [8226].

(** The answer of the outer [catch], with the caller's query as given. *)
Definition errorFallbackAnswer (query : jsstring) : jsstring :=
  js "I apologize, but I'm currently experiencing technical difficulties and cannot provide a detailed response to your question "
  ++ quote ++ query ++ quote ++ js ". This might be due to:" ++ nl
  ++ nl
  ++ bullet ++ js " High system load on AI services" ++ nl
  ++ bullet ++ js " Temporary API limitations  " ++ nl
  ++ bullet ++ js " Network connectivity issues" ++ nl
  ++ nl
  ++ js "Please try:" ++ nl
  ++ js "1. Asking a simpler or different question" ++ nl
  ++ js "2. Trying again in a few minutes" ++ nl
  ++ js "3. Checking major news websites directly for the latest information" ++ nl
  ++ nl
  ++ js "Thank you for your patience!".

Definition errorFallback (w : World) (query : jsstring) (e : JsError) : RAGResult :=
  mkRAGResult (Some (errorFallbackAnswer query)) []
    (mkMetadata (endTime w - startTime w) None None None
       (js "error-fallback") (Some (message e)) (isoNow w)).

(** The inner [try]/[catch] around the generation. An exception of the
    fallback generator leaves the [catch] block it is raised in. *)
Definition generateAnswer (w : World) (query : jsstring)
    (relevantDocs : list Candidate) : Outcome RAGResult :=
  let sources := sourcesOf relevantDocs in
  let prompt := systemPrompt (contextOf relevantDocs) query in
  match snd (generateWithGemini (gemini w prompt) 3 2000) with
  | Returns aiResponse =>
      Returns (mkRAGResult aiResponse sources
        (mkMetadata (endTime w - startTime w)
           (Some (length relevantDocs)) (Some (length sources))
           (Some (length query)) (js "gemini-1.5-flash") None (isoNow w)))
  | Throws geminiError =>
      match Fallback.generateFallbackResponse (toLowerCase w) query relevantDocs with
      | Throws e => Throws e
      | Returns fallbackResponse =>
          Returns (mkRAGResult (Some fallbackResponse) sources
            (mkMetadata (endTime w - startTime w)
               (Some (length relevantDocs)) (Some (length sources))
               None (js "fallback-template")
               (Some (js "AI model temporarily unavailable")) (isoNow w)))
      end
  end.

(** The body of the outer [try], for a query that is a string. *)
Definition ragPipeline (w : World) (query : jsstring) : Outcome RAGResult :=
  match validateQuery (VString query) with
  | Invalid error => Throws (Error (js "Invalid query: " ++ error))
  | Valid cleanQuery =>
      match snd (JinaService.generateEmbedding (math w) (jinaApiKey w)
                   (jinaPost w) cleanQuery 2) with
      | Throws e => Throws e
      | Returns (Some (JinaService.EmbArray embedding)) =>
          match QdrantService.searchVectors (qdrantApiKey w) (qdrantPost w)
                  embedding 5 QdrantService.defaultScoreThreshold with
          | Throws e => Throws e
          | Returns searchResults =>
              generateAnswer w cleanQuery (relevantDocsOf searchResults)
          end
      | Returns _ => Throws (Error (js "Failed to generate embedding for query"))
      end
  end.

(** [generateRAGResponse(query, sessionId)]. For a query that is not a
    string, [query.substring] throws in the [try] block and again in the
    [catch] block, so the call rejects. *)
Definition generateRAGResponse (w : World) (query : JsValue)
    (sessionId : jsstring) : Outcome RAGResult :=
  match query with
  | VOther => Throws (TypeError (js "query.substring is not a function"))
  | VString q =>
      match ragPipeline w q with
      | Returns result => Returns result
      | Throws e => Returns (errorFallback w q e)
      end
  end.

(** The three tags a result can carry in [modelUsed]. *)
Definition knownModel (m : jsstring) : Prop :=
  m = js "gemini-1.5-flash" \/ m = js "fallback-template" \/ m = js "error-fallback".

(** A result that carries a non-empty answer and one of the three model
    tags. *)
Definition wellFormed (result : RAGResult) : Prop :=
  (exists text, answer result = Some text /\ text <> [])
  /\ knownModel (modelUsed (metadata result)).

End Orchestrator.

(** ** Session messages *)

Inductive MessageType : Type := user | bot.

(** The [metadata] object of a stored message: what the socket handler
    and the REST handler attach to a user message, and the orchestrator's
    metadata on a bot message. *)
Inductive MessageMeta : Type :=
  | SocketUserMeta (socketId ipAddress : jsstring)
  | RestUserMeta (method : jsstring) (ipAddress userAgent : option jsstring)
  | BotMeta (m : Orchestrator.Metadata).

(** [sources] is [None] on a message without that property. *)
Record Message := mkMessage {
  m_id : jsstring;
  m_type : MessageType;
  m_content : option jsstring;
  m_timestamp : jsstring;
  m_sources : option (list Orchestrator.Source);
  m_metadata : MessageMeta
}.

(** A message without its [metadata]. *)
Definition messageCore (m : Message)
    : jsstring * MessageType * option jsstring * jsstring
      * option (list Orchestrator.Source) :=
  (m_id m, m_type m, m_content m, m_timestamp m, m_sources m).

Definition keyIf {A : Type} (field : option A) (name : string) : list string :=
  match field with Some _ => [name] | None => [] end.

(** The property names of a message's [metadata] object (for a bot
    message, listed in the order of the record). *)
Definition metadataKeys (m : MessageMeta) : list string :=
  match m with
  | SocketUserMeta _ _ => ["socketId"; "ipAddress"]%string
  | RestUserMeta _ _ _ => ["method"; "ipAddress"; "userAgent"]%string
  | BotMeta md =>
      List.app ["processingTime"%string]
        (List.app (keyIf (Orchestrator.documentsFound md) "documentsFound")
           (List.app (keyIf (Orchestrator.sourcesUsed md) "sourcesUsed")
              (List.app (keyIf (Orchestrator.queryLength md) "queryLength")
                 (List.app ["modelUsed"%string]
                    (List.app (keyIf (Orchestrator.error md) "error")
                       ["timestamp"%string])))))
  end.

(** ** config/redis.js *)

Module Redis.

(** The object that [saveSession] serialises. The stored JSON text is
    modelled by the object itself. *)
Record SessionData := mkSessionData {
  sessionId : jsstring;
  messages : list Message;
  lastUpdated : jsstring;
  messageCount : nat
}.

(** A key's value and the time, in seconds, at which it expires. *)
Record Entry := mkEntry {
  value : SessionData;
  expiresAt : Z
}.

(** The Redis server as the client sees it: whether commands get through,
    the server's clock in seconds, and the keys. *)
Record Store := mkStore {
  connected : bool;
  now : Z;
  db : gmap jsstring Entry
}.

Definition sessionKey (sessionId : jsstring) : jsstring :=
  js "session:" ++ sessionId.

(** The entry of a key that has not expired. *)
Definition live (st : Store) (key : jsstring) : option Entry :=
  match db st !! key with
  | Some e => if (now st <? expiresAt e)%Z then Some e else None
  | None => None
  end.

(** The TTL command: the seconds a key has left. *)
Definition ttlRemaining (st : Store) (key : jsstring) : option Z :=
  match live st key with
  | Some e => Some (expiresAt e - now st)%Z
  | None => None
  end.

(** Time passing on the server. *)
Definition tick (seconds : Z) (st : Store) : Store :=
  mkStore (connected st) (now st + seconds)%Z (db st).

(** SETEX key ttl value *)
Definition setex (st : Store) (key : jsstring) (ttl : Z) (v : SessionData)
    : Outcome Store :=
  if negb (connected st) then Throws (Error (js "Connection is closed."))
  else if (ttl <=? 0)%Z then
    Throws (Error (js "ERR invalid expire time in 'setex' command"))
  else Returns (mkStore (connected st) (now st)
                  (<[key := mkEntry v (now st + ttl)%Z]> (db st))).

(** GET key *)
Definition get (st : Store) (key : jsstring) : Outcome (option SessionData) :=
  if negb (connected st) then Throws (Error (js "Connection is closed."))
  else Returns (option_map value (live st key)).

(** DEL key: the number of keys removed. *)
Definition del (st : Store) (key : jsstring) : Outcome (Z * Store) :=
  if negb (connected st) then Throws (Error (js "Connection is closed."))
  else match live st key with
       | Some _ => Returns (1%Z, mkStore (connected st) (now st) (delete key (db st)))
       | None => Returns (0%Z, st)
       end.

(** EXPIRE key ttl: 1 when the key exists, 0 otherwise; a timeout that is
    not positive removes the key. *)
Definition expire (st : Store) (key : jsstring) (ttl : Z) : Outcome (Z * Store) :=
  if negb (connected st) then Throws (Error (js "Connection is closed."))
  else match live st key with
       | Some e =>
           if (ttl <=? 0)%Z then
             Returns (1%Z, mkStore (connected st) (now st) (delete key (db st)))
           else
             Returns (1%Z, mkStore (connected st) (now st)
                             (<[key := mkEntry (value e) (now st + ttl)%Z]> (db st)))
       | None => Returns (0%Z, st)
       end.

(** [parseInt(process.env.REDIS_TTL) || 3600]: the argument is the parsed
    integer, [None] for NaN (the variable unset or not a number). *)
Definition configuredTTL (REDIS_TTL : option Z) : Z :=
  match REDIS_TTL with
  | Some n => if (n =? 0)%Z then 3600%Z else n
  | None => 3600%Z
  end.

(** [saveSession(sessionId, messages)]; [timestamp] is
    [new Date().toISOString()]. *)
Definition saveSession (REDIS_TTL : option Z) (timestamp : jsstring)
    (st : Store) (sessionId : jsstring) (messages : list Message)
    : Outcome Store :=
  let ttl := configuredTTL REDIS_TTL in
  let sessionData :=
    mkSessionData sessionId messages timestamp (length messages) in
  match setex st (sessionKey sessionId) ttl sessionData with
  | Returns st' => Returns st'
  | Throws error => Throws (Error (js "Failed to save session: " ++ message error))
  end.

(** [getSession(sessionId)]: every failure is an empty history. *)
Definition getSession (st : Store) (sessionId : jsstring) : list Message :=
  match get st (sessionKey sessionId) with
  | Returns (Some sessionData) => messages sessionData
  | Returns None => []
  | Throws _ => []
  end.

(** [deleteSession(sessionId)] *)
Definition deleteSession (st : Store) (sessionId : jsstring)
    : Outcome (bool * Store) :=
  match del st (sessionKey sessionId) with
  | Returns (result, st') => Returns ((result =? 1)%Z, st')
  | Throws error => Throws (Error (js "Failed to delete session: " ++ message error))
  end.

(** [extendSessionTTL(sessionId, ttl)]; [ttl] is [None] for the default
    [null]. A zero [ttl] is falsy and falls back to the configured one. *)
Definition extendSessionTTL (REDIS_TTL : option Z) (st : Store)
    (sessionId : jsstring) (ttl : option Z) : bool * Store :=
  let newTTL :=
    match ttl with
    | Some n => if (n =? 0)%Z then configuredTTL REDIS_TTL else n
    | None => configuredTTL REDIS_TTL
    end in
  match expire st (sessionKey sessionId) newTTL with
  | Returns (result, st') => ((result =? 1)%Z, st')
  | Throws _ => (false, st)
  end.

End Redis.

(** ** controllers/chatController.js *)

Module ChatController.
Import RagService Orchestrator.

(** [req.body] of the REST endpoint, [data] of the socket event. *)
Record Body := mkBody {
  b_sessionId : jsstring;
  b_message : JsValue
}.

(** What is fixed for the process: the Joi schema, as the message of its
    first error if the body is invalid, and the parsed [REDIS_TTL]. *)
Record Config := mkConfig {
  messageSchema : Body -> option jsstring;
  REDIS_TTL : option Z
}.

(** What one turn draws from its surroundings: the external services,
    the generated ids, the clock readings and the connection details. *)
Record Turn := mkTurn {
  world : World;
  userMessageId : jsstring;
  botMessageId : jsstring;
  userTimestamp : jsstring;
  botTimestamp : jsstring;
  firstSaveTimestamp : jsstring;
  saveTimestamp : jsstring;
  requestStart : Z;
  botBuiltAt : Z;
  respondedAt : Z;
  socketId : jsstring;
  socketAddress : jsstring;
  reqIp : option jsstring;
  reqUserAgent : option jsstring;
  errorMessageId : jsstring;
  errorTimestamp : jsstring
}.

(** The calls a handler makes on the session store, in order. *)
Inductive StoreOp : Type :=
  | OpGet (sessionId : jsstring)
  | OpSave (sessionId : jsstring) (messages : list Message).

(** [{ ...metadata, processingTime: t }] *)
Definition withProcessingTime (m : Metadata) (t : Z) : Metadata :=
  mkMetadata t (documentsFound m) (sourcesUsed m) (queryLength m)
    (modelUsed m) (error m) (timestamp m).

(** *** The REST endpoint *)

Inductive Response : Type :=
  | Status400 (error : jsstring)
  | Status200 (answer : option jsstring) (sources : list Source)
      (metadata : Metadata) (totalSessionMessages : nat) (sessionId : jsstring)
  | Status500.

Definition restUserMessage (t : Turn) (query : jsstring) : Message :=
  mkMessage (userMessageId t) user (Some query) (userTimestamp t) None
    (RestUserMeta (js "REST") (reqIp t) (reqUserAgent t)).

Definition restBotMessage (t : Turn) (ragResponse : RAGResult) : Message :=
  mkMessage (botMessageId t) bot (answer ragResponse) (botTimestamp t)
    (Some (sources ragResponse))
    (BotMeta (withProcessingTime (metadata ragResponse)
                (botBuiltAt t - requestStart t))).

(** The two validations at the head of both handlers: the error text to
    report, or the cleaned query. *)
Definition validateTurn (cfg : Config) (body : Body) : jsstring + jsstring :=
  match messageSchema cfg body with
  | Some detail => inl (js "Invalid input: " ++ detail)
  | None =>
      match validateQuery (b_message body) with
      | Invalid error => inl error
      | Valid query => inr query
      end
  end.

(** [sendMessage] from the point where [getSession] has answered. *)
Definition sendMessageLoaded (cfg : Config) (t : Turn) (sessionId query : jsstring)
    (currentMessages : list Message) (st : Redis.Store)
    : Redis.Store * Response * list StoreOp :=
  let messages1 := currentMessages ++ [restUserMessage t query] in
  match generateRAGResponse (world t) (VString query) sessionId with
  | Throws _ => (st, Status500, [])
  | Returns ragResponse =>
      let messages2 := messages1 ++ [restBotMessage t ragResponse] in
      match Redis.saveSession (REDIS_TTL cfg) (saveTimestamp t) st sessionId messages2 with
      | Throws _ => (st, Status500, [OpSave sessionId messages2])
      | Returns st' =>
          (st',
           Status200 (answer ragResponse) (sources ragResponse)
             (withProcessingTime (metadata ragResponse)
                (respondedAt t - requestStart t))
             (length messages2) sessionId,
           [OpSave sessionId messages2])
      end
  end.

(** [sendMessage(req, res)]: the store afterwards, the response, and the
    store calls made. *)
Definition sendMessage (cfg : Config) (t : Turn) (body : Body) (st : Redis.Store)
    : Redis.Store * Response * list StoreOp :=
  match validateTurn cfg body with
  | inl error => (st, Status400 error, [])
  | inr query =>
      let sessionId := b_sessionId body in
      let currentMessages := Redis.getSession st sessionId in
      let '(st', response, ops) :=
        sendMessageLoaded cfg t sessionId query currentMessages st in
      (st', response, OpGet sessionId :: ops)
  end.

(** *** Two REST turns in flight

    A handler gives up control only where it awaits. Between the read of
    the session and its write lies the await of the orchestrator, so a
    turn touches the store in two separate steps. *)

Inductive RestPhase : Type :=
  | Received (body : Body)
  | Loaded (sessionId query : jsstring) (currentMessages : list Message)
  | Responded (response : Response).

Definition restStep (cfg : Config) (t : Turn) (phase : RestPhase) (st : Redis.Store)
    : RestPhase * Redis.Store :=
  match phase with
  | Received body =>
      match validateTurn cfg body with
      | inl error => (Responded (Status400 error), st)
      | inr query =>
          (Loaded (b_sessionId body) query (Redis.getSession st (b_sessionId body)), st)
      end
  | Loaded sessionId query currentMessages =>
      let '(st', response, _) :=
        sendMessageLoaded cfg t sessionId query currentMessages st in
      (Responded response, st')
  | Responded response => (Responded response, st)
  end.

Inductive Who : Type := First | Second.

(** Two turns advanced in the order a schedule gives. *)
Fixpoint runSchedule (cfg : Config) (t1 t2 : Turn) (schedule : list Who)
    (p1 p2 : RestPhase) (st : Redis.Store)
    : RestPhase * RestPhase * Redis.Store :=
  match schedule with
  | [] => (p1, p2, st)
  | First :: rest =>
      let '(p1', st') := restStep cfg t1 p1 st in
      runSchedule cfg t1 t2 rest p1' p2 st'
  | Second :: rest =>
      let '(p2', st') := restStep cfg t2 p2 st in
      runSchedule cfg t1 t2 rest p1 p2' st'
  end.

(** A schedule along which time also passes on the store: between two
    steps of the handlers the server's clock may move on. *)
Inductive TimedStep : Type :=
  | Run (who : Who)
  | Wait (seconds : N).

Fixpoint runTimed (cfg : Config) (t1 t2 : Turn) (schedule : list TimedStep)
    (p1 p2 : RestPhase) (st : Redis.Store)
    : RestPhase * RestPhase * Redis.Store :=
  match schedule with
  | [] => (p1, p2, st)
  | Run First :: rest =>
      let '(p1', st') := restStep cfg t1 p1 st in
      runTimed cfg t1 t2 rest p1' p2 st'
  | Run Second :: rest =>
      let '(p2', st') := restStep cfg t2 p2 st in
      runTimed cfg t1 t2 rest p1 p2' st'
  | Wait seconds :: rest =>
      runTimed cfg t1 t2 rest p1 p2 (Redis.tick (Z.of_N seconds) st)
  end.

(** *** The socket event [send_message] *)

Inductive Emit : Type :=
  | EmitError (text : jsstring)
  | RoomNewMessage (sessionId : jsstring) (m : Message)
  | RoomBotTyping (sessionId : jsstring) (typing : bool)
  | SocketErrorMessage (id timestamp : jsstring).

Definition socketUserMessage (t : Turn) (query : jsstring) : Message :=
  mkMessage (userMessageId t) user (Some query) (userTimestamp t) None
    (SocketUserMeta (socketId t) (socketAddress t)).

Definition socketBotMessage (t : Turn) (ragResponse : RAGResult) : Message :=
  mkMessage (botMessageId t) bot (answer ragResponse) (botTimestamp t)
    (Some (sources ragResponse)) (BotMeta (metadata ragResponse)).

(** What the [catch] block of the handler emits. *)
Definition socketCatch (t : Turn) (sessionId : jsstring) : list Emit :=
  [RoomBotTyping sessionId false;
   SocketErrorMessage (errorMessageId t) (errorTimestamp t)].

(** The handler of [send_message]: the store afterwards, the events
    emitted, and the store calls made. *)
Definition handleSendMessage (cfg : Config) (t : Turn) (data : Body)
    (st : Redis.Store) : Redis.Store * list Emit * list StoreOp :=
  match validateTurn cfg data with
  | inl error => (st, [EmitError error], [])
  | inr query =>
      let sessionId := b_sessionId data in
      let messages0 := Redis.getSession st sessionId in
      let userMessage := socketUserMessage t query in
      let messages1 := messages0 ++ [userMessage] in
      match Redis.saveSession (REDIS_TTL cfg) (firstSaveTimestamp t) st
              sessionId messages1 with
      | Throws _ =>
          (st, socketCatch t sessionId,
           [OpGet sessionId; OpSave sessionId messages1])
      | Returns st1 =>
          let emitted :=
            [RoomNewMessage sessionId userMessage; RoomBotTyping sessionId true] in
          match generateRAGResponse (world t) (VString query) sessionId with
          | Throws _ =>
              (st1, emitted ++ socketCatch t sessionId,
               [OpGet sessionId; OpSave sessionId messages1])
          | Returns ragResponse =>
              let botMessage := socketBotMessage t ragResponse in
              let messages2 := messages1 ++ [botMessage] in
              match Redis.saveSession (REDIS_TTL cfg) (saveTimestamp t) st1
                      sessionId messages2 with
              | Throws _ =>
                  (st1, emitted ++ socketCatch t sessionId,
                   [OpGet sessionId; OpSave sessionId messages1;
                    OpSave sessionId messages2])
              | Returns st2 =>
                  (st2,
                   emitted ++ [RoomBotTyping sessionId false;
                               RoomNewMessage sessionId botMessage],
                   [OpGet sessionId; OpSave sessionId messages1;
                    OpSave sessionId messages2])
              end
          end
      end
  end.

(** The saves among the store calls of a handler. *)
Definition savesOf (ops : list StoreOp) : list (list Message) :=
  flat_map (fun op => match op with OpSave _ ms => [ms] | OpGet _ => [] end) ops.

End ChatController.

(** The milliseconds a trace spends waiting. *)
Definition totalSleep (tr : list Event) : Z :=
  fold_right (fun ev acc => match ev with Sleep ms => ms + acc | Call _ => acc end)%Z
    0%Z tr.
(** ** controllers/chatController.js: the other socket events and the
    history endpoint *)

Module ChatEvents.
Import ChatController.

(** What these handlers emit. *)
Inductive SocketReply : Type :=
  | ReplyError (text : jsstring)
  | ReplyHistory (messages : list Message)
  | RoomCleared (sessionId : jsstring).

(** The handler of [join_session]: the store afterwards, the events
    emitted, and the room joined if any. *)
Definition handleJoinSession (cfg : Config) (sessionId : JsValue) (st : Redis.Store)
    : Redis.Store * list SocketReply * option jsstring :=
  match sessionId with
  | VOther => (st, [ReplyError (js "Invalid session ID")], None)
  | VString [] => (st, [ReplyError (js "Invalid session ID")], None)
  | VString sid =>
      let messages := Redis.getSession st sid in
      let st' :=
        if (0 <? length messages)%nat
        then snd (Redis.extendSessionTTL (REDIS_TTL cfg) st sid None)
        else st in
      (st', [ReplyHistory messages], Some sid)
  end.

(** The handler of [clear_session]. *)
Definition handleClearSession (sessionId : jsstring) (st : Redis.Store)
    : Redis.Store * list SocketReply :=
  match Redis.deleteSession st sessionId with
  | Returns (_, st') => (st', [RoomCleared sessionId])
  | Throws _ => (st, [ReplyError (js "Failed to clear session")])
  end.

Inductive HistoryResponse : Type :=
  | HistoryBadRequest (error : jsstring)
  | HistoryOk (sessionId : jsstring) (messages : list Message) (messageCount : nat).

(** [getChatHistory(req, res)] on [req.params.sessionId]. *)
Definition getChatHistory (sessionId : jsstring) (st : Redis.Store) : HistoryResponse :=
  match sessionId with
  | [] => HistoryBadRequest (js "Session ID is required")
  | _ =>
      let messages := Redis.getSession st sessionId in
      HistoryOk sessionId messages (length messages)
  end.

End ChatEvents.

(** ** The session controller *)

Module SessionController.

Definition isUser (m : Message) : bool :=
  match m_type m with user => true | bot => false end.

Definition isBot (m : Message) : bool :=
  match m_type m with bot => true | user => false end.

(** [m.sources && m.sources.length > 0], as a condition. *)
Definition hasSources (m : Message) : bool :=
  match m_sources m with
  | Some l => (0 <? length l)%nat
  | None => false
  end.

(** [m.sources?.length || 0] *)
Definition sourceCount (m : Message) : nat :=
  match m_sources m with
  | Some l => length l
  | None => 0%nat
  end.

(** The clock and the date parser of a request: [Date.now()],
    [new Date().toISOString()], and [new Date(s).getTime()], which is
    [None] for NaN. *)
Record Clock := mkClock {
  dateNow : Z;
  isoNow : jsstring;
  getTime : jsstring -> option Z
}.

(** [Date.now() - new Date(s).getTime()] *)
Definition ageOf (clock : Clock) (s : jsstring) : option Z :=
  option_map (fun t => dateNow clock - t)%Z (getTime clock s).

(** *** createSession *)

Inductive CreateResponse : Type :=
  | Created (sessionId : jsstring) (expiresIn : Z)
  | CreateFailed.

(** [createSession(req, res)]; [sessionId] is the fresh [uuidv4()]. *)
Definition createSession (REDIS_TTL : option Z) (clock : Clock)
    (sessionId : jsstring) (st : Redis.Store) : Redis.Store * CreateResponse :=
  match Redis.saveSession REDIS_TTL (isoNow clock) st sessionId [] with
  | Returns st' => (st', Created sessionId (Redis.configuredTTL REDIS_TTL))
  | Throws _ => (st, CreateFailed)
  end.

(** *** getSessionHistory *)

Record SessionStats := mkSessionStats {
  totalMessages : nat;
  userMessages : nat;
  botMessages : nat;
  createdAt : option jsstring;
  lastActivity : option jsstring;
  sessionAge : option Z
}.

Definition sessionStatsOf (clock : Clock) (messages : list Message) : SessionStats :=
  mkSessionStats
    (length messages)
    (length (List.filter isUser messages))
    (length (List.filter isBot messages))
    (option_map m_timestamp (head messages))
    (option_map m_timestamp (last messages))
    (match messages with
     | [] => Some 0%Z
     | first :: _ => ageOf clock (m_timestamp first)
     end).

(** [getSessionHistory(req, res)]: the store afterwards and the body of
    the 200 response. *)
Definition getSessionHistory (REDIS_TTL : option Z) (clock : Clock)
    (sessionId : jsstring) (st : Redis.Store)
    : Redis.Store * (list Message * SessionStats) :=
  let messages := Redis.getSession st sessionId in
  let st' :=
    if (0 <? length messages)%nat
    then snd (Redis.extendSessionTTL REDIS_TTL st sessionId None)
    else st in
  (st', (messages, sessionStatsOf clock messages)).

(** *** clearSession *)

Inductive ClearResponse : Type :=
  | Cleared (sessionId : jsstring) (clearedMessages : nat)
  | ClearFailed.

Definition clearSession (sessionId : jsstring) (st : Redis.Store)
    : Redis.Store * ClearResponse :=
  let messageCount := length (Redis.getSession st sessionId) in
  match Redis.deleteSession st sessionId with
  | Returns (_, st') => (st', Cleared sessionId messageCount)
  | Throws _ => (st, ClearFailed)
  end.

(** *** getSessionStats *)

Record TimelineEntry := mkTimelineEntry {
  tl_timestamp : jsstring;
  tl_type : MessageType;
  tl_hasSources : option bool   (* [None] when [m.sources] is undefined *)
}.

Definition timelineEntryOf (m : Message) : TimelineEntry :=
  mkTimelineEntry (m_timestamp m) (m_type m)
    (option_map (fun l => (0 <? length l)%nat) (m_sources m)).

(** [arr.slice(-n)] *)
Definition sliceLast {A : Type} (n : nat) (l : list A) : list A :=
  skipn (length l - n) l.

Record DetailedStats := mkDetailedStats {
  st_total : nat;
  st_user : nat;
  st_bot : nat;
  st_createdAt : jsstring;
  st_lastActivity : jsstring;
  st_duration : option Z;
  st_isActive : bool;
  st_responsesWithSources : nat;
  st_totalSources : nat;
  st_timeline : list TimelineEntry
}.

Inductive StatsResponse : Type :=
  | StatsMissing (sessionId : jsstring)     (* exists: false *)
  | StatsFound (sessionId : jsstring) (stats : DetailedStats).

Definition getSessionStats (clock : Clock) (sessionId : jsstring) (st : Redis.Store)
    : StatsResponse :=
  match Redis.getSession st sessionId with
  | [] => StatsMissing sessionId
  | first :: rest =>
      let messages := first :: rest in
      let botMessages := List.filter isBot messages in
      let lastMessage := List.last rest first in
      StatsFound sessionId
        (mkDetailedStats
           (length messages)
           (length (List.filter isUser messages))
           (length botMessages)
           (m_timestamp first)
           (m_timestamp lastMessage)
           (ageOf clock (m_timestamp first))
           (match ageOf clock (m_timestamp lastMessage) with
            | Some age => (age <? 300000)%Z
            | None => false
            end)
           (length (List.filter hasSources botMessages))
           (fold_left (fun sum m => (sum + sourceCount m)%nat) botMessages 0%nat)
           (sliceLast 10 (List.map timelineEntryOf messages)))
  end.

(** *** exportSession *)

Record ExportedMessage := mkExportedMessage {
  ex_id : jsstring;
  ex_type : MessageType;
  ex_content : option jsstring;
  ex_timestamp : jsstring;
  ex_sources : list Orchestrator.Source
}.

Definition exportedMessageOf (m : Message) : ExportedMessage :=
  mkExportedMessage (m_id m) (m_type m) (m_content m) (m_timestamp m)
    (match m_sources m with Some l => l | None => [] end).

Inductive ExportResponse : Type :=
  | ExportNotFound (sessionId : jsstring)
  | ExportOk (sessionId exportedAt : jsstring) (messageCount : nat)
      (messages : list ExportedMessage)
  | ExportBadFormat.

(** [exportSession(req, res)]; [format] is [req.query.format], [None]
    when absent. *)
Definition exportSession (clock : Clock) (sessionId : jsstring)
    (format : option jsstring) (st : Redis.Store) : ExportResponse :=
  let format' := match format with Some f => f | None => js "json" end in
  match Redis.getSession st sessionId with
  | [] => ExportNotFound sessionId
  | messages =>
      if bool_decide (format' = js "json")
      then ExportOk sessionId (isoNow clock) (length messages)
             (List.map exportedMessageOf messages)
      else ExportBadFormat
  end.

End SessionController.

(** ** routes/session.js *)

Module SessionRoutes.
Import SessionController.

Inductive DeleteResponse : Type :=
  | DeleteOk (sessionId : jsstring)
  | DeleteNotFound (sessionId : jsstring)
  | DeleteFailed.

(** DELETE /api/session/:sessionId *)
Definition deleteRoute (sessionId : jsstring) (st : Redis.Store)
    : Redis.Store * DeleteResponse :=
  match Redis.deleteSession st sessionId with
  | Returns (true, st') => (st', DeleteOk sessionId)
  | Returns (false, st') => (st', DeleteNotFound sessionId)
  | Throws _ => (st, DeleteFailed)
  end.

Record RouteStats := mkRouteStats {
  rs_exists : bool;
  rs_total : nat;
  rs_user : nat;
  rs_bot : nat;
  rs_createdAt : option jsstring;
  rs_lastActivity : option jsstring;
  rs_isActive : bool
}.

(** GET /api/session/:sessionId/stats *)
Definition statsRoute (sessionId : jsstring) (st : Redis.Store) : RouteStats :=
  let messages := Redis.getSession st sessionId in
  mkRouteStats
    (0 <=? length messages)%nat
    (length messages)
    (length (List.filter isUser messages))
    (length (List.filter isBot messages))
    (option_map m_timestamp (head messages))
    (option_map m_timestamp (last messages))
    (0 <? length messages)%nat.

Inductive RouteCreateResponse : Type :=
  | RouteCreated (sessionId : jsstring)
  | RouteCreateFailed.

(** POST /api/session/create; [sessionId] is the fresh [uuidv4()]. *)
Definition createRoute (REDIS_TTL : option Z) (timestamp sessionId : jsstring)
    (st : Redis.Store) : Redis.Store * RouteCreateResponse :=
  match Redis.saveSession REDIS_TTL timestamp st sessionId [] with
  | Returns st' => (st', RouteCreated sessionId)
  | Throws _ => (st, RouteCreateFailed)
  end.

End SessionRoutes.
(** ** services/embeddingService.js *)

Module EmbeddingService.

Definition MAX_RETRIES : nat := 3.
Definition RETRY_DELAY : Z := 1000.

(** What [axios.post] gives on one attempt for a single text:
    [ReplyInvalid] is a response without [data.data[0].embedding]. *)
Inductive EmbeddingReply : Type :=
  | ReplyFails (e : JsError)
  | ReplyInvalid
  | ReplyVector (embedding : list float).

Definition embedAttempt (reply : EmbeddingReply) : Outcome (list float) :=
  match reply with
  | ReplyFails e => Throws e
  | ReplyInvalid => Throws (Error (js "Invalid response format from Jina API"))
  | ReplyVector embedding => Returns embedding
  end.

(** The retry loop of [generateEmbedding]; a loop that runs out returns
    [undefined], here [None]. *)
Fixpoint embedLoop (post : nat -> EmbeddingReply) (remaining attempt : nat)
    : list Event * Outcome (option (list float)) :=
  match remaining with
  | O => ([], Returns None)
  | S k =>
      match embedAttempt (post attempt) with
      | Returns embedding => ([Call attempt], Returns (Some embedding))
      | Throws error =>
          if (attempt =? MAX_RETRIES)%nat then
            ([Call attempt],
             Throws (Error (js "Failed to generate embedding after "
                            ++ showNat MAX_RETRIES ++ js " attempts: "
                            ++ message error)))
          else
            let '(tr, r) := embedLoop post k (S attempt) in
            (Call attempt :: Sleep (RETRY_DELAY * Z.of_nat attempt) :: tr, r)
      end
  end.

(** [text.trim().substring(0, 8000)] *)
Definition cleanText (text : jsstring) : jsstring :=
  substring0 (8 * 1000) (trim text).

(** [generateEmbedding(text)]: [apiKey] tells whether [JINA_API_KEY] is
    set, [post] answers a request by its input text and attempt. *)
Definition generateEmbedding (apiKey : bool)
    (post : jsstring -> nat -> EmbeddingReply) (text : JsValue)
    : list Event * Outcome (option (list float)) :=
  match text with
  | VOther => ([], Throws (Error (js "Text must be a non-empty string")))
  | VString [] => ([], Throws (Error (js "Text must be a non-empty string")))
  | VString s =>
      if negb apiKey then
        ([], Throws (Error (js "JINA_API_KEY environment variable is not set")))
      else embedLoop (post (cleanText s)) MAX_RETRIES 1
  end.

(** What [axios.post] gives for a batch: [BatchInvalid] is a response
    whose [data.data] is not an array; an item without [embedding] is
    [None]. *)
Inductive BatchReply : Type :=
  | BatchFails (e : JsError)
  | BatchInvalid
  | BatchItems (items : list (option (list float))).

Inductive BatchEvent : Type :=
  | BatchCall (start : nat)
  | BatchWait (ms : Z)
  | ItemCalls (trace : list Event).

(** [new Array(768).fill(0)] *)
Definition zeroVector : list float := repeat 0%float 768.

(** The fallback of a failed batch: one call of [generateEmbedding] per
    text, a zero vector where that throws. *)
Fixpoint embedEach (apiKey : bool) (post : jsstring -> nat -> EmbeddingReply)
    (batch : list jsstring)
    : list BatchEvent * list (option (list float)) :=
  match batch with
  | [] => ([], [])
  | text :: rest =>
      let '(events, embeddings) := embedEach apiKey post rest in
      match generateEmbedding apiKey post (VString text) with
      | (tr, Returns embedding) =>
          (ItemCalls tr :: BatchWait 500 :: events, embedding :: embeddings)
      | (tr, Throws _) =>
          (ItemCalls tr :: events, Some zeroVector :: embeddings)
      end
  end.

(** The loop [for (let i = 0; i < texts.length; i += batchSize)]. It is
    given a number of iterations it may use; [None] means that these were
    not enough. *)
Fixpoint batchLoop (apiKey : bool)
    (batchPost : nat -> list jsstring -> BatchReply)
    (post : jsstring -> nat -> EmbeddingReply)
    (texts : list jsstring) (batchSize : nat) (fuel i : nat)
    : option (list BatchEvent * list (option (list float))) :=
  match fuel with
  | O => if (i <? length texts)%nat then None else Some ([], [])
  | S fuel' =>
      if (i <? length texts)%nat then
        let batch := firstn batchSize (skipn i texts) in
        let cleanBatch := List.map cleanText batch in
        let '(events, embeddings) :=
          match batchPost i cleanBatch with
          | BatchItems items =>
              (BatchCall i ::
               (if (i + batchSize <? length texts)%nat then [BatchWait 2000] else []),
               items)
          | _ =>
              let '(events, embeddings) := embedEach apiKey post batch in
              (BatchCall i :: events, embeddings)
          end in
        match batchLoop apiKey batchPost post texts batchSize fuel' (i + batchSize) with
        | Some (events', embeddings') =>
            Some (List.app events events', List.app embeddings embeddings')
        | None => None
        end
      else Some ([], [])
  end.

(** [generateBatchEmbeddings(texts, batchSize)] on an array of strings. *)
Definition generateBatchEmbeddings (apiKey : bool)
    (batchPost : nat -> list jsstring -> BatchReply)
    (post : jsstring -> nat -> EmbeddingReply)
    (texts : list jsstring) (batchSize : nat) (fuel : nat)
    : option (list BatchEvent * Outcome (list (option (list float)))) :=
  match texts with
  | [] => Some ([], Throws (Error (js "Texts must be a non-empty array")))
  | _ =>
      match batchLoop apiKey batchPost post texts batchSize fuel 0 with
      | Some (events, embeddings) => Some (events, Returns embeddings)
      | None => None
      end
  end.

End EmbeddingService.

(** ** services/ragService.js: the health check *)

Module RagHealth.
Import RagService Orchestrator.

Inductive HealthReport : Type :=
  | Operational (embedding vectorSearch gemini : jsstring)
  | Degraded (error : jsstring).

(** [healthCheck()]. [otherTruthy] tells whether an embedding that is not
    an array is a truthy value. *)
Definition healthCheck (w : World) (otherTruthy : bool) : HealthReport :=
  match snd (JinaService.generateEmbedding (math w) (jinaApiKey w) (jinaPost w)
               (js "test query") 2) with
  | Throws e => Degraded (message e)
  | Returns testEmbedding =>
      let geminiStatus :=
        match snd (generateWithGemini (gemini w (js "Hello")) 1 1000) with
        | Returns _ => js "healthy"
        | Throws error =>
            if includes (message error) (js "503") then js "overloaded"
            else js "error"
        end in
      let truthy :=
        match testEmbedding with
        | Some (JinaService.EmbArray _) => true
        | Some JinaService.EmbNotArray => otherTruthy
        | None => false
        end in
      Operational (if truthy then js "healthy" else js "error")
        (js "healthy") geminiStatus
  end.

End RagHealth.

(** ** Scenarios: concrete inputs used by the examples below *)

Module Scenario.
Import RagService.

Definition badRequest : JsError := Error (js "400 Bad Request: malformed prompt").
Definition overloaded : JsError :=
  Error (js "[503 Service Unavailable] The model is overloaded").
Definition goodText : jsstring := js "Here is the news summary you asked for.".

(** A model whose first answer is a malformed-request failure and whose
    second answer is a usable text. *)
Definition failsOnceNonRetryable (attempt : nat) : GeminiReply :=
  match attempt with
  | 1%nat => GenFails badRequest
  | _ => GenText goodText
  end.

(** A model that is overloaded on every attempt. *)
Definition alwaysOverloaded (attempt : nat) : GeminiReply := GenFails overloaded.

(** A model that rejects every attempt as malformed. *)
Definition alwaysBadRequest (attempt : nat) : GeminiReply := GenFails badRequest.

(** Stand-ins for [Math.sin] and [Math.cos]: the numbers inside a mock
    embedding play no part in the examples. *)
Definition sampleMath : JinaService.MathLib :=
  JinaService.mkMathLib (fun x => x) (fun x => x).

Definition unavailable : JsError :=
  mkJsError (js "Request failed with status code 503") (Some 503%Z).

Definition connectionRefused : JsError :=
  Error (js "connect ECONNREFUSED 127.0.0.1:6333").

(** A candidate that carries only a score. *)
Definition scored (score' : float) : Candidate :=
  mkCandidate (js "doc") score' (Some emptyPayload).

(** A candidate without a [payload] property. *)
Definition bare : Candidate := mkCandidate (js "doc") 0x1.b333333333333p-1 None.

(** The literals [0.85], [0.7] and [0.6]. *)
Definition score085 : float := 0x1.b333333333333p-1.
Definition score070 : float := 0x1.6666666666666p-1.
Definition score060 : float := 0x1.3333333333333p-1.

(** An embedding service that is down, a vector store that is
    unreachable, a model that is overloaded. *)
Definition allDown : Orchestrator.World :=
  Orchestrator.mkWorld sampleMath asciiLower
    true (fun _ _ => JinaService.PostFails unavailable)
    true (fun _ _ _ => QdrantService.SearchFails connectionRefused)
    (fun _ _ => GenFails overloaded)
    1000 1250 (js "2025-09-17T10:30:00.000Z").

(** Every service answers; the index returns two candidates scoring 0.85
    and 0.6. *)
Definition twoCandidates : Orchestrator.World :=
  Orchestrator.mkWorld sampleMath asciiLower
    true (fun _ _ => JinaService.PostEmbedding (JinaService.EmbArray [0%float; 1%float]))
    true (fun _ _ _ => QdrantService.SearchResult [scored score085; scored score060])
    (fun _ _ => GenText goodText)
    1000 1250 (js "2025-09-17T10:30:00.000Z").

(** The embedding service answers with something that is not an array. *)
Definition oddEmbedding : Orchestrator.World :=
  Orchestrator.mkWorld sampleMath asciiLower
    true (fun _ _ => JinaService.PostEmbedding JinaService.EmbNotArray)
    true (fun _ _ _ => QdrantService.SearchNoResult)
    (fun _ _ => GenText goodText)
    1000 1250 (js "2025-09-17T10:30:00.000Z").

Definition sessionA : jsstring := js "3f2b8c1e-7d4a-4c59-9e0b-5a6f1d2c3b4a".

(** A schema that checks the message only: a string of 1 to 1000 code
    units. *)
Definition sampleSchema (body : ChatController.Body) : option jsstring :=
  match ChatController.b_message body with
  | VString s =>
      if (1 <=? length s)%nat && (length s <=? 1000)%nat then None
      else Some (quote ++ js "message" ++ quote
                 ++ js " length must be between 1 and 1000 characters long")
  | VOther => Some (quote ++ js "message" ++ quote ++ js " must be a string")
  end.

Definition sampleConfig : ChatController.Config :=
  ChatController.mkConfig sampleSchema None.

Definition turn1 : ChatController.Turn :=
  ChatController.mkTurn twoCandidates
    (js "user-1") (js "bot-1")
    (js "2025-09-17T10:30:00.000Z") (js "2025-09-17T10:30:01.000Z")
    (js "2025-09-17T10:30:00.100Z") (js "2025-09-17T10:30:01.100Z")
    1000 2000 2100
    (js "socket-1") (js "10.0.0.1") (Some (js "10.0.0.1")) (Some (js "curl/8.0"))
    (js "error-1") (js "2025-09-17T10:30:01.200Z").

Definition turn2 : ChatController.Turn :=
  ChatController.mkTurn allDown
    (js "user-2") (js "bot-2")
    (js "2025-09-17T10:30:00.500Z") (js "2025-09-17T10:30:01.500Z")
    (js "2025-09-17T10:30:00.600Z") (js "2025-09-17T10:30:01.600Z")
    1500 2500 2600
    (js "socket-2") (js "10.0.0.2") (Some (js "10.0.0.2")) (Some (js "Mozilla/5.0"))
    (js "error-2") (js "2025-09-17T10:30:01.700Z").

Definition body1 : ChatController.Body :=
  ChatController.mkBody sessionA (VString (js "What happened in tech today?")).

Definition body2 : ChatController.Body :=
  ChatController.mkBody sessionA (VString (js "latest AI news")).

(** A reachable store without keys, at time 0. *)
Definition emptyStore : Redis.Store := Redis.mkStore true 0 ∅.

(** A store where the session was saved 3000 seconds ago with the default
    TTL: 600 seconds are left. *)
Definition agedStore : Redis.Store :=
  Redis.mkStore true 3000
    (<[Redis.sessionKey sessionA :=
         Redis.mkEntry (Redis.mkSessionData sessionA [] (js "2025-09-17T09:40:00.000Z") 0)
           3600]> ∅).

(** The messages that the two REST turns append. *)
Definition ragOf (t : ChatController.Turn) (query : jsstring)
    : Orchestrator.RAGResult :=
  match Orchestrator.generateRAGResponse (ChatController.world t)
          (VString query) sessionA with
  | Returns r => r
  | Throws e => Orchestrator.errorFallback (ChatController.world t) query e
  end.

Definition user1 : Message :=
  ChatController.restUserMessage turn1 (js "What happened in tech today?").
Definition bot1 : Message :=
  ChatController.restBotMessage turn1 (ragOf turn1 (js "What happened in tech today?")).
Definition user2 : Message :=
  ChatController.restUserMessage turn2 (js "latest AI news").
Definition bot2 : Message :=
  ChatController.restBotMessage turn2 (ragOf turn2 (js "latest AI news")).

End Scenario.

(** * Properties *)

Example trim_ex : trim (js "  hi there 	") = js "hi there".
Proof. reflexivity. Qed.
Example includes_ex : includes (js "error 503 overloaded") (js "503") = true.
Proof. reflexivity. Qed.
Example replace_ex :
  replace (js "a {sources} b {sources}") (js "{sources}") (js "x$$y$&") =
  js "a x$y{sources} b {sources}".
Proof. reflexivity. Qed.
Example showNat_ex : showNat 120 = js "120" /\ showNat 0 = js "0".
Proof. split; reflexivity. Qed.

(** ** generateWithGemini *)

Module GeminiProps.
Import RagService Scenario.

Example badRequest_not_retryable : isRetryable (message badRequest) = false.
Proof. reflexivity. Qed.

Example overloaded_retryable : isRetryable (message overloaded) = true.
Proof. reflexivity. Qed.

(** Every iteration of the loop issues one request, so a run never makes
    more requests than [maxRetries]. *)
Lemma geminiLoop_calls model maxRetries retryDelay remaining attempt :
  (countCalls (fst (geminiLoop model maxRetries retryDelay remaining attempt))
   <= remaining)%nat.
Proof.
  revert attempt.
  induction remaining as [|k IH]; intros attempt; cbn [geminiLoop].
  - cbn. lia.
  - destruct (geminiAttempt (model attempt)) as [text|error]; [cbn; lia|].
    destruct (isRetryable (message error) && (attempt <? maxRetries)%nat).
    + specialize (IH (S attempt)).
      destruct (geminiLoop model maxRetries retryDelay k (S attempt)) as [tr r].
      cbn in *. unfold countCalls in *. cbn. lia.
    + destruct (attempt =? maxRetries)%nat; [cbn; lia|].
      specialize (IH (S attempt)).
      destruct (geminiLoop model maxRetries retryDelay k (S attempt)) as [tr r].
      cbn in *. unfold countCalls in *. cbn. lia.
Qed.

(** While the loop counter is in step with the iterations left, the loop
    ends in a text longer than ten code units or in an exception; it never
    falls through to [undefined]. *)
Lemma geminiLoop_terminal model maxRetries retryDelay remaining attempt :
  (remaining + attempt = maxRetries + 1)%nat -> (1 <= remaining)%nat ->
  match snd (geminiLoop model maxRetries retryDelay remaining attempt) with
  | Returns (Some text) => (10 < List.length text)%nat
  | Returns None => False
  | Throws _ => True
  end.
Proof.
  revert attempt.
  induction remaining as [|k IH]; intros attempt Hsync Hpos; [lia|].
  cbn [geminiLoop].
  destruct (geminiAttempt (model attempt)) as [text|error] eqn:Hatt.
  - cbn. unfold geminiAttempt in Hatt.
    destruct (model attempt) as [t|e]; [|discriminate].
    destruct (10 <? List.length t)%nat eqn:Hlen; [|discriminate].
    injection Hatt as <-. now apply Nat.ltb_lt.
  - destruct (isRetryable (message error) && (attempt <? maxRetries)%nat) eqn:Hretry.
    + apply andb_true_iff in Hretry as [_ Hlt]. apply Nat.ltb_lt in Hlt.
      specialize (IH (S attempt) ltac:(lia) ltac:(lia)).
      destruct (geminiLoop model maxRetries retryDelay k (S attempt)) as [tr r].
      exact IH.
    + destruct (attempt =? maxRetries)%nat eqn:Hlast; [exact I|].
      apply Nat.eqb_neq in Hlast.
      specialize (IH (S attempt) ltac:(lia) ltac:(lia)).
      destruct (geminiLoop model maxRetries retryDelay k (S attempt)) as [tr r].
      exact IH.
Qed.

Lemma generateWithGemini_terminal model maxRetries retryDelay :
  (1 <= maxRetries)%nat ->
  match snd (generateWithGemini model maxRetries retryDelay) with
  | Returns (Some text) => (10 < List.length text)%nat
  | Returns None => False
  | Throws _ => True
  end.
Proof.
  intros H. unfold generateWithGemini. apply geminiLoop_terminal; lia.
Qed.

(** A retryable failure on every attempt: three requests, waits of
    [retryDelay * attempt] between them, then the last error. *)
Example generateWithGemini_overloaded :
  generateWithGeminiDefault alwaysOverloaded =
  ([Call 1; Sleep 2000; Call 2; Sleep 4000; Call 3], Throws overloaded).
Proof. reflexivity. Qed.

(** A failure that matches none of the four substrings is swallowed by the
    [catch] block on every attempt but the last: the loop goes on to the
    next attempt at once, without a wait. *)
Example generateWithGemini_badRequest_exhausts :
  generateWithGeminiDefault alwaysBadRequest =
  ([Call 1; Call 2; Call 3], Throws badRequest).
Proof. reflexivity. Qed.

(** C4 (evaluation at the failing input): the first request fails with
    the non-retryable message "400 Bad Request: malformed prompt"; the
    code does not propagate it but issues a second request and returns
    that request's text. *)
Theorem generateWithGemini_retries_nonretryable :
  isRetryable (message badRequest) = false /\
  failsOnceNonRetryable 1 = GenFails badRequest /\
  generateWithGeminiDefault failsOnceNonRetryable =
    ([Call 1; Call 2], Returns (Some goodText)).
Proof. repeat split; reflexivity. Qed.

End GeminiProps.

(** ** Strings *)

Module StringProps.

Lemma startsWith_app (pat rest : jsstring) : startsWith pat (pat ++ rest) = true.
Proof.
  induction pat as [|p pat IH]; cbn; [reflexivity|].
  now rewrite N.eqb_refl, IH.
Qed.

Lemma splitFirst_start (pat s : jsstring) :
  startsWith pat s = true ->
  splitFirst pat s = Some ([], skipn (List.length pat) s).
Proof. intros H. destruct s; cbn [splitFirst]; now rewrite H. Qed.

(** A text that contains the pattern splits at some occurrence. *)
Lemma splitFirst_app (pat before after : jsstring) :
  exists b a, splitFirst pat (before ++ pat ++ after) = Some (b, a).
Proof.
  induction before as [|c before IH].
  - cbn [app]. rewrite splitFirst_start by apply startsWith_app. eauto.
  - cbn [app splitFirst].
    destruct (startsWith pat (c :: before ++ pat ++ after)); [eauto|].
    destruct IH as (b & a & ->). eauto.
Qed.

Lemma includes_app (pat before after : jsstring) :
  includes (before ++ pat ++ after) pat = true.
Proof.
  unfold includes. now destruct (splitFirst_app pat before after) as (b & a & ->).
Qed.

(** When the text starts with a code unit other than the first of the
    pattern, the text before the first occurrence is not empty. *)
Lemma splitFirst_head (p h : N) (pat s b a : jsstring) :
  (p =? h) = false ->
  splitFirst (p :: pat) (h :: s) = Some (b, a) -> exists b', b = h :: b'.
Proof.
  intros Hne. cbn [splitFirst startsWith]. rewrite Hne. cbn [andb].
  destruct (splitFirst (p :: pat) s) as [[b0 a0]|]; [|discriminate].
  intros [= <- <-]. eauto.
Qed.

(** A replacement without a dollar sign is inserted as it is. *)
Lemma getSubstitution_plain (matched before after r : jsstring) :
  forallb (fun c => negb (c =? 36)) r = true ->
  getSubstitution matched before after r = r.
Proof.
  induction r as [|c r IH]; [reflexivity|].
  cbn [forallb getSubstitution]. intros H.
  apply andb_true_iff in H as [Hc Hr].
  apply negb_true_iff in Hc. rewrite Hc. now rewrite IH.
Qed.

End StringProps.

(** ** generateFallbackResponse *)

Module FallbackProps.
Import Fallback StringProps Scenario.

Lemma templateText_split (before query after closing : jsstring) :
  templateText before query after closing =
  (before ++ quote ++ query ++ quote ++ after ++ nl ++ nl)
  ++ sourcesSlot ++ (nl ++ nl ++ closing).
Proof. unfold templateText. repeat rewrite <- app_assoc. reflexivity. Qed.


(** The slot is found in every template, so the replacement text always
    ends up in the answer. *)
Lemma replace_template_includes (before query after closing r : jsstring) :
  forallb (fun c => negb (c =? 36)) r = true ->
  includes (replace (templateText before query after closing) sourcesSlot r) r = true.
Proof.
  intros Hplain. rewrite templateText_split.
  destruct (splitFirst_app sourcesSlot
              (before ++ quote ++ query ++ quote ++ after ++ nl ++ nl)
              (nl ++ nl ++ closing)) as (pre & post & Hsplit).
  unfold replace. rewrite Hsplit, getSubstitution_plain by exact Hplain.
  apply includes_app.
Qed.

(** A template that starts with plain text keeps that start whatever is
    put into the slot. *)
Lemma replace_template_nonempty (before query after closing r : jsstring) :
  startsPlain before = true ->
  replace (templateText before query after closing) sourcesSlot r <> [].
Proof.
  destruct before as [|h t]; [discriminate|].
  cbn [startsPlain]. intros Hh. apply negb_true_iff in Hh.
  unfold replace.
  destruct (splitFirst sourcesSlot (templateText (h :: t) query after closing))
    as [[pre post]|] eqn:Hsplit.
  - change sourcesSlot with (123 :: js "sources}") in Hsplit.
    unfold templateText in Hsplit. cbn [app] in Hsplit.
    destruct (splitFirst_head _ _ _ _ _ _ Hh Hsplit) as [pre' ->].
    discriminate.
  - unfold templateText. cbn [app]. discriminate.
Qed.

Section WithLowerCase.

Variable lower : jsstring -> jsstring.

Lemma selectedTemplate_shape (query : jsstring) :
  exists before after closing,
    selectedTemplate lower query = templateText before query after closing
    /\ startsPlain before = true.
Proof.
  unfold selectedTemplate, fallbackTemplates, genericTemplate. cbn [List.find].
  repeat match goal with
         | |- context [templateMatches ?l ?q ?t] =>
             destruct (templateMatches l q t)
         end;
    cbn [template]; do 3 eexists; (split; [reflexivity|reflexivity]).
Qed.

Lemma formatDocuments_total (documents : list Candidate) (index : nat) :
  Forall (fun doc => hasPayload doc = true) documents ->
  exists lines,
    formatDocuments index documents = Returns lines
    /\ List.length lines = List.length documents.
Proof.
  intros Hall. revert index.
  induction Hall as [|doc rest Hdoc _ IH]; intros index; cbn [formatDocuments].
  - exists []. split; reflexivity.
  - unfold formatDocument. unfold hasPayload in Hdoc.
    destruct (payload doc) as [p|]; [|discriminate].
    destruct (IH (S index)) as (lines & -> & Hlen).
    eexists. split; [reflexivity|]. cbn. now rewrite Hlen.
Qed.

Lemma sourcesText_total (documents : list Candidate) :
  Forall (fun doc => hasPayload doc = true) documents ->
  exists text, sourcesText documents = Returns text.
Proof.
  intros Hall. unfold sourcesText. destruct documents as [|doc rest]; [eauto|].
  destruct (formatDocuments_total (doc :: rest) 0 Hall) as (lines & -> & _).
  eauto.
Qed.

(** A document without a payload makes the generator throw. *)
Lemma generateFallbackResponse_bare (query : jsstring) (rest : list Candidate) :
  exists e, generateFallbackResponse lower query (bare :: rest) = Throws e.
Proof. unfold generateFallbackResponse. cbn. eauto. Qed.



End WithLowerCase.

(** The recency bucket is the one chosen for "latest AI news". *)
Example fallback_latest_ai_news :
  Fallback.generateFallbackResponse asciiLower (js "latest AI news") [] =
  Returns (js "I apologize, but I'm currently experiencing high load and cannot generate a detailed response. However, based on your query about "
           ++ quote ++ js "latest AI news" ++ quote
           ++ js ", here are some relevant sources I found:" ++ nl ++ nl
           ++ noSourcesText ++ nl ++ nl
           ++ js "For the most up-to-date information, I recommend checking these news sources directly. Please try your question again in a moment when the system load is lighter.").
Proof. vm_compute. reflexivity. Qed.

(** A payload without any field is rendered with [undefined] for the
    title and the origin. *)
Example formatDocument_empty_payload :
  formatDocument 0 (scored score085) =
  Returns (js "1. undefined (undefined)" ++ nl ++ js "   No preview available").
Proof. reflexivity. Qed.



End FallbackProps.

(** ** generateEmbedding *)

Module JinaProps.
Import JinaService Scenario.

Lemma generateMockEmbedding_length (M : MathLib) (text : jsstring) :
  List.length (generateMockEmbedding M text) = 768%nat.
Proof. unfold generateMockEmbedding. now rewrite length_map, length_seq. Qed.

Lemma jinaLoop_calls post maxRetries remaining attempt :
  (countCalls (fst (jinaLoop post maxRetries remaining attempt)) <= remaining)%nat.
Proof.
  revert attempt.
  induction remaining as [|k IH]; intros attempt; cbn [jinaLoop]; [cbn; lia|].
  destruct (jinaAttempt (post attempt)) as [embedding|error]; [cbn; lia|].
  destruct ((attempt =? maxRetries)%nat || isClientError error); [cbn; lia|].
  specialize (IH (S attempt)).
  destruct (jinaLoop post maxRetries k (S attempt)) as [tr r].
  cbn in *. unfold countCalls in *. cbn. lia.
Qed.

(** The outer [catch] leaves no exception: the call always returns, after
    at most [maxRetries] requests. *)
Lemma generateEmbedding_returns M apiKey post text maxRetries :
  exists tr v,
    generateEmbedding M apiKey post text maxRetries = (tr, Returns v)
    /\ (countCalls tr <= maxRetries)%nat.
Proof.
  unfold generateEmbedding. destruct apiKey; cbn [negb].
  - pose proof (jinaLoop_calls (post (substring0 maxInputLength text))
                  maxRetries maxRetries 1) as Hcalls.
    destruct (jinaLoop (post (substring0 maxInputLength text)) maxRetries maxRetries 1)
      as [tr [v|e]]; cbn in Hcalls; eauto.
  - do 2 eexists. split; [reflexivity|]. cbn. lia.
Qed.

(** A client error (status below 500) is not retried, and it too ends in
    the mock embedding. *)
Example generateEmbedding_client_error :
  fst (generateEmbeddingDefault sampleMath true
         (fun _ _ => PostFails (mkJsError (js "Request failed with status code 401") (Some 401%Z)))
         (js "What happened in tech today?")) = [Call 1].
Proof. reflexivity. Qed.

(** C5 (counterexample): with the embedding service answering 503 on
    every attempt, the call makes two requests, not three, and then
    returns the mock embedding instead of propagating an error. *)
Lemma generateEmbedding_exhausted_returns_mock :
  generateEmbeddingDefault sampleMath true (fun _ _ => PostFails unavailable)
    (js "What happened in tech today?") =
  ([Call 1; Sleep 1000; Call 2],
   Returns (Some (EmbArray (generateMockEmbedding sampleMath
                              (js "What happened in tech today?")))))
  /\ forall e tr,
       generateEmbeddingDefault sampleMath true (fun _ _ => PostFails unavailable)
         (js "What happened in tech today?") <> (tr, Throws e).
Proof. split; [reflexivity|]. intros e tr. cbv. discriminate. Qed.

(** C5 (amended): when every request fails with something other than a
    client error, the default call makes two requests with a wait of
    1000 ms times the attempt number between them, and returns the
    768-component mock embedding of the text; whatever the service does
    and whether or not the key is set, the call returns after at most two
    requests and never throws. *)
Theorem generateEmbedding_degrades_to_mock
    (M : MathLib) (post : jsstring -> nat -> JinaReply) (text : jsstring) :
  (forall attempt, exists e,
      jinaAttempt (post (substring0 maxInputLength text) attempt) = Throws e
      /\ isClientError e = false) ->
  generateEmbeddingDefault M true post text =
    ([Call 1; Sleep 1000; Call 2],
     Returns (Some (EmbArray (generateMockEmbedding M text))))
  /\ List.length (generateMockEmbedding M text) = 768%nat
  /\ forall apiKey post',
       exists tr v, generateEmbeddingDefault M apiKey post' text = (tr, Returns v)
                    /\ (countCalls tr <= 2)%nat.
Proof.
  intros Hfail. split; [|split].
  - unfold generateEmbeddingDefault, generateEmbedding. cbn [negb jinaLoop].
    destruct (Hfail 1%nat) as (e1 & -> & Hc1).
    destruct (Hfail 2%nat) as (e2 & -> & Hc2).
    rewrite Hc1. cbn. reflexivity.
  - apply generateMockEmbedding_length.
  - intros apiKey post'. apply generateEmbedding_returns.
Qed.

Lemma generateEmbedding_degrades_to_mock_witness :
  (forall attempt : nat, exists e,
      jinaAttempt (PostFails unavailable) = Throws e /\ isClientError e = false)
  /\ generateEmbeddingDefault sampleMath true (fun _ _ => PostFails unavailable)
       (js "latest AI news") =
     ([Call 1; Sleep 1000; Call 2],
      Returns (Some (EmbArray (generateMockEmbedding sampleMath (js "latest AI news"))))).
Proof.
  assert (H : forall attempt : nat, exists e,
             jinaAttempt (PostFails unavailable) = Throws e
             /\ isClientError e = false)
    by (intros _; exists unavailable; split; reflexivity).
  split; [exact H|].
  exact (proj1 (generateEmbedding_degrades_to_mock sampleMath
                  (fun _ _ => PostFails unavailable) (js "latest AI news") H)).
Defined.

End JinaProps.

(** ** searchVectors *)

Module QdrantProps.
Import QdrantService Scenario.

Lemma searchVectors_returns apiKey post queryVector limit scoreThreshold :
  exists results,
    searchVectors apiKey post queryVector limit scoreThreshold = Returns results
    /\ Forall (fun doc => hasPayload doc = true) results.
Proof.
  unfold searchVectors.
  assert (Hmock : Forall (fun doc => hasPayload doc = true) getMockSearchResults)
    by (repeat constructor).
  destruct apiKey; cbn [negb]; [|eauto].
  destruct (post queryVector limit scoreThreshold) as [e| |points]; eauto.
  eexists. split; [reflexivity|].
  induction points as [|raw points IH]; cbn [List.map]; constructor;
    [reflexivity|exact IH].
Qed.

(** C2 (counterexample): with the vector store unreachable, the search
    returns the five mock articles, not the empty list. *)
Lemma searchVectors_unreachable_returns_mocks :
  searchVectors true (fun _ _ _ => SearchFails connectionRefused)
    [0%float; 1%float] 5 defaultScoreThreshold = Returns getMockSearchResults
  /\ searchVectors true (fun _ _ _ => SearchFails connectionRefused)
       [0%float; 1%float] 5 defaultScoreThreshold <> Returns []
  /\ List.length getMockSearchResults = 5%nat.
Proof. repeat split. cbn. discriminate. Qed.

(** C2 (amended): when the similarity query fails, the search does not
    throw and returns the five built-in mock articles. *)
Theorem searchVectors_failure_returns_mocks
    (apiKey : bool) (post : list float -> nat -> float -> QdrantReply)
    (queryVector : list float) (limit : nat) (scoreThreshold : float)
    (e : JsError) :
  post queryVector limit scoreThreshold = SearchFails e ->
  searchVectors apiKey post queryVector limit scoreThreshold =
    Returns getMockSearchResults
  /\ List.length getMockSearchResults = 5%nat.
Proof.
  intros Hfail. split; [|reflexivity].
  unfold searchVectors. destruct apiKey; cbn [negb]; [|reflexivity].
  now rewrite Hfail.
Qed.

Lemma searchVectors_failure_returns_mocks_witness :
  (fun (_ : list float) (_ : nat) (_ : float) => SearchFails connectionRefused)
    [0%float; 1%float] 5%nat defaultScoreThreshold = SearchFails connectionRefused
  /\ searchVectors true (fun _ _ _ => SearchFails connectionRefused)
       [0%float; 1%float] 5 defaultScoreThreshold = Returns getMockSearchResults.
Proof.
  split; [reflexivity|].
  exact (proj1 (searchVectors_failure_returns_mocks true
                  (fun _ _ _ => SearchFails connectionRefused)
                  [0%float; 1%float] 5%nat defaultScoreThreshold
                  connectionRefused eq_refl)).
Defined.

(** An answer without a result list is the one case that gives the empty
    list. *)
Example searchVectors_no_result :
  searchVectors true (fun _ _ _ => SearchNoResult) [0%float] 5
    defaultScoreThreshold = Returns [].
Proof. reflexivity. Qed.

End QdrantProps.

(** ** generateRAGResponse *)

Module OrchestratorProps.
Import RagService Orchestrator Scenario.

Lemma errorFallback_wellFormed w query e : wellFormed (errorFallback w query e).
Proof.
  split.
  - eexists. split; [reflexivity|]. unfold errorFallbackAnswer. cbn. discriminate.
  - right. right. reflexivity.
Qed.

Lemma generateAnswer_wellFormed w query relevantDocs result :
  generateAnswer w query relevantDocs = Returns result -> wellFormed result.
Proof.
  unfold generateAnswer.
  pose proof (GeminiProps.generateWithGemini_terminal
                (gemini w (systemPrompt (contextOf relevantDocs) query))
                3 2000 ltac:(lia)) as Hterm.
  destruct (snd (generateWithGemini
                   (gemini w (systemPrompt (contextOf relevantDocs) query)) 3 2000))
    as [[text|]|geminiError]; [| contradiction |].
  - intros [= <-]. split.
    + exists text. split; [reflexivity|]. destruct text; [cbn in Hterm; lia|discriminate].
    + left. reflexivity.
  - unfold Fallback.generateFallbackResponse.
    destruct (Fallback.sourcesText relevantDocs) as [src|e]; [|discriminate].
    intros [= <-]. split.
    + eexists. split; [reflexivity|].
      destruct (FallbackProps.selectedTemplate_shape (toLowerCase w) query)
        as (before & after & closing & -> & Hplain).
      now apply FallbackProps.replace_template_nonempty.
    + right. left. reflexivity.
Qed.

Lemma ragPipeline_wellFormed w query result :
  ragPipeline w query = Returns result -> wellFormed result.
Proof.
  unfold ragPipeline.
  destruct (validateQuery (VString query)) as [error|cleanQuery]; [discriminate|].
  destruct (snd (JinaService.generateEmbedding (math w) (jinaApiKey w)
                   (jinaPost w) cleanQuery 2)) as [[[embedding|]|]|e];
    try discriminate.
  destruct (QdrantService.searchVectors (qdrantApiKey w) (qdrantPost w)
              embedding 5 QdrantService.defaultScoreThreshold)
    as [searchResults|e]; [|discriminate].
  apply generateAnswer_wellFormed.
Qed.

Lemma generateRAGResponse_wellFormed (w : World) (query sessionId : jsstring) :
  exists result,
    generateRAGResponse w (VString query) sessionId = Returns result
    /\ wellFormed result.
Proof.
  unfold generateRAGResponse.
  destruct (ragPipeline w query) as [result|e] eqn:Hpipe.
  - exists result. split; [reflexivity|]. now apply ragPipeline_wellFormed in Hpipe.
  - eexists. split; [reflexivity|]. apply errorFallback_wellFormed.
Qed.

(** C1: for every query string and session id, whatever the three
    external services do, [generateRAGResponse] returns (it does not
    throw) a result whose answer is a non-empty string and whose
    [modelUsed] is "gemini-1.5-flash", "fallback-template" or
    "error-fallback". *)
Theorem generateRAGResponse_always_answers
    (w : World) (query sessionId : jsstring) :
  exists result text,
    generateRAGResponse w (VString query) sessionId = Returns result
    /\ answer result = Some text
    /\ text <> []
    /\ (modelUsed (metadata result) = js "gemini-1.5-flash"
        \/ modelUsed (metadata result) = js "fallback-template"
        \/ modelUsed (metadata result) = js "error-fallback").
Proof.
  destruct (generateRAGResponse_wellFormed w query sessionId)
    as (result & Hret & (text & Hans & Hne) & Hmodel).
  exists result, text. auto.
Qed.

(** The three final states are all reachable. *)
Example generateRAGResponse_success :
  option_map (fun r => modelUsed (metadata r))
    (match generateRAGResponse twoCandidates
             (VString (js "What happened in tech today?")) sessionA with
     | Returns r => Some r | Throws _ => None end)
  = Some (js "gemini-1.5-flash").
Proof. vm_compute. reflexivity. Qed.

Example generateRAGResponse_all_down :
  option_map (fun r => (modelUsed (metadata r), List.length (sources r)))
    (match generateRAGResponse allDown
             (VString (js "What happened in tech today?")) sessionA with
     | Returns r => Some r | Throws _ => None end)
  = Some (js "fallback-template", 5%nat).
Proof. vm_compute. reflexivity. Qed.

Example generateRAGResponse_odd_embedding :
  generateRAGResponse oddEmbedding (VString (js "What happened in tech today?")) sessionA
  = Returns (errorFallback oddEmbedding (js "What happened in tech today?")
               (Error (js "Failed to generate embedding for query"))).
Proof. vm_compute. reflexivity. Qed.

(** A query that is not a string makes the call reject. *)
Example generateRAGResponse_not_a_string :
  exists e, generateRAGResponse twoCandidates VOther sessionA = Throws e.
Proof. eexists. reflexivity. Qed.

(** *** Validation *)

Lemma validateQuery_spec (query : jsstring) :
  match validateQuery (VString query) with
  | Valid cleanQuery =>
      cleanQuery = trim query /\ (3 <= List.length (trim query) <= 1000)%nat
  | Invalid _ => ~ (3 <= List.length (trim query) <= 1000)%nat
  end.
Proof.
  destruct query as [|c s]; [cbn; lia|].
  cbn [validateQuery].
  destruct (Nat.ltb_spec (List.length (trim (c :: s))) 3); [lia|].
  destruct (Nat.ltb_spec 1000 (List.length (trim (c :: s)))); [lia|].
  split; [reflexivity|lia].
Qed.

(** C6 (counterexample): the query "hi" fails validation, yet the
    orchestrator returns a result for it and propagates no error. *)
Lemma invalid_query_is_answered :
  validateQuery (VString (js "hi")) =
    Invalid (js "Query is too short (minimum 3 characters)")
  /\ generateRAGResponse twoCandidates (VString (js "hi")) sessionA =
     Returns (errorFallback twoCandidates (js "hi")
                (Error (js "Invalid query: Query is too short (minimum 3 characters)")))
  /\ forall e, generateRAGResponse twoCandidates (VString (js "hi")) sessionA <> Throws e.
Proof.
  split; [reflexivity|]. split; [vm_compute; reflexivity|].
  intros e. vm_compute. discriminate.
Qed.

(** C6 (amended): a value that is not a string is invalid for
    [validateQuery]; a string whose trimmed length is outside [3, 1000]
    is invalid too, and for it the orchestrator does not throw: it returns
    the error-fallback result, whose [metadata.error] is "Invalid query: "
    followed by the validation message. *)
Theorem invalid_query_gets_error_fallback
    (w : World) (query sessionId : jsstring) :
  ~ (3 <= List.length (trim query) <= 1000)%nat ->
  validateQuery VOther = Invalid (js "Query must be a non-empty string")
  /\ exists reason,
       validateQuery (VString query) = Invalid reason
       /\ generateRAGResponse w (VString query) sessionId =
          Returns (errorFallback w query (Error (js "Invalid query: " ++ reason)))
       /\ modelUsed (metadata (errorFallback w query (Error (js "Invalid query: " ++ reason))))
          = js "error-fallback"
       /\ error (metadata (errorFallback w query (Error (js "Invalid query: " ++ reason))))
          = Some (js "Invalid query: " ++ reason).
Proof.
  intros Hlen. split; [reflexivity|].
  pose proof (validateQuery_spec query) as Hspec.
  unfold generateRAGResponse, ragPipeline.
  destruct (validateQuery (VString query)) as [reason|cleanQuery].
  - exists reason. repeat split.
  - destruct Hspec as [_ Hin]. contradiction.
Qed.

Lemma invalid_query_gets_error_fallback_witness :
  ~ (3 <= List.length (trim (js "  hi  ")) <= 1000)%nat
  /\ exists reason,
       validateQuery (VString (js "  hi  ")) = Invalid reason
       /\ generateRAGResponse allDown (VString (js "  hi  ")) sessionA =
          Returns (errorFallback allDown (js "  hi  ")
                     (Error (js "Invalid query: " ++ reason))).
Proof.
  assert (H : ~ (3 <= List.length (trim (js "  hi  ")) <= 1000)%nat)
    by (vm_compute; lia).
  split; [exact H|].
  destruct (invalid_query_gets_error_fallback allDown (js "  hi  ") sessionA H)
    as (_ & reason & Hv & Hr & _).
  exists reason. split; [exact Hv|exact Hr].
Defined.

(** *** The relevance filter *)

(** C7 (counterexample): a candidate whose score is the threshold itself
    is dropped. *)
Lemma threshold_score_is_dropped :
  score070 = relevanceThreshold
  /\ relevantDocsOf [scored score070] = [].
Proof. split; reflexivity. Qed.

(** C7 (amended): the filter keeps exactly the candidates whose score is
    strictly above the fixed threshold 0.7; with two candidates scoring
    0.85 and 0.6, exactly one remains, in the context and in the
    sources. *)
Theorem relevance_filter_is_strict :
  (forall searchResults doc,
      In doc (relevantDocsOf searchResults) <->
      In doc searchResults /\ (relevanceThreshold <? score doc)%float = true)
  /\ relevantDocsOf [scored score085; scored score060] = [scored score085]
  /\ List.length (contextEntries 0 (relevantDocsOf [scored score085; scored score060])) = 1%nat
  /\ exists result,
       generateRAGResponse twoCandidates
         (VString (js "What happened in tech today?")) sessionA = Returns result
       /\ List.length (sources result) = 1%nat
       /\ documentsFound (metadata result) = Some 1%nat.
Proof.
  split; [|split; [|split]].
  - intros searchResults doc. unfold relevantDocsOf. apply filter_In.
  - reflexivity.
  - reflexivity.
  - eexists. split; [vm_compute; reflexivity|]. split; reflexivity.
Qed.

End OrchestratorProps.

(** ** The session store *)

Module RedisProps.
Import Redis Scenario.

Lemma live_insert (st : Store) (key : jsstring) (v : SessionData) (ttl : Z) :
  (0 < ttl)%Z ->
  live (mkStore (connected st) (now st)
          (<[key := mkEntry v (now st + ttl)%Z]> (db st))) key
  = Some (mkEntry v (now st + ttl)%Z).
Proof.
  intros Hpos. unfold live. cbn [db now expiresAt].
  rewrite lookup_insert_eq. cbn [expiresAt].
  destruct (Z.ltb_spec (now st) (now st + ttl)); [reflexivity|lia].
Qed.

(** What a save that returns has done. *)
Lemma saveSession_returns REDIS_TTL timestamp st sessionId messages st' :
  saveSession REDIS_TTL timestamp st sessionId messages = Returns st' ->
  connected st = true
  /\ (0 < configuredTTL REDIS_TTL)%Z
  /\ st' = mkStore (connected st) (now st)
             (<[sessionKey sessionId :=
                  mkEntry (mkSessionData sessionId messages timestamp
                             (List.length messages))
                    (now st + configuredTTL REDIS_TTL)%Z]> (db st)).
Proof.
  unfold saveSession, setex.
  destruct (connected st) eqn:Hconn; cbn [negb]; [|discriminate].
  destruct (Z.leb_spec (configuredTTL REDIS_TTL) 0); [discriminate|].
  intros [= <-]. auto.
Qed.

(** A reachable store with a positive TTL accepts the save. *)
Lemma saveSession_succeeds REDIS_TTL timestamp st sessionId messages :
  connected st = true -> (0 < configuredTTL REDIS_TTL)%Z ->
  exists st',
    saveSession REDIS_TTL timestamp st sessionId messages = Returns st'
    /\ connected st' = true
    /\ now st' = now st.
Proof.
  intros Hconn Hpos. unfold saveSession, setex. rewrite Hconn. cbn [negb].
  destruct (Z.leb_spec (configuredTTL REDIS_TTL) 0); [lia|].
  eexists. split; [reflexivity|]. split; reflexivity.
Qed.

(** Round trip: what was saved is what is read back. *)
Lemma getSession_saveSession REDIS_TTL timestamp st sessionId messages st' :
  saveSession REDIS_TTL timestamp st sessionId messages = Returns st' ->
  getSession st' sessionId = messages.
Proof.
  intros Hsave. apply saveSession_returns in Hsave as (Hconn & Hpos & ->).
  unfold getSession, get. rewrite live_insert by exact Hpos.
  cbn [connected]. rewrite Hconn. reflexivity.
Qed.

(** Until the TTL has elapsed, what was saved is what is read back. *)
Lemma getSession_before_expiry REDIS_TTL timestamp st sessionId messages st'
    (elapsed : Z) :
  saveSession REDIS_TTL timestamp st sessionId messages = Returns st' ->
  (elapsed < configuredTTL REDIS_TTL)%Z ->
  getSession (tick elapsed st') sessionId = messages.
Proof.
  intros Hsave Hlt. apply saveSession_returns in Hsave as (Hconn & Hpos & ->).
  unfold getSession, get, tick, live. cbn [connected now db]. rewrite Hconn.
  cbn [negb]. rewrite lookup_insert_eq. cbn [expiresAt].
  destruct (Z.ltb_spec (now st + elapsed) (now st + configuredTTL REDIS_TTL));
    [reflexivity|lia].
Qed.

(** After the TTL has elapsed the session reads as empty. *)
Lemma getSession_expired REDIS_TTL timestamp st sessionId messages st' :
  saveSession REDIS_TTL timestamp st sessionId messages = Returns st' ->
  getSession (tick (configuredTTL REDIS_TTL) st') sessionId = [].
Proof.
  intros Hsave. apply saveSession_returns in Hsave as (Hconn & Hpos & ->).
  unfold getSession, get, tick, live. cbn [connected now db]. rewrite Hconn.
  cbn [negb]. rewrite lookup_insert_eq. cbn [expiresAt].
  destruct (Z.ltb_spec (now st + configuredTTL REDIS_TTL)
              (now st + configuredTTL REDIS_TTL)); [lia|reflexivity].
Qed.

Lemma saveSession_ttl REDIS_TTL timestamp st sessionId messages st' :
  saveSession REDIS_TTL timestamp st sessionId messages = Returns st' ->
  ttlRemaining st' (sessionKey sessionId) = Some (configuredTTL REDIS_TTL).
Proof.
  intros Hsave. apply saveSession_returns in Hsave as (Hconn & Hpos & ->).
  unfold ttlRemaining. rewrite live_insert by exact Hpos.
  cbn [expiresAt now]. f_equal. lia.
Qed.

(** The session of [agedStore] has 600 seconds left; a save brings it
    back to 3600. *)
Example agedStore_renewed :
  ttlRemaining agedStore (sessionKey sessionA) = Some 600%Z
  /\ match saveSession None (js "2025-09-17T10:30:00.000Z") agedStore sessionA [] with
     | Returns st' => ttlRemaining st' (sessionKey sessionA)
     | Throws _ => None
     end = Some 3600%Z.
Proof. split; vm_compute; reflexivity. Qed.

End RedisProps.

(** ** The chat controller *)

Module ChatProps.
Import RagService Orchestrator ChatController Scenario.
Import Redis (saveSession, getSession, configuredTTL, ttlRemaining, sessionKey, connected).

(** The orchestrator always returns for a string. *)
Lemma generateRAGResponse_returns (w : World) (query sessionId : jsstring) :
  exists ragResponse,
    generateRAGResponse w (VString query) sessionId = Returns ragResponse.
Proof.
  destruct (OrchestratorProps.generateRAGResponse_wellFormed w query sessionId)
    as (result & H & _).
  eauto.
Qed.

(** The second half of a REST turn against a store that accepts writes. *)
Lemma sendMessageLoaded_ok cfg t sessionId query currentMessages st :
  connected st = true -> (0 < configuredTTL (REDIS_TTL cfg))%Z ->
  exists ragResponse st',
    generateRAGResponse (world t) (VString query) sessionId = Returns ragResponse
    /\ sendMessageLoaded cfg t sessionId query currentMessages st =
       (st',
        Status200 (answer ragResponse) (sources ragResponse)
          (withProcessingTime (metadata ragResponse) (respondedAt t - requestStart t))
          (List.length ((currentMessages ++ [restUserMessage t query])
                        ++ [restBotMessage t ragResponse]))
          sessionId,
        [OpSave sessionId ((currentMessages ++ [restUserMessage t query])
                           ++ [restBotMessage t ragResponse])])
    /\ getSession st' sessionId =
       (currentMessages ++ [restUserMessage t query]) ++ [restBotMessage t ragResponse]
    /\ connected st' = true
    /\ ttlRemaining st' (sessionKey sessionId) = Some (configuredTTL (REDIS_TTL cfg)).
Proof.
  intros Hconn Hpos.
  destruct (generateRAGResponse_returns (world t) query sessionId) as (rag & Hrag).
  destruct (RedisProps.saveSession_succeeds (REDIS_TTL cfg) (saveTimestamp t) st
              sessionId
              ((currentMessages ++ [restUserMessage t query]) ++ [restBotMessage t rag])
              Hconn Hpos) as (st' & Hsave & Hconn' & _).
  exists rag, st'. unfold sendMessageLoaded. rewrite Hrag, Hsave.
  repeat split.
  - eapply RedisProps.getSession_saveSession; eassumption.
  - exact Hconn'.
  - eapply RedisProps.saveSession_ttl; eassumption.
Qed.

(** A REST turn is its two steps run back to back. *)
Lemma sendMessage_steps cfg t body st :
  let '(st', response, _) := sendMessage cfg t body st in
  let '(p1, st1) := restStep cfg t (Received body) st in
  restStep cfg t p1 st1 = (Responded response, st').
Proof.
  unfold sendMessage. cbn [restStep].
  destruct (validateTurn cfg body) as [error|query]; [reflexivity|].
  cbn [restStep].
  destruct (sendMessageLoaded cfg t (b_sessionId body) query
              (getSession st (b_sessionId body)) st) as [[st' response] ops].
  reflexivity.
Qed.

(** The second half of a socket turn against a store that accepts
    writes. *)
Lemma handleSendMessage_ok cfg t data st query :
  validateTurn cfg data = inr query ->
  connected st = true -> (0 < configuredTTL (REDIS_TTL cfg))%Z ->
  exists ragResponse st',
    let sessionId := b_sessionId data in
    let messages1 := getSession st sessionId ++ [socketUserMessage t query] in
    let messages2 := messages1 ++ [socketBotMessage t ragResponse] in
    generateRAGResponse (world t) (VString query) sessionId = Returns ragResponse
    /\ handleSendMessage cfg t data st =
       (st',
        [RoomNewMessage sessionId (socketUserMessage t query);
         RoomBotTyping sessionId true;
         RoomBotTyping sessionId false;
         RoomNewMessage sessionId (socketBotMessage t ragResponse)],
        [OpGet sessionId; OpSave sessionId messages1; OpSave sessionId messages2])
    /\ getSession st' sessionId = messages2
    /\ ttlRemaining st' (sessionKey sessionId) = Some (configuredTTL (REDIS_TTL cfg)).
Proof.
  intros Hvalid Hconn Hpos.
  destruct (generateRAGResponse_returns (world t) query (b_sessionId data))
    as (rag & Hrag).
  destruct (RedisProps.saveSession_succeeds (REDIS_TTL cfg) (firstSaveTimestamp t) st
              (b_sessionId data)
              (getSession st (b_sessionId data) ++ [socketUserMessage t query])
              Hconn Hpos) as (st1 & Hsave1 & Hconn1 & _).
  destruct (RedisProps.saveSession_succeeds (REDIS_TTL cfg) (saveTimestamp t) st1
              (b_sessionId data)
              ((getSession st (b_sessionId data) ++ [socketUserMessage t query])
               ++ [socketBotMessage t rag])
              Hconn1 Hpos) as (st2 & Hsave2 & _ & _).
  exists rag, st2. cbn zeta. unfold handleSendMessage.
  rewrite Hvalid, Hsave1, Hrag, Hsave2.
  repeat split.
  - eapply RedisProps.getSession_saveSession; eassumption.
  - eapply RedisProps.saveSession_ttl; eassumption.
Qed.

(** *** Both channels *)

(** What the two channels' messages have in common. *)
Lemma channels_agree_on_core t query ragResponse :
  messageCore (restUserMessage t query) = messageCore (socketUserMessage t query)
  /\ messageCore (restBotMessage t ragResponse) = messageCore (socketBotMessage t ragResponse).
Proof. split; reflexivity. Qed.

(** C8 (counterexample): the socket handler saves twice, the first time
    a history that ends with the user message alone, and its user message
    carries other metadata properties than the REST one. *)
Lemma socket_turn_saves_twice :
  savesOf (snd (handleSendMessage sampleConfig turn1 body1 emptyStore))
    = [ [socketUserMessage turn1 (js "What happened in tech today?")];
        [socketUserMessage turn1 (js "What happened in tech today?");
         socketBotMessage turn1 (ragOf turn1 (js "What happened in tech today?"))] ]
  /\ savesOf (snd (sendMessage sampleConfig turn1 body1 emptyStore))
     = [ [user1; bot1] ]
  /\ metadataKeys (m_metadata (socketUserMessage turn1 (js "What happened in tech today?")))
     <> metadataKeys (m_metadata user1).
Proof.
  split; [vm_compute; reflexivity|]. split; [vm_compute; reflexivity|].
  cbn. discriminate.
Qed.

(** C8 (amended): on a turn that passes validation, against a store that
    accepts writes, both channels load the history, append the user
    message, call the orchestrator and append the bot message. The REST
    endpoint then saves once, the whole history with both new messages;
    the socket handler saves twice, after the user message and again
    after the bot message. Both leave the history extended by the user
    and the bot message, and the two channels' messages agree on id,
    type, content, timestamp and sources. *)
Theorem channels_load_append_save cfg t body st query :
  validateTurn cfg body = inr query ->
  connected st = true -> (0 < configuredTTL (REDIS_TTL cfg))%Z ->
  exists ragResponse,
    let sessionId := b_sessionId body in
    let history := getSession st sessionId in
    generateRAGResponse (world t) (VString query) sessionId = Returns ragResponse
    /\ snd (sendMessage cfg t body st) =
       [OpGet sessionId;
        OpSave sessionId
          ((history ++ [restUserMessage t query]) ++ [restBotMessage t ragResponse])]
    /\ getSession (fst (fst (sendMessage cfg t body st))) sessionId =
       (history ++ [restUserMessage t query]) ++ [restBotMessage t ragResponse]
    /\ snd (handleSendMessage cfg t body st) =
       [OpGet sessionId;
        OpSave sessionId (history ++ [socketUserMessage t query]);
        OpSave sessionId
          ((history ++ [socketUserMessage t query]) ++ [socketBotMessage t ragResponse])]
    /\ getSession (fst (fst (handleSendMessage cfg t body st))) sessionId =
       (history ++ [socketUserMessage t query]) ++ [socketBotMessage t ragResponse]
    /\ messageCore (restUserMessage t query) = messageCore (socketUserMessage t query)
    /\ messageCore (restBotMessage t ragResponse) = messageCore (socketBotMessage t ragResponse).
Proof.
  intros Hvalid Hconn Hpos.
  destruct (sendMessageLoaded_ok cfg t (b_sessionId body) query
              (getSession st (b_sessionId body)) st Hconn Hpos)
    as (rag & st' & Hrag & Hrest & Hhist & _ & _).
  destruct (handleSendMessage_ok cfg t body st query Hvalid Hconn Hpos)
    as (rag' & st2 & Hrag' & Hsock & Hhist2 & _).
  cbn zeta in Hrag', Hsock, Hhist2.
  rewrite Hrag in Hrag'. injection Hrag' as <-.
  exists rag. cbn zeta.
  unfold sendMessage. rewrite Hvalid, Hrest, Hsock. cbn [fst snd].
  repeat split; assumption.
Qed.

Lemma channels_load_append_save_witness :
  validateTurn sampleConfig body1 = inr (js "What happened in tech today?")
  /\ connected emptyStore = true
  /\ (0 < configuredTTL (REDIS_TTL sampleConfig))%Z
  /\ exists ragResponse,
       generateRAGResponse (world turn1)
         (VString (js "What happened in tech today?")) sessionA = Returns ragResponse
       /\ snd (sendMessage sampleConfig turn1 body1 emptyStore) =
          [OpGet sessionA;
           OpSave sessionA
             [restUserMessage turn1 (js "What happened in tech today?");
              restBotMessage turn1 ragResponse]].
Proof.
  assert (H1 : validateTurn sampleConfig body1 = inr (js "What happened in tech today?"))
    by reflexivity.
  assert (H2 : connected emptyStore = true) by reflexivity.
  assert (H3 : (0 < configuredTTL (REDIS_TTL sampleConfig))%Z) by reflexivity.
  split; [exact H1|]. split; [exact H2|]. split; [exact H3|].
  destruct (channels_load_append_save sampleConfig turn1 body1 emptyStore
              (js "What happened in tech today?") H1 H2 H3)
    as (rag & Hrag & Hops & _).
  exists rag. split; [exact Hrag|exact Hops].
Defined.

(** *** Two turns on one session *)

(** C3 (counterexample): two REST turns on the same session, both
    reading the history before either writes it. Both are answered with
    status 200, and the history afterwards holds the second turn's two
    messages only. *)
Lemma overlapping_turns_lose_update :
  (exists a1 s1 m1 n1 a2 s2 m2 n2 st,
      runSchedule sampleConfig turn1 turn2 [First; Second; First; Second]
        (Received body1) (Received body2) emptyStore
      = (Responded (Status200 a1 s1 m1 n1 sessionA),
         Responded (Status200 a2 s2 m2 n2 sessionA), st)
      /\ getSession st sessionA = [user2; bot2])
  /\ List.map m_id [user2; bot2] = [js "user-2"; js "bot-2"]
  /\ m_id user1 = js "user-1" /\ m_id bot1 = js "bot-1".
Proof.
  split; [|repeat split].
  do 9 eexists. split; vm_compute; reflexivity.
Qed.

(** Whenever both turns read before either writes, the later write
    replaces the earlier one. *)
Lemma overlapping_turns_keep_last cfg t1 t2 body1 body2 st q1 q2 :
  b_sessionId body1 = b_sessionId body2 ->
  validateTurn cfg body1 = inr q1 -> validateTurn cfg body2 = inr q2 ->
  connected st = true -> (0 < configuredTTL (REDIS_TTL cfg))%Z ->
  exists rag2 r1 r2 st',
    runSchedule cfg t1 t2 [First; Second; First; Second]
      (Received body1) (Received body2) st = (Responded r1, Responded r2, st')
    /\ generateRAGResponse (world t2) (VString q2) (b_sessionId body2) = Returns rag2
    /\ getSession st' (b_sessionId body1) =
       (getSession st (b_sessionId body1) ++ [restUserMessage t2 q2])
       ++ [restBotMessage t2 rag2].
Proof.
  intros Hsame Hv1 Hv2 Hconn Hpos.
  cbn [runSchedule restStep]. rewrite Hv1, Hv2.
  cbn [runSchedule restStep].
  destruct (sendMessageLoaded_ok cfg t1 (b_sessionId body1) q1
              (getSession st (b_sessionId body1)) st Hconn Hpos)
    as (rag1 & st1 & _ & Hstep1 & _ & Hconn1 & _).
  rewrite Hstep1.
  destruct (sendMessageLoaded_ok cfg t2 (b_sessionId body2) q2
              (getSession st (b_sessionId body2)) st1 Hconn1 Hpos)
    as (rag2 & st2 & Hrag2 & Hstep2 & Hhist & _).
  rewrite Hstep2.
  do 4 eexists. split; [reflexivity|]. split; [exact Hrag2|].
  rewrite Hsame. exact Hhist.
Qed.

(** The untimed schedules are the timed ones without a wait. *)
Lemma runTimed_untimed cfg t1 t2 schedule p1 p2 st :
  runTimed cfg t1 t2 (List.map Run schedule) p1 p2 st
  = runSchedule cfg t1 t2 schedule p1 p2 st.
Proof.
  revert p1 p2 st.
  induction schedule as [|[|] rest IH]; intros p1 p2 st;
    cbn [List.map runTimed runSchedule]; [reflexivity| |].
  - destruct (restStep cfg t1 p1 st) as [p1' st']. apply IH.
  - destruct (restStep cfg t2 p2 st) as [p2' st']. apply IH.
Qed.

(** The first step of a turn that passes validation: the history is
    read, the store is left as it is. *)
Lemma restStep_received cfg t body st query :
  validateTurn cfg body = inr query ->
  restStep cfg t (Received body) st
  = (Loaded (b_sessionId body) query (getSession st (b_sessionId body)), st).
Proof. intros Hvalid. cbn [restStep]. now rewrite Hvalid. Qed.

(** The second step of a turn against a store that accepts writes: what
    it saved is read back for as long as the TTL has not elapsed. *)
Lemma restStep_loaded cfg t sessionId query currentMessages st (elapsed : Z) :
  connected st = true ->
  (0 < configuredTTL (REDIS_TTL cfg))%Z ->
  (elapsed < configuredTTL (REDIS_TTL cfg))%Z ->
  exists ragResponse response st',
    generateRAGResponse (world t) (VString query) sessionId = Returns ragResponse
    /\ restStep cfg t (Loaded sessionId query currentMessages) st
       = (Responded response, st')
    /\ connected st' = true
    /\ getSession (Redis.tick elapsed st') sessionId =
       currentMessages ++ [restUserMessage t query; restBotMessage t ragResponse].
Proof.
  intros Hconn Hpos Hlt.
  destruct (generateRAGResponse_returns (world t) query sessionId) as (rag & Hrag).
  destruct (RedisProps.saveSession_succeeds (REDIS_TTL cfg) (saveTimestamp t) st
              sessionId
              ((currentMessages ++ [restUserMessage t query]) ++ [restBotMessage t rag])
              Hconn Hpos) as (st' & Hsave & Hconn' & _).
  exists rag. eexists. exists st'.
  split; [exact Hrag|].
  cbn [restStep]. unfold sendMessageLoaded. rewrite Hrag, Hsave.
  split; [reflexivity|]. split; [exact Hconn'|].
  rewrite (RedisProps.getSession_before_expiry _ _ _ _ _ _ elapsed Hsave Hlt).
  now rewrite <- app_assoc.
Qed.

(** Two turns on one session, the second loading after the first has
    saved, with time passing before and between their steps. *)
Lemma turn_after_turn cfg ta tb sessionId qa qb st (a b c d e : N) :
  connected st = true ->
  (Z.of_N c < configuredTTL (REDIS_TTL cfg))%Z ->
  (Z.of_N e < configuredTTL (REDIS_TTL cfg))%Z ->
  exists raga ragb ra rb sta stb,
    generateRAGResponse (world ta) (VString qa) sessionId = Returns raga
    /\ generateRAGResponse (world tb) (VString qb) sessionId = Returns ragb
    /\ restStep cfg ta
         (Loaded sessionId qa (getSession (Redis.tick (Z.of_N a) st) sessionId))
         (Redis.tick (Z.of_N b) (Redis.tick (Z.of_N a) st))
       = (Responded ra, sta)
    /\ restStep cfg tb
         (Loaded sessionId qb (getSession (Redis.tick (Z.of_N c) sta) sessionId))
         (Redis.tick (Z.of_N d) (Redis.tick (Z.of_N c) sta))
       = (Responded rb, stb)
    /\ getSession (Redis.tick (Z.of_N e) stb) sessionId =
       getSession (Redis.tick (Z.of_N a) st) sessionId
       ++ [restUserMessage ta qa; restBotMessage ta raga;
           restUserMessage tb qb; restBotMessage tb ragb].
Proof.
  intros Hconn Hc He.
  assert (Hpos : (0 < configuredTTL (REDIS_TTL cfg))%Z) by lia.
  destruct (restStep_loaded cfg ta sessionId qa
              (getSession (Redis.tick (Z.of_N a) st) sessionId)
              (Redis.tick (Z.of_N b) (Redis.tick (Z.of_N a) st)) (Z.of_N c)
              Hconn Hpos Hc)
    as (raga & ra & sta & Hraga & Hstepa & Hconna & Hhista).
  destruct (restStep_loaded cfg tb sessionId qb
              (getSession (Redis.tick (Z.of_N c) sta) sessionId)
              (Redis.tick (Z.of_N d) (Redis.tick (Z.of_N c) sta)) (Z.of_N e)
              Hconna Hpos He)
    as (ragb & rb & stb & Hragb & Hstepb & _ & Hhistb).
  exists raga, ragb, ra, rb, sta, stb.
  split; [exact Hraga|]. split; [exact Hragb|].
  split; [exact Hstepa|]. split; [exact Hstepb|].
  rewrite Hhistb, Hhista, <- app_assoc. reflexivity.
Qed.

(** C3 (amended): two REST turns on the same session that both pass
    validation and do not overlap (one turn has saved before the other
    loads), against a store that stays connected, whatever time passes
    before the first load, between a turn's load and its save, and
    between the second load and the second save: when less than the
    configured TTL passes between the first turn's save and the second
    turn's load, both turns are answered, and the history read less than
    the configured TTL after the second save is the history the first
    turn loaded, followed by the user and bot messages of the first turn
    and then those of the second. This holds in either order of the two
    turns. *)
Theorem sequential_turns_keep_both cfg t1 t2 body1 body2 st q1 q2 (a b c d e : N) :
  b_sessionId body1 = b_sessionId body2 ->
  validateTurn cfg body1 = inr q1 -> validateTurn cfg body2 = inr q2 ->
  connected st = true ->
  (Z.of_N c < configuredTTL (REDIS_TTL cfg))%Z ->
  (Z.of_N e < configuredTTL (REDIS_TTL cfg))%Z ->
  exists rag1 rag2,
    generateRAGResponse (world t1) (VString q1) (b_sessionId body1) = Returns rag1
    /\ generateRAGResponse (world t2) (VString q2) (b_sessionId body2) = Returns rag2
    /\ (exists r1 r2 st',
          runTimed cfg t1 t2
            [Wait a; Run First; Wait b; Run First; Wait c;
             Run Second; Wait d; Run Second; Wait e]
            (Received body1) (Received body2) st = (Responded r1, Responded r2, st')
          /\ getSession st' (b_sessionId body1) =
             getSession (Redis.tick (Z.of_N a) st) (b_sessionId body1)
             ++ [restUserMessage t1 q1; restBotMessage t1 rag1;
                 restUserMessage t2 q2; restBotMessage t2 rag2])
    /\ (exists r1 r2 st',
          runTimed cfg t1 t2
            [Wait a; Run Second; Wait b; Run Second; Wait c;
             Run First; Wait d; Run First; Wait e]
            (Received body1) (Received body2) st = (Responded r1, Responded r2, st')
          /\ getSession st' (b_sessionId body1) =
             getSession (Redis.tick (Z.of_N a) st) (b_sessionId body1)
             ++ [restUserMessage t2 q2; restBotMessage t2 rag2;
                 restUserMessage t1 q1; restBotMessage t1 rag1]).
Proof.
  intros Hsame Hv1 Hv2 Hconn Hc He.
  destruct (turn_after_turn cfg t1 t2 (b_sessionId body1) q1 q2 st a b c d e
              Hconn Hc He)
    as (rag1 & rag2 & r1 & r2 & st1 & st2 & Hrag1 & Hrag2 & Hstep1 & Hstep2 & Hhist).
  destruct (turn_after_turn cfg t2 t1 (b_sessionId body1) q2 q1 st a b c d e
              Hconn Hc He)
    as (rag2' & rag1' & r2' & r1' & st2' & st1' & Hrag2' & Hrag1' & Hstep2' & Hstep1'
        & Hhist').
  rewrite Hrag2 in Hrag2'. injection Hrag2' as <-.
  rewrite Hrag1 in Hrag1'. injection Hrag1' as <-.
  exists rag1, rag2.
  split; [exact Hrag1|]. split; [rewrite <- Hsame; exact Hrag2|]. split.
  - exists r1, r2, (Redis.tick (Z.of_N e) st2).
    split; [|exact Hhist].
    cbn [runTimed]. rewrite (restStep_received _ _ _ _ _ Hv1).
    cbn [runTimed]. rewrite Hstep1.
    cbn [runTimed]. rewrite (restStep_received _ _ _ _ _ Hv2), <- Hsame.
    cbn [runTimed]. rewrite Hstep2. reflexivity.
  - exists r1', r2', (Redis.tick (Z.of_N e) st1').
    split; [|exact Hhist'].
    cbn [runTimed]. rewrite (restStep_received _ _ _ _ _ Hv2), <- Hsame.
    cbn [runTimed]. rewrite Hstep2'.
    cbn [runTimed]. rewrite (restStep_received _ _ _ _ _ Hv1).
    cbn [runTimed]. rewrite Hstep1'. reflexivity.
Qed.

Lemma sequential_turns_keep_both_witness :
  b_sessionId body1 = b_sessionId body2
  /\ validateTurn sampleConfig body1 = inr (js "What happened in tech today?")
  /\ validateTurn sampleConfig body2 = inr (js "latest AI news")
  /\ connected emptyStore = true
  /\ (Z.of_N 3599 < configuredTTL (REDIS_TTL sampleConfig))%Z
  /\ (Z.of_N 60 < configuredTTL (REDIS_TTL sampleConfig))%Z
  /\ exists rag1 rag2 r1 r2 st',
       runTimed sampleConfig turn1 turn2
         [Wait 5; Run First; Wait 2; Run First; Wait 3599;
          Run Second; Wait 2; Run Second; Wait 60]
         (Received body1) (Received body2) emptyStore
       = (Responded r1, Responded r2, st')
       /\ getSession st' sessionA =
          getSession (Redis.tick 5 emptyStore) sessionA
          ++ [restUserMessage turn1 (js "What happened in tech today?");
              restBotMessage turn1 rag1;
              restUserMessage turn2 (js "latest AI news");
              restBotMessage turn2 rag2].
Proof.
  assert (H0 : b_sessionId body1 = b_sessionId body2) by reflexivity.
  assert (H1 : validateTurn sampleConfig body1 = inr (js "What happened in tech today?"))
    by reflexivity.
  assert (H2 : validateTurn sampleConfig body2 = inr (js "latest AI news"))
    by reflexivity.
  assert (H3 : connected emptyStore = true) by reflexivity.
  assert (H4 : (Z.of_N 3599 < configuredTTL (REDIS_TTL sampleConfig))%Z)
    by reflexivity.
  assert (H5 : (Z.of_N 60 < configuredTTL (REDIS_TTL sampleConfig))%Z)
    by reflexivity.
  repeat (split; [assumption|]).
  destruct (sequential_turns_keep_both sampleConfig turn1 turn2 body1 body2
              emptyStore _ _ 5 2 3599 2 60 H0 H1 H2 H3 H4 H5)
    as (rag1 & rag2 & _ & _ & (r1 & r2 & st' & Hrun & Hhist) & _).
  exists rag1, rag2, r1, r2, st'. split; [exact Hrun|exact Hhist].
Defined.

(** Once the TTL has passed between the two turns, the second turn loads
    an empty history and the first turn's messages are gone. *)
Example sequential_turns_after_expiry :
  exists a1 s1 m1 n1 a2 s2 m2 n2 st,
    runTimed sampleConfig turn1 turn2
      [Run First; Run First; Wait 3600; Run Second; Run Second]
      (Received body1) (Received body2) emptyStore
    = (Responded (Status200 a1 s1 m1 n1 sessionA),
       Responded (Status200 a2 s2 m2 n2 sessionA), st)
    /\ getSession st sessionA = [user2; bot2].
Proof. do 9 eexists. split; vm_compute; reflexivity. Qed.

(** *** Session lifetime *)

(** C10: a call of [saveSession] that returns leaves the session key
    with the full configured TTL (3600 seconds by default), whatever was
    left on the key before; so a REST turn answered with status 200, and
    a socket turn that broadcast its user message, leave the session with
    the full TTL, without a call of [extendSessionTTL]. *)
Theorem saveSession_renews_full_ttl :
  (forall REDIS_TTL timestamp st sessionId messages st',
      saveSession REDIS_TTL timestamp st sessionId messages = Returns st' ->
      ttlRemaining st' (sessionKey sessionId) = Some (configuredTTL REDIS_TTL))
  /\ configuredTTL None = 3600%Z
  /\ (forall cfg t body st st' a s m n sid ops,
        sendMessage cfg t body st = (st', Status200 a s m n sid, ops) ->
        ttlRemaining st' (sessionKey (b_sessionId body))
        = Some (configuredTTL (REDIS_TTL cfg)))
  /\ (forall cfg t data st st' emitted ops userMessage,
        handleSendMessage cfg t data st = (st', emitted, ops) ->
        In (RoomNewMessage (b_sessionId data) userMessage) emitted ->
        ttlRemaining st' (sessionKey (b_sessionId data))
        = Some (configuredTTL (REDIS_TTL cfg))).
Proof.
  split; [|split; [reflexivity|split]].
  - intros. eapply RedisProps.saveSession_ttl; eassumption.
  - intros cfg t body st st' a s m n sid ops. unfold sendMessage.
    destruct (validateTurn cfg body) as [error|query]; [discriminate|].
    unfold sendMessageLoaded.
    destruct (generateRAGResponse (world t) (VString query) (b_sessionId body))
      as [rag|e]; [|discriminate].
    destruct (saveSession (REDIS_TTL cfg) (saveTimestamp t) st (b_sessionId body) _)
      as [st2|e] eqn:Hsave; [|discriminate].
    intros [= <- _ _ _ _ _ _]. eapply RedisProps.saveSession_ttl; eassumption.
  - intros cfg t data st st' emitted ops userMessage. unfold handleSendMessage.
    destruct (validateTurn cfg data) as [error|query].
    { intros [= _ <- _] [H|[]]. discriminate. }
    destruct (saveSession (REDIS_TTL cfg) (firstSaveTimestamp t) st (b_sessionId data) _)
      as [st1|e] eqn:Hsave1.
    2:{ intros [= _ <- _] [H|[H|[]]]; discriminate. }
    destruct (generateRAGResponse (world t) (VString query) (b_sessionId data))
      as [rag|e].
    2:{ intros [= <- _ _] _. eapply RedisProps.saveSession_ttl; eassumption. }
    destruct (saveSession (REDIS_TTL cfg) (saveTimestamp t) st1 (b_sessionId data) _)
      as [st2|e] eqn:Hsave2.
    + intros [= <- _ _] _. eapply RedisProps.saveSession_ttl; eassumption.
    + intros [= <- _ _] _. eapply RedisProps.saveSession_ttl; eassumption.
Qed.

Lemma saveSession_renews_full_ttl_witness :
  saveSession None (js "2025-09-17T10:30:00.000Z") agedStore sessionA [user1]
    = Returns (Redis.mkStore true 3000
                 (<[sessionKey sessionA :=
                      Redis.mkEntry
                        (Redis.mkSessionData sessionA [user1]
                           (js "2025-09-17T10:30:00.000Z") 1)
                        6600]> (Redis.db agedStore)))
  /\ ttlRemaining agedStore (sessionKey sessionA) = Some 600%Z
  /\ ttlRemaining
       (Redis.mkStore true 3000
          (<[sessionKey sessionA :=
               Redis.mkEntry
                 (Redis.mkSessionData sessionA [user1]
                    (js "2025-09-17T10:30:00.000Z") 1)
                 6600]> (Redis.db agedStore)))
       (sessionKey sessionA) = Some 3600%Z.
Proof.
  assert (H : saveSession None (js "2025-09-17T10:30:00.000Z") agedStore sessionA [user1]
              = Returns (Redis.mkStore true 3000
                 (<[sessionKey sessionA :=
                      Redis.mkEntry
                        (Redis.mkSessionData sessionA [user1]
                           (js "2025-09-17T10:30:00.000Z") 1)
                        6600]> (Redis.db agedStore))))
    by reflexivity.
  split; [exact H|]. split; [vm_compute; reflexivity|].
  exact (proj1 saveSession_renews_full_ttl None _ agedStore sessionA [user1] _ H).
Defined.

End ChatProps.

(** ** More on strings and validation *)

Module TrimProps.
Import RagService.

Lemma trimStart_length (s : jsstring) :
  (List.length (trimStart s) <= List.length s)%nat.
Proof.
  induction s as [|c s IH]; cbn [trimStart]; [lia|].
  destruct (isWhiteSpace c); cbn [List.length]; lia.
Qed.

(** A text that [trimStart] leaves alone is empty or starts with
    something other than white space. *)
Lemma trimStart_fixed (s : jsstring) :
  trimStart s = s ->
  s = [] \/ exists c s', s = c :: s' /\ isWhiteSpace c = false.
Proof.
  destruct s as [|c s]; [now left|]. cbn [trimStart].
  destruct (isWhiteSpace c) eqn:Hc.
  - intros H. pose proof (trimStart_length s) as Hlen.
    rewrite H in Hlen. cbn [List.length] in Hlen. lia.
  - intros _. right. eauto.
Qed.

Lemma trimStart_idempotent (s : jsstring) : trimStart (trimStart s) = trimStart s.
Proof.
  induction s as [|c s IH]; [reflexivity|]. cbn [trimStart].
  destruct (isWhiteSpace c) eqn:Hc; [exact IH|].
  cbn [trimStart]. now rewrite Hc.
Qed.

Lemma trimStart_snoc (l : jsstring) (c : N) :
  isWhiteSpace c = false -> trimStart (l ++ [c]) = trimStart l ++ [c].
Proof.
  intros Hc. induction l as [|a l IH]; cbn [app trimStart].
  - now rewrite Hc.
  - destruct (isWhiteSpace a); [exact IH|reflexivity].
Qed.

Lemma trimEnd_idempotent (s : jsstring) : trimEnd (trimEnd s) = trimEnd s.
Proof. unfold trimEnd. now rewrite rev_involutive, trimStart_idempotent. Qed.

(** Stripping the end does not uncover white space at the start. *)
Lemma trimStart_trimEnd (s : jsstring) :
  trimStart s = s -> trimStart (trimEnd s) = trimEnd s.
Proof.
  intros Hfix. destruct (trimStart_fixed s Hfix) as [->|(c & s' & -> & Hc)];
    [reflexivity|].
  unfold trimEnd. cbn [rev]. rewrite trimStart_snoc by exact Hc.
  rewrite rev_app_distr. cbn [rev app trimStart]. now rewrite Hc.
Qed.

Lemma trim_idempotent (s : jsstring) : trim (trim s) = trim s.
Proof.
  unfold trim.
  rewrite (trimStart_trimEnd (trimStart s) (trimStart_idempotent s)).
  apply trimEnd_idempotent.
Qed.

Lemma trimEnd_length (s : jsstring) :
  (List.length (trimEnd s) <= List.length s)%nat.
Proof.
  unfold trimEnd. rewrite length_rev.
  pose proof (trimStart_length (rev s)) as H. now rewrite length_rev in H.
Qed.

Lemma trim_length (s : jsstring) : (List.length (trim s) <= List.length s)%nat.
Proof.
  unfold trim. pose proof (trimEnd_length (trimStart s)).
  pose proof (trimStart_length s). lia.
Qed.

(** X1: a query that passes validation comes back trimmed, with 3 to
    1000 code units, and validating the cleaned query again accepts it
    unchanged. *)
Theorem validateQuery_cleaned_is_stable (query cleanQuery : jsstring) :
  validateQuery (VString query) = Valid cleanQuery ->
  cleanQuery = trim query
  /\ (3 <= List.length cleanQuery <= 1000)%nat
  /\ validateQuery (VString cleanQuery) = Valid cleanQuery.
Proof.
  intros Hvalid.
  pose proof (OrchestratorProps.validateQuery_spec query) as Hspec.
  rewrite Hvalid in Hspec. destruct Hspec as [-> Hlen].
  split; [reflexivity|]. split; [exact Hlen|].
  pose proof (OrchestratorProps.validateQuery_spec (trim query)) as Hspec.
  rewrite trim_idempotent in Hspec.
  destruct (validateQuery (VString (trim query))) as [reason|c].
  - contradiction.
  - destruct Hspec as [-> _]. reflexivity.
Qed.

Lemma validateQuery_cleaned_is_stable_witness :
  validateQuery (VString (js "  latest AI news  ")) = Valid (js "latest AI news")
  /\ validateQuery (VString (js "latest AI news")) = Valid (js "latest AI news").
Proof.
  assert (H : validateQuery (VString (js "  latest AI news  "))
              = Valid (js "latest AI news")) by reflexivity.
  split; [exact H|].
  exact (proj2 (proj2 (validateQuery_cleaned_is_stable _ _ H))).
Defined.

End TrimProps.
(** ** More on generateWithGemini *)

Module GeminiBounds.
Import RagService.

Lemma geminiLoop_all_fail model maxRetries retryDelay remaining attempt :
  (remaining + attempt = maxRetries + 1)%nat -> (1 <= remaining)%nat ->
  (forall a, (attempt <= a <= maxRetries)%nat ->
             exists e, geminiAttempt (model a) = Throws e) ->
  exists e,
    geminiAttempt (model maxRetries) = Throws e
    /\ snd (geminiLoop model maxRetries retryDelay remaining attempt) = Throws e
    /\ countCalls (fst (geminiLoop model maxRetries retryDelay remaining attempt))
       = remaining.
Proof.
  revert attempt.
  induction remaining as [|k IH]; intros attempt Hsync Hpos Hfail; [lia|].
  cbn [geminiLoop].
  destruct (Hfail attempt ltac:(lia)) as (e & He). rewrite He.
  destruct (isRetryable (message e) && (attempt <? maxRetries)%nat) eqn:Hretry.
  - apply andb_true_iff in Hretry as [_ Hlt]. apply Nat.ltb_lt in Hlt.
    destruct (IH (S attempt) ltac:(lia) ltac:(lia)
                (fun a Ha => Hfail a ltac:(lia))) as (e' & Hlast & Hres & Hcalls).
    destruct (geminiLoop model maxRetries retryDelay k (S attempt)) as [tr r].
    exists e'. cbn [fst snd] in *. repeat split; try assumption.
    unfold countCalls in *. cbn. now rewrite Hcalls.
  - destruct (attempt =? maxRetries)%nat eqn:Hlast.
    + apply Nat.eqb_eq in Hlast. subst attempt.
      exists e. cbn. repeat split; [exact He|]. f_equal. lia.
    + apply Nat.eqb_neq in Hlast.
      destruct (IH (S attempt) ltac:(lia) ltac:(lia)
                  (fun a Ha => Hfail a ltac:(lia))) as (e' & Hl & Hres & Hcalls).
      destruct (geminiLoop model maxRetries retryDelay k (S attempt)) as [tr r].
      exists e'. cbn [fst snd] in *. repeat split; try assumption.
      unfold countCalls in *. cbn. now rewrite Hcalls.
Qed.

(** X2: when the model fails on every attempt, whatever the failures
    are, the call makes exactly [maxRetries] requests and then throws the
    error of the last attempt. *)
Theorem generateWithGemini_exhausts model maxRetries retryDelay :
  (1 <= maxRetries)%nat ->
  (forall a, (1 <= a <= maxRetries)%nat ->
             exists e, geminiAttempt (model a) = Throws e) ->
  exists e,
    geminiAttempt (model maxRetries) = Throws e
    /\ snd (generateWithGemini model maxRetries retryDelay) = Throws e
    /\ countCalls (fst (generateWithGemini model maxRetries retryDelay)) = maxRetries.
Proof.
  intros Hpos Hfail. unfold generateWithGemini.
  apply geminiLoop_all_fail; [lia|lia|exact Hfail].
Qed.

Lemma generateWithGemini_exhausts_witness :
  (1 <= 3)%nat
  /\ (forall a, (1 <= a <= 3)%nat ->
        exists e, geminiAttempt (Scenario.alwaysBadRequest a) = Throws e)
  /\ snd (generateWithGemini Scenario.alwaysBadRequest 3 2000)
     = Throws Scenario.badRequest
  /\ countCalls (fst (generateWithGemini Scenario.alwaysBadRequest 3 2000)) = 3%nat.
Proof.
  assert (H1 : (1 <= 3)%nat) by lia.
  assert (H2 : forall a, (1 <= a <= 3)%nat ->
                 exists e, geminiAttempt (Scenario.alwaysBadRequest a) = Throws e)
    by (intros a _; eexists; reflexivity).
  split; [exact H1|]. split; [exact H2|].
  destruct (generateWithGemini_exhausts Scenario.alwaysBadRequest 3 2000 H1 H2)
    as (e & He & Hres & Hcalls).
  cbn in He. injection He as <-. split; assumption.
Defined.

Lemma geminiLoop_sleep_bound model maxRetries retryDelay remaining attempt :
  (0 <= retryDelay)%Z -> (1 <= attempt)%nat ->
  (remaining + attempt = maxRetries + 1)%nat -> (1 <= remaining)%nat ->
  (0 <= totalSleep (fst (geminiLoop model maxRetries retryDelay remaining attempt))
   /\ 2 * totalSleep (fst (geminiLoop model maxRetries retryDelay remaining attempt))
      <= retryDelay * ((Z.of_nat maxRetries - Z.of_nat attempt)
                       * (Z.of_nat maxRetries + Z.of_nat attempt - 1)))%Z.
Proof.
  intros Hdelay. revert attempt.
  induction remaining as [|k IH]; intros attempt Hone Hsync Hpos; [lia|].
  assert (Hgap : (0 <= (Z.of_nat maxRetries - Z.of_nat attempt)
                       * (Z.of_nat maxRetries + Z.of_nat attempt - 1))%Z) by nia.
  assert (Hzero : (0 <= retryDelay * ((Z.of_nat maxRetries - Z.of_nat attempt)
                       * (Z.of_nat maxRetries + Z.of_nat attempt - 1)))%Z)
    by (apply Z.mul_nonneg_nonneg; assumption).
  cbn [geminiLoop].
  destruct (geminiAttempt (model attempt)) as [text|e]; [cbn; lia|].
  destruct (isRetryable (message e) && (attempt <? maxRetries)%nat) eqn:Hretry.
  - apply andb_true_iff in Hretry as [_ Hlt]. apply Nat.ltb_lt in Hlt.
    specialize (IH (S attempt) ltac:(lia) ltac:(lia) ltac:(lia)).
    destruct (geminiLoop model maxRetries retryDelay k (S attempt)) as [tr r].
    cbn [fst totalSleep fold_right] in *. fold (totalSleep tr) in *.
    rewrite Nat2Z.inj_succ in IH. destruct IH as [IH0 IH1].
    split; [nia|].
    replace (retryDelay * ((Z.of_nat maxRetries - Z.of_nat attempt)
                           * (Z.of_nat maxRetries + Z.of_nat attempt - 1)))%Z
      with (2 * (retryDelay * Z.of_nat attempt)
            + retryDelay * ((Z.of_nat maxRetries - Z.succ (Z.of_nat attempt))
                            * (Z.of_nat maxRetries + Z.succ (Z.of_nat attempt) - 1)))%Z
      by ring.
    lia.
  - destruct (attempt =? maxRetries)%nat eqn:Hlast; [cbn; lia|].
    apply Nat.eqb_neq in Hlast.
    specialize (IH (S attempt) ltac:(lia) ltac:(lia) ltac:(lia)).
    destruct (geminiLoop model maxRetries retryDelay k (S attempt)) as [tr r].
    cbn [fst totalSleep fold_right] in *. fold (totalSleep tr) in *.
    rewrite Nat2Z.inj_succ in IH. destruct IH as [IH0 IH1].
    split; [exact IH0|].
    replace (retryDelay * ((Z.of_nat maxRetries - Z.of_nat attempt)
                           * (Z.of_nat maxRetries + Z.of_nat attempt - 1)))%Z
      with (2 * (retryDelay * Z.of_nat attempt)
            + retryDelay * ((Z.of_nat maxRetries - Z.succ (Z.of_nat attempt))
                            * (Z.of_nat maxRetries + Z.succ (Z.of_nat attempt) - 1)))%Z
      by ring.
    assert (0 <= retryDelay * Z.of_nat attempt)%Z by (apply Z.mul_nonneg_nonneg; lia).
    lia.
Qed.

(** X3: whatever the model does, a call makes at most [maxRetries]
    requests and waits at most [retryDelay * maxRetries * (maxRetries - 1) / 2]
    milliseconds in all: 6000 ms with the defaults. *)
Theorem generateWithGemini_bounded model maxRetries retryDelay :
  (0 <= retryDelay)%Z -> (1 <= maxRetries)%nat ->
  (countCalls (fst (generateWithGemini model maxRetries retryDelay)) <= maxRetries)%nat
  /\ (0 <= totalSleep (fst (generateWithGemini model maxRetries retryDelay)))%Z
  /\ (2 * totalSleep (fst (generateWithGemini model maxRetries retryDelay))
      <= retryDelay * Z.of_nat maxRetries * (Z.of_nat maxRetries - 1))%Z.
Proof.
  intros Hdelay Hpos. unfold generateWithGemini.
  split; [apply GeminiProps.geminiLoop_calls|].
  pose proof (geminiLoop_sleep_bound model maxRetries retryDelay maxRetries 1
                Hdelay ltac:(lia) ltac:(lia) Hpos) as [H0 H1].
  split; [exact H0|].
  replace (retryDelay * Z.of_nat maxRetries * (Z.of_nat maxRetries - 1))%Z
    with (retryDelay * ((Z.of_nat maxRetries - Z.of_nat 1)
                        * (Z.of_nat maxRetries + Z.of_nat 1 - 1)))%Z
    by (cbn; ring).
  exact H1.
Qed.

Lemma generateWithGemini_bounded_witness :
  (0 <= 2000)%Z /\ (1 <= 3)%nat
  /\ (2 * totalSleep (fst (generateWithGemini Scenario.alwaysOverloaded 3 2000))
      <= 2000 * Z.of_nat 3 * (Z.of_nat 3 - 1))%Z
  /\ totalSleep (fst (generateWithGemini Scenario.alwaysOverloaded 3 2000)) = 6000%Z.
Proof.
  assert (H1 : (0 <= 2000)%Z) by lia.
  assert (H2 : (1 <= 3)%nat) by lia.
  split; [exact H1|]. split; [exact H2|].
  split; [|reflexivity].
  exact (proj2 (proj2 (generateWithGemini_bounded Scenario.alwaysOverloaded 3 2000 H1 H2))).
Defined.

End GeminiBounds.
(** ** More on the retrieval services *)

Module ServiceProps.
Import JinaService QdrantService.

(** X7: the search never throws, and every candidate it returns has a
    payload object, whatever the backend answered. *)
Theorem searchVectors_candidates_have_payload
    (apiKey : bool) (post : list float -> nat -> float -> QdrantReply)
    (queryVector : list float) (limit : nat) (scoreThreshold : float) :
  exists results,
    searchVectors apiKey post queryVector limit scoreThreshold = Returns results
    /\ Forall (fun doc => hasPayload doc = true) results
    /\ (apiKey = false -> results = getMockSearchResults).
Proof.
  destruct (QdrantProps.searchVectors_returns apiKey post queryVector limit
              scoreThreshold) as (results & Hret & Hall).
  exists results. repeat split; try assumption.
  intros ->. unfold searchVectors in Hret. cbn in Hret. now injection Hret.
Qed.

(** X9: a first attempt that fails with a client error (a status below
    500) is not repeated: one request, then the mock embedding. Without an
    API key no request is made at all. *)
Theorem generateEmbedding_client_error_not_retried
    (M : MathLib) (post : jsstring -> nat -> JinaReply) (text : jsstring)
    (maxRetries : nat) (e : JsError) :
  (1 <= maxRetries)%nat ->
  jinaAttempt (post (substring0 maxInputLength text) 1%nat) = Throws e ->
  isClientError e = true ->
  generateEmbedding M true post text maxRetries =
    ([Call 1], Returns (Some (EmbArray (generateMockEmbedding M text))))
  /\ generateEmbedding M false post text maxRetries =
    ([], Returns (Some (EmbArray (generateMockEmbedding M text)))).
Proof.
  intros Hpos Hfail Hclient. split; [|reflexivity].
  unfold generateEmbedding. cbn [negb].
  destruct maxRetries as [|k]; [lia|]. cbn [jinaLoop].
  rewrite Hfail, Hclient, orb_true_r. reflexivity.
Qed.

Lemma generateEmbedding_client_error_not_retried_witness :
  (1 <= 2)%nat
  /\ jinaAttempt (PostFails (mkJsError (js "Request failed with status code 401")
                               (Some 401%Z)))
     = Throws (mkJsError (js "Request failed with status code 401") (Some 401%Z))
  /\ isClientError (mkJsError (js "Request failed with status code 401") (Some 401%Z))
     = true
  /\ fst (generateEmbedding Scenario.sampleMath true
            (fun _ _ => PostFails (mkJsError (js "Request failed with status code 401")
                                     (Some 401%Z)))
            (js "latest AI news") 2) = [Call 1].
Proof.
  assert (H1 : (1 <= 2)%nat) by lia.
  split; [exact H1|]. split; [reflexivity|]. split; [reflexivity|].
  exact (f_equal fst
           (proj1 (generateEmbedding_client_error_not_retried Scenario.sampleMath
                     (fun _ _ => PostFails (mkJsError
                                    (js "Request failed with status code 401")
                                    (Some 401%Z)))
                     (js "latest AI news") 2 _ H1 eq_refl eq_refl))).
Defined.

Lemma toInt32_range (z : Z) :
  (-2147483648 <= toInt32 z < 2147483648)%Z.
Proof.
  unfold toInt32.
  pose proof (Z.mod_pos_bound (z + 2147483648) 4294967296 ltac:(lia)). lia.
Qed.

Lemma hashLoop_range (str : jsstring) (hash : Z) :
  (-2147483648 <= hash < 2147483648)%Z ->
  (-2147483648 <= hashLoop str hash < 2147483648)%Z.
Proof.
  revert hash. induction str as [|char rest IH]; intros hash Hrange;
    cbn [hashLoop]; [exact Hrange|].
  apply IH, toInt32_range.
Qed.

(** X10: the hash of any text is an integer between 0 and 2^31 (the
    absolute value of a 32-bit integer), and 0 for the empty text. *)
Theorem simpleHash_range (str : jsstring) :
  (0 <= simpleHash str <= 2147483648)%Z /\ simpleHash [] = 0%Z.
Proof.
  split; [|reflexivity].
  unfold simpleHash. destruct str as [|c s]; [lia|].
  pose proof (hashLoop_range (c :: s) 0 ltac:(lia)). lia.
Qed.

End ServiceProps.

(** ** More on the fallback generator and the orchestrator *)

Module PipelineProps.
Import RagService Orchestrator.

(** X6: when the rendered source list holds no dollar sign, the fallback
    answer contains that list as it is. *)
Theorem fallback_answer_contains_sources
    (lower : jsstring -> jsstring) (query : jsstring)
    (documents : list Candidate) (src : jsstring) :
  Fallback.sourcesText documents = Returns src ->
  forallb (fun c => negb (c =? 36)) src = true ->
  exists text,
    Fallback.generateFallbackResponse lower query documents = Returns text
    /\ includes text src = true.
Proof.
  intros Hsrc Hplain. unfold Fallback.generateFallbackResponse. rewrite Hsrc.
  eexists. split; [reflexivity|].
  destruct (FallbackProps.selectedTemplate_shape lower query)
    as (before & after & closing & -> & _).
  now apply FallbackProps.replace_template_includes.
Qed.

Lemma fallback_answer_contains_sources_witness :
  Fallback.sourcesText [Scenario.scored Scenario.score085]
    = Returns (js "1. undefined (undefined)" ++ nl ++ js "   No preview available")
  /\ forallb (fun c => negb (c =? 36))
       (js "1. undefined (undefined)" ++ nl ++ js "   No preview available") = true
  /\ exists text,
       Fallback.generateFallbackResponse asciiLower (js "latest AI news")
         [Scenario.scored Scenario.score085] = Returns text
       /\ includes text
            (js "1. undefined (undefined)" ++ nl ++ js "   No preview available") = true.
Proof.
  assert (H1 : Fallback.sourcesText [Scenario.scored Scenario.score085]
               = Returns (js "1. undefined (undefined)" ++ nl
                          ++ js "   No preview available")) by reflexivity.
  assert (H2 : forallb (fun c => negb (c =? 36))
                 (js "1. undefined (undefined)" ++ nl ++ js "   No preview available")
               = true) by reflexivity.
  split; [exact H1|]. split; [exact H2|].
  exact (fallback_answer_contains_sources asciiLower (js "latest AI news") _ _ H1 H2).
Defined.

Lemma relevantDocsOf_payload (searchResults : list Candidate) :
  Forall (fun doc => hasPayload doc = true) searchResults ->
  Forall (fun doc => hasPayload doc = true) (relevantDocsOf searchResults).
Proof.
  intros Hall. unfold relevantDocsOf.
  induction Hall as [|doc rest Hdoc _ IH]; cbn [List.filter]; [constructor|].
  destruct (isRelevant doc); [constructor; assumption|exact IH].
Qed.

(** Documents that carry a payload always get an answer from the model or
    from the template. *)
Lemma generateAnswer_returns w query relevantDocs :
  Forall (fun doc => hasPayload doc = true) relevantDocs ->
  exists result,
    generateAnswer w query relevantDocs = Returns result
    /\ (modelUsed (metadata result) = js "gemini-1.5-flash"
        \/ modelUsed (metadata result) = js "fallback-template")
    /\ sources result = sourcesOf relevantDocs
    /\ documentsFound (metadata result) = Some (List.length relevantDocs)
    /\ sourcesUsed (metadata result) = Some (List.length relevantDocs).
Proof.
  intros Hall. unfold generateAnswer.
  destruct (snd (generateWithGemini
                   (gemini w (systemPrompt (contextOf relevantDocs) query)) 3 2000))
    as [aiResponse|geminiError].
  - eexists. split; [reflexivity|]. cbn. unfold sourcesOf.
    rewrite length_map. auto.
  - destruct (FallbackProps.sourcesText_total relevantDocs Hall) as (src & Hsrc).
    unfold Fallback.generateFallbackResponse. rewrite Hsrc.
    eexists. split; [reflexivity|]. cbn. unfold sourcesOf.
    rewrite length_map. auto.
Qed.

(** The pipeline once the query is valid and the embedding is an array. *)
Lemma ragPipeline_valid w query cleanQuery embedding :
  validateQuery (VString query) = Valid cleanQuery ->
  snd (JinaService.generateEmbedding (math w) (jinaApiKey w) (jinaPost w)
         cleanQuery 2) = Returns (Some (JinaService.EmbArray embedding)) ->
  exists searchResults,
    QdrantService.searchVectors (qdrantApiKey w) (qdrantPost w) embedding 5
      QdrantService.defaultScoreThreshold = Returns searchResults
    /\ Forall (fun doc => hasPayload doc = true) searchResults
    /\ ragPipeline w query = generateAnswer w cleanQuery (relevantDocsOf searchResults).
Proof.
  intros Hvalid Hemb.
  destruct (QdrantProps.searchVectors_returns (qdrantApiKey w) (qdrantPost w)
              embedding 5 QdrantService.defaultScoreThreshold)
    as (searchResults & Hsearch & Hall).
  exists searchResults. repeat split; try assumption.
  unfold ragPipeline. now rewrite Hvalid, Hemb, Hsearch.
Qed.

Lemma js_error_fallback_distinct :
  js "gemini-1.5-flash" <> js "error-fallback"
  /\ js "fallback-template" <> js "error-fallback".
Proof. split; discriminate. Qed.

(** X4: for a query string, the result is tagged "error-fallback"
    exactly when the query fails validation or the embedding that comes
    back is not an array. Otherwise the result carries one source per
    relevant document and counts them in [documentsFound] and
    [sourcesUsed]. *)
Theorem error_fallback_iff_bad_input (w : World) (query sessionId : jsstring) :
  exists result,
    generateRAGResponse w (VString query) sessionId = Returns result
    /\ (modelUsed (metadata result) = js "error-fallback" <->
        ((exists reason, validateQuery (VString query) = Invalid reason)
         \/ (exists cleanQuery,
               validateQuery (VString query) = Valid cleanQuery
               /\ forall embedding,
                    snd (JinaService.generateEmbedding (math w) (jinaApiKey w)
                           (jinaPost w) cleanQuery 2)
                    <> Returns (Some (JinaService.EmbArray embedding)))))
    /\ (modelUsed (metadata result) <> js "error-fallback" ->
        documentsFound (metadata result) = Some (List.length (sources result))
        /\ sourcesUsed (metadata result) = Some (List.length (sources result))).
Proof.
  unfold generateRAGResponse.
  destruct (validateQuery (VString query)) as [reason|cleanQuery] eqn:Hvalid.
  - unfold ragPipeline. rewrite Hvalid. eexists. split; [reflexivity|]. split.
    + split; [intros _; left; eauto|reflexivity].
    + cbn. congruence.
  - destruct (snd (JinaService.generateEmbedding (math w) (jinaApiKey w)
                     (jinaPost w) cleanQuery 2)) as [[[embedding|]|]|e] eqn:Hemb.
    + destruct (ragPipeline_valid w query cleanQuery embedding Hvalid Hemb)
        as (searchResults & _ & Hall & ->).
      destruct (generateAnswer_returns w cleanQuery (relevantDocsOf searchResults)
                  (relevantDocsOf_payload _ Hall))
        as (result & -> & Hmodel & Hsrc & Hfound & Hused).
      exists result. split; [reflexivity|]. split.
      * split.
        -- intros Herr. exfalso. destruct js_error_fallback_distinct.
           destruct Hmodel as [Hm|Hm]; congruence.
        -- intros [(reason & Hr)|(c & Hc & Hno)]; [discriminate Hr|].
           injection Hc as <-. exfalso. now apply (Hno embedding).
      * intros _. rewrite Hsrc. unfold sourcesOf. rewrite length_map. auto.
    + unfold ragPipeline. rewrite Hvalid, Hemb. eexists. split; [reflexivity|]. split.
      * split; [|reflexivity]. intros _. right. exists cleanQuery.
        split; [reflexivity|]. intros v. rewrite Hemb. discriminate.
      * cbn. congruence.
    + unfold ragPipeline. rewrite Hvalid, Hemb. eexists. split; [reflexivity|]. split.
      * split; [|reflexivity]. intros _. right. exists cleanQuery.
        split; [reflexivity|]. intros v. rewrite Hemb. discriminate.
      * cbn. congruence.
    + unfold ragPipeline. rewrite Hvalid, Hemb. eexists. split; [reflexivity|]. split.
      * split; [|reflexivity]. intros _. right. exists cleanQuery.
        split; [reflexivity|]. intros v. rewrite Hemb. discriminate.
      * cbn. congruence.
Qed.

(** X5: when the query is valid, the embedding is an array and the
    model fails on every attempt, the result is tagged
    "fallback-template", reports "AI model temporarily unavailable",
    lists one source per relevant document, and its answer is the
    selected template with the rendered source list in its slot. *)
Theorem gemini_outage_gives_template
    (w : World) (query cleanQuery sessionId : jsstring) (embedding : list float) :
  validateQuery (VString query) = Valid cleanQuery ->
  snd (JinaService.generateEmbedding (math w) (jinaApiKey w) (jinaPost w)
         cleanQuery 2) = Returns (Some (JinaService.EmbArray embedding)) ->
  (forall prompt attempt, exists e,
      geminiAttempt (gemini w prompt attempt) = Throws e) ->
  exists result searchResults src,
    QdrantService.searchVectors (qdrantApiKey w) (qdrantPost w) embedding 5
      QdrantService.defaultScoreThreshold = Returns searchResults
    /\ Fallback.sourcesText (relevantDocsOf searchResults) = Returns src
    /\ generateRAGResponse w (VString query) sessionId = Returns result
    /\ modelUsed (metadata result) = js "fallback-template"
    /\ error (metadata result) = Some (js "AI model temporarily unavailable")
    /\ sources result = sourcesOf (relevantDocsOf searchResults)
    /\ answer result =
       Some (replace (Fallback.selectedTemplate (toLowerCase w) cleanQuery)
               Fallback.sourcesSlot src).
Proof.
  intros Hvalid Hemb Hdown.
  destruct (ragPipeline_valid w query cleanQuery embedding Hvalid Hemb)
    as (searchResults & Hsearch & Hall & Hpipe).
  destruct (FallbackProps.sourcesText_total (relevantDocsOf searchResults)
              (relevantDocsOf_payload _ Hall)) as (src & Hsrc).
  destruct (GeminiBounds.geminiLoop_all_fail
              (gemini w (systemPrompt (contextOf (relevantDocsOf searchResults))
                           cleanQuery))
              3 2000 3 1 eq_refl ltac:(lia) (fun a _ => Hdown _ a))
    as (e & _ & Hthrows & _).
  eexists. exists searchResults, src.
  split; [exact Hsearch|]. split; [exact Hsrc|].
  unfold generateRAGResponse. rewrite Hpipe. unfold generateAnswer.
  unfold generateWithGemini. rewrite Hthrows.
  unfold Fallback.generateFallbackResponse. rewrite Hsrc.
  repeat split.
Qed.

Lemma gemini_outage_gives_template_witness :
  exists result,
    generateRAGResponse Scenario.allDown (VString (js "latest AI news"))
      Scenario.sessionA = Returns result
    /\ modelUsed (metadata result) = js "fallback-template"
    /\ List.length (sources result) = 5%nat.
Proof.
  assert (H1 : validateQuery (VString (js "latest AI news"))
               = Valid (js "latest AI news")) by reflexivity.
  assert (H2 : snd (JinaService.generateEmbedding (math Scenario.allDown)
                      (jinaApiKey Scenario.allDown) (jinaPost Scenario.allDown)
                      (js "latest AI news") 2)
               = Returns (Some (JinaService.EmbArray
                                  (JinaService.generateMockEmbedding
                                     Scenario.sampleMath (js "latest AI news")))))
    by reflexivity.
  assert (H3 : forall prompt attempt, exists e,
                 geminiAttempt (gemini Scenario.allDown prompt attempt) = Throws e)
    by (intros; eexists; reflexivity).
  destruct (gemini_outage_gives_template Scenario.allDown _ _ Scenario.sessionA _
              H1 H2 H3)
    as (result & searchResults & src & Hsearch & _ & Hres & Hmodel & _ & Hsources & _).
  exists result. split; [exact Hres|]. split; [exact Hmodel|].
  rewrite Hsources. cbn in Hsearch. injection Hsearch as <-. reflexivity.
Defined.

Lemma mockResults_all_relevant :
  relevantDocsOf QdrantService.getMockSearchResults = QdrantService.getMockSearchResults.
Proof. reflexivity. Qed.

(** X8: when the query is valid and the embedding is an array, and the
    vector store is not configured or its query fails, every answer cites
    the five mock articles, whatever the query is. *)
Theorem index_outage_cites_mock_articles
    (w : World) (query cleanQuery sessionId : jsstring) (embedding : list float) :
  validateQuery (VString query) = Valid cleanQuery ->
  snd (JinaService.generateEmbedding (math w) (jinaApiKey w) (jinaPost w)
         cleanQuery 2) = Returns (Some (JinaService.EmbArray embedding)) ->
  (qdrantApiKey w = false
   \/ exists e, qdrantPost w embedding 5%nat QdrantService.defaultScoreThreshold
                = QdrantService.SearchFails e) ->
  exists result,
    generateRAGResponse w (VString query) sessionId = Returns result
    /\ sources result = sourcesOf QdrantService.getMockSearchResults
    /\ List.length (sources result) = 5%nat
    /\ documentsFound (metadata result) = Some 5%nat.
Proof.
  intros Hvalid Hemb Hout.
  assert (Hsearch : QdrantService.searchVectors (qdrantApiKey w) (qdrantPost w)
                      embedding 5 QdrantService.defaultScoreThreshold
                    = Returns QdrantService.getMockSearchResults).
  { unfold QdrantService.searchVectors.
    destruct Hout as [->|(e & ->)]; [reflexivity|].
    destruct (qdrantApiKey w); reflexivity. }
  assert (Hall : Forall (fun doc => hasPayload doc = true)
                   QdrantService.getMockSearchResults) by (repeat constructor).
  destruct (generateAnswer_returns w cleanQuery QdrantService.getMockSearchResults Hall)
    as (result & Hans & _ & Hsrc & Hfound & _).
  exists result. unfold generateRAGResponse, ragPipeline.
  rewrite Hvalid, Hemb, Hsearch, mockResults_all_relevant, Hans.
  split; [reflexivity|]. split; [exact Hsrc|]. split; [now rewrite Hsrc|exact Hfound].
Qed.

Lemma index_outage_cites_mock_articles_witness :
  exists result,
    generateRAGResponse Scenario.allDown (VString (js "latest AI news"))
      Scenario.sessionA = Returns result
    /\ sources result = sourcesOf QdrantService.getMockSearchResults.
Proof.
  assert (H1 : validateQuery (VString (js "latest AI news"))
               = Valid (js "latest AI news")) by reflexivity.
  assert (H2 : snd (JinaService.generateEmbedding (math Scenario.allDown)
                      (jinaApiKey Scenario.allDown) (jinaPost Scenario.allDown)
                      (js "latest AI news") 2)
               = Returns (Some (JinaService.EmbArray
                                  (JinaService.generateMockEmbedding
                                     Scenario.sampleMath (js "latest AI news")))))
    by reflexivity.
  assert (H3 : qdrantApiKey Scenario.allDown = false
               \/ exists e, qdrantPost Scenario.allDown
                              (JinaService.generateMockEmbedding Scenario.sampleMath
                                 (js "latest AI news"))
                              5%nat QdrantService.defaultScoreThreshold
                            = QdrantService.SearchFails e)
    by (right; eexists; reflexivity).
  destruct (index_outage_cites_mock_articles Scenario.allDown _ _ Scenario.sessionA _
              H1 H2 H3) as (result & Hres & Hsrc & _).
  exists result. split; assumption.
Defined.

End PipelineProps.
(** ** More on the session store *)

Module StoreProps.
Import Redis.

Lemma sessionKey_injective (sid1 sid2 : jsstring) :
  sessionKey sid1 = sessionKey sid2 -> sid1 = sid2.
Proof. unfold sessionKey. apply app_inv_head. Qed.

(** X11: after a save that returns, the session reads back as the saved
    messages for as long as less than the configured TTL has passed, and
    as empty from then on. *)
Theorem saved_session_lives_for_ttl
    REDIS_TTL timestamp st sessionId messages st' (elapsed : Z) :
  saveSession REDIS_TTL timestamp st sessionId messages = Returns st' ->
  (0 <= elapsed)%Z ->
  getSession (tick elapsed st') sessionId =
    if (elapsed <? configuredTTL REDIS_TTL)%Z then messages else [].
Proof.
  intros Hsave Helapsed.
  apply RedisProps.saveSession_returns in Hsave as (Hconn & Hpos & ->).
  unfold getSession, get, tick, live. cbn [connected now db]. rewrite Hconn.
  cbn [negb]. rewrite lookup_insert_eq. cbn [expiresAt].
  destruct (Z.ltb_spec elapsed (configuredTTL REDIS_TTL));
    destruct (Z.ltb_spec (now st + elapsed) (now st + configuredTTL REDIS_TTL));
    try lia; reflexivity.
Qed.

Lemma saved_session_lives_for_ttl_witness :
  getSession (tick 3599 (mkStore true 0
     (<[sessionKey Scenario.sessionA :=
          mkEntry (mkSessionData Scenario.sessionA [Scenario.user1]
                     (js "2025-09-17T10:30:00.000Z") 1) 3600]> ∅)))
    Scenario.sessionA = [Scenario.user1]
  /\ getSession (tick 3600 (mkStore true 0
     (<[sessionKey Scenario.sessionA :=
          mkEntry (mkSessionData Scenario.sessionA [Scenario.user1]
                     (js "2025-09-17T10:30:00.000Z") 1) 3600]> ∅)))
    Scenario.sessionA = [].
Proof.
  assert (H : saveSession None (js "2025-09-17T10:30:00.000Z") Scenario.emptyStore
                Scenario.sessionA [Scenario.user1]
              = Returns (mkStore true 0
                  (<[sessionKey Scenario.sessionA :=
                       mkEntry (mkSessionData Scenario.sessionA [Scenario.user1]
                                  (js "2025-09-17T10:30:00.000Z") 1) 3600]> ∅)))
    by reflexivity.
  split.
  - exact (saved_session_lives_for_ttl None _ _ _ _ _ 3599 H ltac:(lia)).
  - exact (saved_session_lives_for_ttl None _ _ _ _ _ 3600 H ltac:(lia)).
Defined.

Lemma live_insert_any (c : bool) (st : Store) (key : jsstring)
    (v : SessionData) (ttl : Z) :
  (0 < ttl)%Z ->
  live (mkStore c (now st) (<[key := mkEntry v (now st + ttl)%Z]> (db st))) key
  = Some (mkEntry v (now st + ttl)%Z).
Proof.
  intros Hpos. unfold live. cbn [db now expiresAt].
  rewrite lookup_insert_eq. cbn [expiresAt].
  destruct (Z.ltb_spec (now st) (now st + ttl)); [reflexivity|lia].
Qed.

Lemma live_other_insert (c : bool) (st : Store) (key key' : jsstring) (e : Entry) :
  key <> key' ->
  live (mkStore c (now st) (<[key := e]> (db st))) key' = live st key'.
Proof. intros Hne. unfold live. cbn [db now]. now rewrite lookup_insert_ne. Qed.

Lemma live_other_delete (c : bool) (st : Store) (key key' : jsstring) :
  key <> key' ->
  live (mkStore c (now st) (delete key (db st))) key' = live st key'.
Proof. intros Hne. unfold live. cbn [db now]. now rewrite lookup_delete_ne. Qed.

Lemma live_delete (c : bool) (st : Store) (key : jsstring) :
  live (mkStore c (now st) (delete key (db st))) key = None.
Proof. unfold live. cbn [db]. now rewrite lookup_delete_eq. Qed.

Lemma saveSession_leaves_other_sessions_aux
    REDIS_TTL timestamp st sessionId messages st' (other : jsstring) :
  saveSession REDIS_TTL timestamp st sessionId messages = Returns st' ->
  other <> sessionId ->
  getSession st' other = getSession st other
  /\ ttlRemaining st' (sessionKey other) = ttlRemaining st (sessionKey other).
Proof.
  intros Hsave Hne.
  apply RedisProps.saveSession_returns in Hsave as (Hconn & Hpos & ->).
  assert (Hkey : sessionKey sessionId <> sessionKey other)
    by (intros H; apply sessionKey_injective in H; congruence).
  unfold getSession, get, ttlRemaining. cbn [connected].
  now rewrite live_other_insert by exact Hkey.
Qed.

(** X14: a save under one session id changes neither the history nor
    the remaining lifetime of any other session. *)
Theorem saveSession_leaves_other_sessions
    REDIS_TTL timestamp st sessionId messages st' (other : jsstring) :
  saveSession REDIS_TTL timestamp st sessionId messages = Returns st' ->
  other <> sessionId ->
  getSession st' other = getSession st other
  /\ ttlRemaining st' (sessionKey other) = ttlRemaining st (sessionKey other).
Proof.
  intros Hsave Hne.
  now apply (saveSession_leaves_other_sessions_aux _ _ _ _ _ _ other Hsave).
Qed.

Lemma saveSession_leaves_other_sessions_witness :
  js "another-session" <> Scenario.sessionA
  /\ ttlRemaining
       (mkStore true 3000
          (<[sessionKey (js "another-session") :=
               mkEntry (mkSessionData (js "another-session") []
                          (js "2025-09-17T10:30:00.000Z") 0) 6600]>
             (db Scenario.agedStore)))
       (sessionKey Scenario.sessionA) = Some 600%Z.
Proof.
  assert (H : saveSession None (js "2025-09-17T10:30:00.000Z") Scenario.agedStore
                (js "another-session") []
              = Returns (mkStore true 3000
                  (<[sessionKey (js "another-session") :=
                       mkEntry (mkSessionData (js "another-session") []
                                  (js "2025-09-17T10:30:00.000Z") 0) 6600]>
                     (db Scenario.agedStore))))
    by reflexivity.
  assert (Hne : Scenario.sessionA <> js "another-session") by discriminate.
  split; [intros E; now apply Hne|].
  rewrite (proj2 (saveSession_leaves_other_sessions None _ _ _ _ _
                    Scenario.sessionA H Hne)).
  vm_compute. reflexivity.
Defined.

Lemma deleteSession_empties_aux st sessionId wasDeleted st' :
  deleteSession st sessionId = Returns (wasDeleted, st') ->
  getSession st' sessionId = []
  /\ (wasDeleted = true <-> live st (sessionKey sessionId) <> None)
  /\ forall other, other <> sessionId -> getSession st' other = getSession st other.
Proof.
  unfold deleteSession, del.
  destruct (connected st) eqn:Hconn; cbn [negb]; [|discriminate].
  destruct (live st (sessionKey sessionId)) as [e|] eqn:Hlive.
  - intros [= <- <-]. split; [|split].
    + unfold getSession, get. cbn [connected negb].
      now rewrite live_delete.
    + split; [discriminate|reflexivity].
    + intros other Hne. unfold getSession, get. cbn [connected].
      rewrite Hconn, live_other_delete; [reflexivity|].
      intros H. apply sessionKey_injective in H. congruence.
  - intros [= <- <-]. split; [|split].
    + unfold getSession, get. rewrite Hconn. cbn [negb]. now rewrite Hlive.
    + split; [discriminate|congruence].
    + reflexivity.
Qed.

(** X12: a delete that returns leaves the session empty and every other
    session as it was; it reports [true] exactly when the key was there
    and had not expired. *)
Theorem deleteSession_empties st sessionId wasDeleted st' :
  deleteSession st sessionId = Returns (wasDeleted, st') ->
  getSession st' sessionId = []
  /\ (wasDeleted = true <-> live st (sessionKey sessionId) <> None)
  /\ forall other, other <> sessionId -> getSession st' other = getSession st other.
Proof. apply deleteSession_empties_aux. Qed.

Lemma deleteSession_empties_witness :
  deleteSession Scenario.agedStore Scenario.sessionA
    = Returns (true, mkStore true 3000
                       (delete (sessionKey Scenario.sessionA) (db Scenario.agedStore)))
  /\ getSession (mkStore true 3000
                   (delete (sessionKey Scenario.sessionA) (db Scenario.agedStore)))
       Scenario.sessionA = [].
Proof.
  assert (H : deleteSession Scenario.agedStore Scenario.sessionA
              = Returns (true, mkStore true 3000
                       (delete (sessionKey Scenario.sessionA) (db Scenario.agedStore))))
    by reflexivity.
  split; [exact H|].
  exact (proj1 (deleteSession_empties _ _ _ _ H)).
Defined.

(** What [extendSessionTTL] with the default argument does when the
    configured TTL is positive. *)
Lemma extendSessionTTL_default REDIS_TTL st sessionId :
  (0 < configuredTTL REDIS_TTL)%Z ->
  getSession (snd (extendSessionTTL REDIS_TTL st sessionId None)) sessionId
    = getSession st sessionId
  /\ (fst (extendSessionTTL REDIS_TTL st sessionId None) = true ->
      ttlRemaining (snd (extendSessionTTL REDIS_TTL st sessionId None))
        (sessionKey sessionId) = Some (configuredTTL REDIS_TTL))
  /\ (fst (extendSessionTTL REDIS_TTL st sessionId None) = false ->
      snd (extendSessionTTL REDIS_TTL st sessionId None) = st)
  /\ (fst (extendSessionTTL REDIS_TTL st sessionId None) = true <->
      connected st = true /\ live st (sessionKey sessionId) <> None)
  /\ (forall other, other <> sessionId ->
      getSession (snd (extendSessionTTL REDIS_TTL st sessionId None)) other
      = getSession st other).
Proof.
  intros Hpos. unfold extendSessionTTL, expire.
  destruct (connected st) eqn:Hconn; cbn [negb].
  2:{ cbn. repeat split; try discriminate; try tauto;
      try (intros [? ?]; congruence). }
  destruct (live st (sessionKey sessionId)) as [e|] eqn:Hlive.
  2:{ cbn. repeat split; try discriminate; try tauto;
      try (intros [? ?]; congruence). }
  destruct (Z.leb_spec (configuredTTL REDIS_TTL) 0); [lia|].
  cbn [fst snd Z.eqb Pos.eqb]. split; [|split; [|split; [|split]]].
  - unfold getSession, get. cbn [connected negb]. rewrite Hconn. cbn [negb].
    rewrite live_insert_any by exact Hpos. now rewrite Hlive.
  - intros _. unfold ttlRemaining. rewrite live_insert_any by exact Hpos.
    cbn [expiresAt now]. f_equal. lia.
  - discriminate.
  - split; [intros _; split; congruence|reflexivity].
  - intros other Hne. unfold getSession, get. cbn [connected].
    rewrite Hconn, live_other_insert; [reflexivity|].
    intros H'. apply sessionKey_injective in H'. congruence.
Qed.

(** X13: with a positive configured TTL, [extendSessionTTL] with the
    default argument never changes what the session reads as. It answers
    [true] exactly when the store is reachable and the key exists, and
    then the key has the full configured TTL; when it answers [false] the
    store is untouched. *)
Theorem extendSessionTTL_keeps_content REDIS_TTL st sessionId renewed st' :
  (0 < configuredTTL REDIS_TTL)%Z ->
  extendSessionTTL REDIS_TTL st sessionId None = (renewed, st') ->
  getSession st' sessionId = getSession st sessionId
  /\ (renewed = true <->
      connected st = true /\ live st (sessionKey sessionId) <> None)
  /\ (renewed = true ->
      ttlRemaining st' (sessionKey sessionId) = Some (configuredTTL REDIS_TTL))
  /\ (renewed = false -> st' = st).
Proof.
  intros Hpos Hext.
  destruct (extendSessionTTL_default REDIS_TTL st sessionId Hpos)
    as (Hget & Httl & Hsame & Hiff & _).
  rewrite Hext in *. cbn [fst snd] in *. auto.
Qed.

Lemma extendSessionTTL_keeps_content_witness :
  (0 < configuredTTL None)%Z
  /\ ttlRemaining Scenario.agedStore (sessionKey Scenario.sessionA) = Some 600%Z
  /\ ttlRemaining (snd (extendSessionTTL None Scenario.agedStore Scenario.sessionA None))
       (sessionKey Scenario.sessionA) = Some 3600%Z.
Proof.
  assert (H : (0 < configuredTTL None)%Z) by reflexivity.
  split; [exact H|]. split; [vm_compute; reflexivity|].
  destruct (extendSessionTTL None Scenario.agedStore Scenario.sessionA None)
    as [renewed st'] eqn:Hext.
  destruct (extendSessionTTL_keeps_content None _ _ _ _ H Hext) as (_ & _ & Httl & _).
  cbn [snd]. apply Httl.
  vm_compute in Hext. now injection Hext as <- _.
Defined.

(** X15: while the store is unreachable, a read gives the empty history
    and a renewal answers [false], both without an exception, whereas a
    save and a delete throw. *)
Theorem unreachable_store_reads_empty
    REDIS_TTL timestamp st sessionId messages (ttl : option Z) :
  connected st = false ->
  getSession st sessionId = []
  /\ extendSessionTTL REDIS_TTL st sessionId ttl = (false, st)
  /\ (exists e, saveSession REDIS_TTL timestamp st sessionId messages = Throws e
                /\ startsWith (js "Failed to save session: ") (message e) = true)
  /\ (exists e, deleteSession st sessionId = Throws e
                /\ startsWith (js "Failed to delete session: ") (message e) = true).
Proof.
  intros Hconn. unfold getSession, get, extendSessionTTL, expire, saveSession,
    setex, deleteSession, del. rewrite Hconn. cbn [negb].
  repeat split; eexists; split; reflexivity.
Qed.

Lemma unreachable_store_reads_empty_witness :
  connected (mkStore false 3000 (db Scenario.agedStore)) = false
  /\ getSession (mkStore false 3000 (db Scenario.agedStore)) Scenario.sessionA = [].
Proof.
  assert (H : connected (mkStore false 3000 (db Scenario.agedStore)) = false)
    by reflexivity.
  split; [exact H|].
  exact (proj1 (unreachable_store_reads_empty None [] _ Scenario.sessionA [] None H)).
Defined.

End StoreProps.
(** ** More on the chat controller *)

Module TurnProps.
Import RagService Orchestrator ChatController.
Import Redis (saveSession, getSession, configuredTTL, ttlRemaining, sessionKey, connected).





End TurnProps.
(** ** The session endpoints *)

Module SessionProps.
Import SessionController SessionRoutes ChatEvents.
Import Redis (saveSession, getSession, deleteSession, extendSessionTTL,
              configuredTTL, ttlRemaining, sessionKey, connected, live).

(** A history that reads as non-empty comes from a reachable store and a
    key that has not expired. *)
Lemma getSession_nonempty st sessionId :
  getSession st sessionId <> [] ->
  connected st = true /\ live st (sessionKey sessionId) <> None.
Proof.
  unfold getSession, Redis.get.
  destruct (connected st); cbn [negb]; [|congruence].
  destruct (live st (sessionKey sessionId)); cbn; [split; congruence|congruence].
Qed.

Lemma length_user_bot (messages : list Message) :
  List.length messages
  = (List.length (List.filter isUser messages)
     + List.length (List.filter isBot messages))%nat.
Proof.
  induction messages as [|m rest IH]; [reflexivity|].
  cbn [List.filter].
  replace (isUser m) with (match m_type m with user => true | bot => false end)
    by reflexivity.
  replace (isBot m) with (match m_type m with bot => true | user => false end)
    by reflexivity.
  destruct (m_type m); cbn [List.length]; lia.
Qed.

(** Reading the history and renewing it when it is not empty. *)
Lemma read_and_renew REDIS_TTL st sessionId :
  (0 < configuredTTL REDIS_TTL)%Z ->
  let st' := if (0 <? List.length (getSession st sessionId))%nat
             then snd (extendSessionTTL REDIS_TTL st sessionId None)
             else st in
  getSession st' sessionId = getSession st sessionId
  /\ (getSession st sessionId <> [] ->
      ttlRemaining st' (sessionKey sessionId) = Some (configuredTTL REDIS_TTL))
  /\ (getSession st sessionId = [] -> st' = st)
  /\ (forall other, other <> sessionId -> getSession st' other = getSession st other).
Proof.
  intros Hpos. cbn zeta.
  destruct (StoreProps.extendSessionTTL_default REDIS_TTL st sessionId Hpos)
    as (Hget & Httl & _ & Hiff & Hother).
  destruct (getSession st sessionId) as [|m rest] eqn:Hhist; cbn [List.length Nat.ltb Nat.leb].
  - repeat split; congruence.
  - split; [now rewrite Hget|]. split; [|split; [discriminate|exact Hother]].
    intros _. apply Httl. apply Hiff. apply getSession_nonempty. congruence.
Qed.

(** X18: joining a session with a non-empty string id emits the stored
    history and leaves it as it was; a history that is not empty gets the
    full configured TTL, a session without messages is not renewed. *)
Theorem join_session_emits_history cfg (sessionId : jsstring) st st' replies room :
  sessionId <> [] ->
  (0 < configuredTTL (ChatController.REDIS_TTL cfg))%Z ->
  handleJoinSession cfg (VString sessionId) st = (st', replies, room) ->
  replies = [ReplyHistory (getSession st sessionId)]
  /\ room = Some sessionId
  /\ getSession st' sessionId = getSession st sessionId
  /\ (getSession st sessionId <> [] ->
      ttlRemaining st' (sessionKey sessionId)
      = Some (configuredTTL (ChatController.REDIS_TTL cfg)))
  /\ (getSession st sessionId = [] -> st' = st).
Proof.
  intros Hne Hpos. destruct sessionId as [|c s]; [congruence|].
  cbn [handleJoinSession]. intros [= <- <- <-].
  destruct (read_and_renew (ChatController.REDIS_TTL cfg) st (c :: s) Hpos)
    as (H1 & H2 & H3 & _).
  auto.
Qed.

Lemma join_session_emits_history_witness :
  Scenario.sessionA <> []
  /\ (0 < configuredTTL (ChatController.REDIS_TTL Scenario.sampleConfig))%Z
  /\ exists st' room,
       handleJoinSession Scenario.sampleConfig (VString Scenario.sessionA)
         Scenario.agedStore = (st', [ReplyHistory []], room)
       /\ st' = Scenario.agedStore.
Proof.
  assert (H1 : Scenario.sessionA <> []) by discriminate.
  assert (H2 : (0 < configuredTTL (ChatController.REDIS_TTL Scenario.sampleConfig))%Z)
    by reflexivity.
  split; [exact H1|]. split; [exact H2|].
  destruct (handleJoinSession Scenario.sampleConfig (VString Scenario.sessionA)
              Scenario.agedStore) as [[st' replies] room] eqn:Hjoin.
  destruct (join_session_emits_history _ _ _ _ _ _ H1 H2 Hjoin)
    as (Hreplies & _ & _ & _ & Hsame).
  exists st', room. rewrite Hreplies. split; [reflexivity|].
  apply Hsame. reflexivity.
Defined.

(** X19: the history endpoint of the session controller returns the
    stored messages, counts every message as a user or a bot message,
    leaves the history as it was and renews the TTL of a history that is
    not empty. *)
Theorem getSessionHistory_counts_and_renews REDIS_TTL clock sessionId st :
  (0 < configuredTTL REDIS_TTL)%Z ->
  let '(st', (messages, stats)) := getSessionHistory REDIS_TTL clock sessionId st in
  messages = getSession st sessionId
  /\ totalMessages stats = (userMessages stats + botMessages stats)%nat
  /\ totalMessages stats = List.length messages
  /\ getSession st' sessionId = messages
  /\ (messages <> [] ->
      ttlRemaining st' (sessionKey sessionId) = Some (configuredTTL REDIS_TTL))
  /\ (messages = [] -> st' = st /\ sessionAge stats = Some 0%Z).
Proof.
  intros Hpos. unfold getSessionHistory.
  destruct (read_and_renew REDIS_TTL st sessionId Hpos) as (H1 & H2 & H3 & _).
  cbn zeta in *. split; [reflexivity|]. split; [apply length_user_bot|].
  split; [reflexivity|]. split; [exact H1|]. split; [exact H2|].
  intros Hempty. split; [now apply H3|]. cbn. now rewrite Hempty.
Qed.

Lemma getSessionHistory_counts_and_renews_witness :
  (0 < configuredTTL None)%Z
  /\ totalMessages (snd (snd (getSessionHistory None
        (mkClock 0 (js "2025-09-17T10:30:00.000Z") (fun _ => None))
        Scenario.sessionA Scenario.agedStore))) = 0%nat.
Proof.
  assert (H : (0 < configuredTTL None)%Z) by reflexivity.
  split; [exact H|].
  pose proof (getSessionHistory_counts_and_renews None
                (mkClock 0 (js "2025-09-17T10:30:00.000Z") (fun _ => None))
                Scenario.sessionA Scenario.agedStore H) as Hthm.
  destruct (getSessionHistory None
              (mkClock 0 (js "2025-09-17T10:30:00.000Z") (fun _ => None))
              Scenario.sessionA Scenario.agedStore) as [st' [messages stats]].
  destruct Hthm as (Hm & _ & Htotal & _). cbn [snd]. rewrite Htotal, Hm. reflexivity.
Defined.

Lemma fold_sources_ge (l : list Message) (acc : nat) :
  (acc + List.length (List.filter hasSources l)
   <= fold_left (fun sum m => (sum + sourceCount m)%nat) l acc)%nat.
Proof.
  revert acc. induction l as [|m rest IH]; intros acc; cbn [fold_left List.filter];
    [cbn; lia|].
  specialize (IH (acc + sourceCount m)%nat).
  assert (Hm : ((if hasSources m then 1 else 0) <= sourceCount m)%nat).
  { unfold hasSources, sourceCount. destruct (m_sources m) as [src|]; [|lia].
    destruct (Nat.ltb_spec 0 (List.length src)); lia. }
  destruct (hasSources m); cbn [List.length]; lia.
Qed.

Lemma filter_length_le {A : Type} (f : A -> bool) (l : list A) :
  (List.length (List.filter f l) <= List.length l)%nat.
Proof.
  induction l as [|x l IH]; cbn [List.filter List.length]; [lia|].
  destruct (f x); cbn [List.length]; lia.
Qed.

(** X20: the statistics endpoint reports a session as missing exactly
    when its history reads as empty. Otherwise every message is counted
    as a user or a bot message, the responses with sources are at most
    the bot messages and at most the sources in total, and the timeline
    holds the entries of the last ten messages (of all of them when there
    are fewer), in order. *)
Theorem getSessionStats_summarises clock sessionId st :
  match getSessionStats clock sessionId st with
  | StatsMissing sid => sid = sessionId /\ getSession st sessionId = []
  | StatsFound sid stats =>
      sid = sessionId
      /\ getSession st sessionId <> []
      /\ st_total stats = List.length (getSession st sessionId)
      /\ st_total stats = (st_user stats + st_bot stats)%nat
      /\ (st_responsesWithSources stats <= st_bot stats)%nat
      /\ (st_responsesWithSources stats <= st_totalSources stats)%nat
      /\ List.length (st_timeline stats) = Nat.min 10 (st_total stats)
      /\ st_timeline stats
         = List.map timelineEntryOf
             (skipn (List.length (getSession st sessionId) - 10)
                (getSession st sessionId))
  end.
Proof.
  unfold getSessionStats.
  destruct (getSession st sessionId) as [|first rest]; [split; reflexivity|].
  cbn [st_total st_user st_bot st_responsesWithSources st_totalSources st_timeline].
  split; [reflexivity|]. split; [discriminate|]. split; [reflexivity|].
  split; [apply length_user_bot|]. split; [apply filter_length_le|].
  split; [apply (fold_sources_ge _ 0)|].
  unfold sliceLast. rewrite length_map. split.
  - rewrite length_skipn, length_map. lia.
  - now rewrite skipn_map.
Qed.

(** X21: the export endpoint answers "not found" exactly when the
    history reads as empty, whatever the format. For a non-empty history
    and the format "json" (or none), it exports every message in order
    with its id, type, content and timestamp, and an empty source list
    where the message has none; any other format is refused. *)
Theorem exportSession_exports_history clock sessionId format st :
  match exportSession clock sessionId format st with
  | ExportNotFound sid => sid = sessionId /\ getSession st sessionId = []
  | ExportOk sid exportedAt messageCount messages =>
      sid = sessionId
      /\ (format = None \/ format = Some (js "json"))
      /\ messageCount = List.length (getSession st sessionId)
      /\ messages = List.map exportedMessageOf (getSession st sessionId)
      /\ List.map ex_id messages = List.map m_id (getSession st sessionId)
      /\ getSession st sessionId <> []
  | ExportBadFormat =>
      getSession st sessionId <> []
      /\ format <> None /\ format <> Some (js "json")
  end.
Proof.
  unfold exportSession.
  destruct (getSession st sessionId) as [|first rest]; [split; reflexivity|].
  destruct format as [f|]; cbn zeta.
  - destruct (bool_decide_reflect (f = js "json")) as [->|Hne].
    + repeat split; try (right; reflexivity); try discriminate.
      now rewrite map_map.
    + repeat split; try discriminate. congruence.
  - rewrite bool_decide_eq_true_2 by reflexivity.
    repeat split; try (left; reflexivity); try discriminate.
    now rewrite map_map.
Qed.

(** X22: a session that was just created reads as an empty history with
    the lifetime that the response announces in [expiresIn]; the
    statistics endpoint of the controller reports it as missing and the
    export endpoint as not found. *)
Theorem created_session_reads_as_missing
    REDIS_TTL clock sessionId st st' expiresIn format :
  createSession REDIS_TTL clock sessionId st = (st', Created sessionId expiresIn) ->
  getSession st' sessionId = []
  /\ ttlRemaining st' (sessionKey sessionId) = Some expiresIn
  /\ expiresIn = configuredTTL REDIS_TTL
  /\ getSessionStats clock sessionId st' = StatsMissing sessionId
  /\ exportSession clock sessionId format st' = ExportNotFound sessionId.
Proof.
  unfold createSession.
  destruct (saveSession REDIS_TTL (SessionController.isoNow clock) st sessionId [])
    as [st2|e] eqn:Hsave; [|discriminate].
  intros [= <- <-].
  pose proof (RedisProps.getSession_saveSession _ _ _ _ _ _ Hsave) as Hget.
  pose proof (RedisProps.saveSession_ttl _ _ _ _ _ _ Hsave) as Httl.
  unfold getSessionStats, exportSession. rewrite Hget. auto.
Qed.

Lemma created_session_reads_as_missing_witness :
  exists st',
    createSession None (mkClock 0 (js "2025-09-17T10:30:00.000Z") (fun _ => None))
      Scenario.sessionA Scenario.emptyStore = (st', Created Scenario.sessionA 3600)
    /\ ttlRemaining st' (sessionKey Scenario.sessionA) = Some 3600%Z.
Proof.
  eexists. split; [reflexivity|].
  refine (proj1 (proj2 (created_session_reads_as_missing None
            (mkClock 0 (js "2025-09-17T10:30:00.000Z") (fun _ => None))
            Scenario.sessionA Scenario.emptyStore _ 3600 None eq_refl))).
Defined.

(** X23: the statistics route reports [exists: true] for every session
    id and every state of the store, also for a session that was never
    created and for a store that cannot be reached; [isActive] tells
    whether the history reads as non-empty. *)
Theorem statsRoute_always_exists sessionId st :
  rs_exists (statsRoute sessionId st) = true
  /\ (rs_isActive (statsRoute sessionId st) = true <-> getSession st sessionId <> [])
  /\ rs_total (statsRoute sessionId st)
     = (rs_user (statsRoute sessionId st) + rs_bot (statsRoute sessionId st))%nat
  /\ (connected st = false -> rs_total (statsRoute sessionId st) = 0%nat).
Proof.
  unfold statsRoute.
  cbn [rs_exists rs_isActive rs_total rs_user rs_bot].
  split; [reflexivity|]. split; [|split; [apply length_user_bot|]].
  - destruct (getSession st sessionId); cbn; split; congruence.
  - intros Hconn. unfold getSession, Redis.get. now rewrite Hconn.
Qed.

(** X24: against a reachable store, clearing a session through the
    controller, the route or the socket event leaves its history empty.
    The controller always answers with the number of messages that were
    there, also for a session that did not exist; the route answers "not
    found" exactly when there was no key to delete. *)
Theorem clearing_a_session sessionId st :
  connected st = true ->
  getSession (fst (clearSession sessionId st)) sessionId = []
  /\ snd (clearSession sessionId st)
     = Cleared sessionId (List.length (getSession st sessionId))
  /\ getSession (fst (deleteRoute sessionId st)) sessionId = []
  /\ (snd (deleteRoute sessionId st) = DeleteNotFound sessionId
      <-> live st (sessionKey sessionId) = None)
  /\ (snd (deleteRoute sessionId st) = DeleteOk sessionId
      <-> live st (sessionKey sessionId) <> None)
  /\ getSession (fst (handleClearSession sessionId st)) sessionId = []
  /\ snd (handleClearSession sessionId st) = [RoomCleared sessionId].
Proof.
  intros Hconn.
  destruct (deleteSession st sessionId) as [[wasDeleted st']|e] eqn:Hdel.
  2:{ unfold deleteSession, Redis.del in Hdel. rewrite Hconn in Hdel.
      cbn [negb] in Hdel.
      destruct (live st (sessionKey sessionId)); discriminate Hdel. }
  destruct (StoreProps.deleteSession_empties_aux _ _ _ _ Hdel) as (Hempty & Hiff & _).
  unfold clearSession, deleteRoute, handleClearSession. rewrite Hdel.
  assert (Hcases : (wasDeleted = true /\ live st (sessionKey sessionId) <> None)
                   \/ (wasDeleted = false /\ live st (sessionKey sessionId) = None)).
  { destruct wasDeleted.
    - left. split; [reflexivity|]. now apply Hiff.
    - right. split; [reflexivity|].
      destruct (live st (sessionKey sessionId)) eqn:Hl; [|reflexivity].
      assert (false = true) by (apply Hiff; discriminate). discriminate. }
  destruct Hcases as [[-> Hlive]|[-> Hlive]]; cbn [fst snd].
  - split; [exact Hempty|]. split; [reflexivity|]. split; [exact Hempty|].
    split; [split; [discriminate|congruence]|].
    split; [split; [intros _; exact Hlive|reflexivity]|].
    split; [exact Hempty|reflexivity].
  - split; [exact Hempty|]. split; [reflexivity|]. split; [exact Hempty|].
    split; [split; [intros _; exact Hlive|reflexivity]|].
    split; [split; [discriminate|congruence]|].
    split; [exact Hempty|reflexivity].
Qed.

Lemma clearing_a_session_witness :
  connected Scenario.emptyStore = true
  /\ snd (clearSession Scenario.sessionA Scenario.emptyStore)
     = Cleared Scenario.sessionA 0
  /\ snd (deleteRoute Scenario.sessionA Scenario.emptyStore)
     = DeleteNotFound Scenario.sessionA.
Proof.
  assert (H : connected Scenario.emptyStore = true) by reflexivity.
  split; [exact H|].
  destruct (clearing_a_session Scenario.sessionA Scenario.emptyStore H)
    as (_ & Hctl & _ & Hroute & _).
  split; [exact Hctl|]. apply Hroute. reflexivity.
Defined.

End SessionProps.
(** ** The strict embedding client *)

Module EmbeddingProps.
Import EmbeddingService.

(** X25: [generateEmbedding] of the embedding service makes no request
    for a text that is not a non-empty string or without an API key, and
    throws. When all three requests fail, it waits 1000 ms and 2000 ms
    between them and throws an error whose message is "Failed to generate
    embedding after 3 attempts: " followed by the message of the last
    failure. *)
Theorem strict_generateEmbedding_exhausts
    (post : jsstring -> nat -> EmbeddingReply) (text : jsstring) (e3 : JsError) :
  text <> [] ->
  (forall attempt, exists e, embedAttempt (post (cleanText text) attempt) = Throws e) ->
  embedAttempt (post (cleanText text) 3%nat) = Throws e3 ->
  generateEmbedding true post (VString text) =
    ([Call 1; Sleep 1000; Call 2; Sleep 2000; Call 3],
     Throws (Error (js "Failed to generate embedding after 3 attempts: "
                    ++ message e3)))
  /\ (exists e, generateEmbedding false post (VString text) = ([], Throws e))
  /\ (exists e, generateEmbedding true post (VString []) = ([], Throws e))
  /\ (exists e, generateEmbedding true post VOther = ([], Throws e)).
Proof.
  intros Hne Hfail H3. destruct text as [|c s]; [congruence|].
  split; [|repeat split; eexists; reflexivity].
  cbn [generateEmbedding negb]. unfold MAX_RETRIES. cbn [embedLoop].
  destruct (Hfail 1%nat) as (e1 & ->). destruct (Hfail 2%nat) as (e2 & ->).
  rewrite H3. reflexivity.
Qed.

Lemma strict_generateEmbedding_exhausts_witness :
  js "latest AI news" <> []
  /\ generateEmbedding true (fun _ _ => ReplyFails Scenario.unavailable)
       (VString (js "latest AI news")) =
     ([Call 1; Sleep 1000; Call 2; Sleep 2000; Call 3],
      Throws (Error (js "Failed to generate embedding after 3 attempts: "
                     ++ message Scenario.unavailable))).
Proof.
  assert (H1 : js "latest AI news" <> []) by discriminate.
  split; [exact H1|].
  exact (proj1 (strict_generateEmbedding_exhausts
                  (fun _ _ => ReplyFails Scenario.unavailable) (js "latest AI news")
                  Scenario.unavailable H1
                  (fun _ => ex_intro _ Scenario.unavailable eq_refl) eq_refl)).
Defined.

Lemma embedEach_length apiKey post (batch : list jsstring) :
  List.length (snd (embedEach apiKey post batch)) = List.length batch.
Proof.
  induction batch as [|text rest IH]; [reflexivity|].
  cbn [embedEach]. destruct (embedEach apiKey post rest) as [events embeddings].
  destruct (generateEmbedding apiKey post (VString text)) as [tr [embedding|e]];
    cbn [snd List.length] in *; now rewrite IH.
Qed.

Lemma embedEach_no_key post (batch : list jsstring) :
  snd (embedEach false post batch) = repeat (Some zeroVector) (List.length batch).
Proof.
  induction batch as [|text rest IH]; [reflexivity|].
  cbn [embedEach]. destruct (embedEach false post rest) as [events embeddings].
  cbn [snd] in IH. subst embeddings.
  destruct text as [|c s]; reflexivity.
Qed.

(** The loop with a batch endpoint that never delivers items. *)
Lemma batchLoop_fallback apiKey batchPost post texts batchSize fuel i :
  (1 <= batchSize)%nat ->
  (forall start batch items, batchPost start batch <> BatchItems items) ->
  (List.length texts <= i + fuel * batchSize)%nat ->
  exists events embeddings,
    batchLoop apiKey batchPost post texts batchSize fuel i = Some (events, embeddings)
    /\ List.length embeddings = (List.length texts - i)%nat
    /\ (apiKey = false ->
        embeddings = repeat (Some zeroVector) (List.length texts - i)).
Proof.
  intros Hsize Hdown. revert i.
  induction fuel as [|fuel IH]; intros i Hfuel; cbn [batchLoop].
  - destruct (Nat.ltb_spec i (List.length texts)); [lia|].
    exists [], []. split; [reflexivity|].
    replace (List.length texts - i)%nat with 0%nat by lia. split; reflexivity.
  - destruct (Nat.ltb_spec i (List.length texts)) as [Hlt|Hge].
    2:{ exists [], []. split; [reflexivity|].
        replace (List.length texts - i)%nat with 0%nat by lia. split; reflexivity. }
    destruct (IH (i + batchSize)%nat ltac:(lia)) as (events' & embeddings' & -> & Hlen & Hzero).
    pose proof (embedEach_length apiKey post (firstn batchSize (skipn i texts))) as Heach.
    pose proof (embedEach_no_key post (firstn batchSize (skipn i texts))) as Hnokey.
    assert (Hbatch : List.length (firstn batchSize (skipn i texts))
                     = Nat.min batchSize (List.length texts - i))
      by now rewrite length_firstn, length_skipn.
    destruct (embedEach apiKey post (firstn batchSize (skipn i texts)))
      as [events embeddings] eqn:Hrun.
    cbn [snd] in Heach.
    assert (Hsum : (List.length embeddings + List.length embeddings'
                    = List.length texts - i)%nat) by lia.
    destruct (batchPost i (List.map cleanText (firstn batchSize (skipn i texts))))
      as [e| |items] eqn:Hpost; [| |now apply Hdown in Hpost].
    + do 2 eexists. split; [reflexivity|]. split; [now rewrite length_app|].
      intros ->. rewrite Hrun in Hnokey. cbn [snd] in Hnokey.
      rewrite Hnokey, (Hzero eq_refl), <- repeat_app. f_equal. lia.
    + do 2 eexists. split; [reflexivity|]. split; [now rewrite length_app|].
      intros ->. rewrite Hrun in Hnokey. cbn [snd] in Hnokey.
      rewrite Hnokey, (Hzero eq_refl), <- repeat_app. f_equal. lia.
Qed.

(** X26: with a batch size of at least 1 and a batch endpoint that
    never delivers, [generateBatchEmbeddings] finishes within one
    iteration per text, does not throw, and returns exactly one embedding
    per text; without an API key every one of them is the zero vector of
    768 components. *)
Theorem batch_embeddings_degrade_per_item
    apiKey batchPost post (texts : list jsstring) (batchSize : nat) :
  texts <> [] -> (1 <= batchSize)%nat ->
  (forall start batch items, batchPost start batch <> BatchItems items) ->
  exists events embeddings,
    generateBatchEmbeddings apiKey batchPost post texts batchSize (List.length texts)
      = Some (events, Returns embeddings)
    /\ List.length embeddings = List.length texts
    /\ (apiKey = false ->
        embeddings = repeat (Some zeroVector) (List.length texts))
    /\ List.length zeroVector = 768%nat.
Proof.
  intros Hne Hsize Hdown.
  destruct (batchLoop_fallback apiKey batchPost post texts batchSize
              (List.length texts) 0 Hsize Hdown ltac:(nia))
    as (events & embeddings & Hloop & Hlen & Hzero).
  exists events, embeddings. unfold generateBatchEmbeddings.
  destruct texts as [|t rest]; [congruence|]. rewrite Hloop.
  rewrite Nat.sub_0_r in Hlen, Hzero. repeat split; assumption.
Qed.

Lemma batch_embeddings_degrade_per_item_witness :
  exists events,
    generateBatchEmbeddings false (fun _ _ => BatchFails Scenario.unavailable)
      (fun _ _ => ReplyFails Scenario.unavailable)
      [js "first text"; js "second text"; js "third text"] 2 3
    = Some (events, Returns [Some zeroVector; Some zeroVector; Some zeroVector]).
Proof.
  destruct (batch_embeddings_degrade_per_item false
              (fun _ _ => BatchFails Scenario.unavailable)
              (fun _ _ => ReplyFails Scenario.unavailable)
              [js "first text"; js "second text"; js "third text"] 2
              ltac:(discriminate) ltac:(lia) ltac:(discriminate))
    as (events & embeddings & Hrun & _ & Hzero & _).
  exists events. cbn [List.length] in Hrun. rewrite Hrun, (Hzero eq_refl). reflexivity.
Defined.

Lemma batchLoop_zero_stuck apiKey batchPost post texts fuel :
  texts <> [] ->
  batchLoop apiKey batchPost post texts 0 fuel 0 = None.
Proof.
  intros Hne. assert (Hlt : (0 <? List.length texts)%nat = true)
    by (destruct texts; [congruence|reflexivity]).
  induction fuel as [|fuel IH]; cbn [batchLoop]; rewrite Hlt; [reflexivity|].
  rewrite Nat.add_0_r, IH.
  destruct (batchPost 0%nat _); [destruct (embedEach _ _ _)| destruct (embedEach _ _ _)|];
    reflexivity.
Qed.

(** X27: with a batch size of 0 the loop of [generateBatchEmbeddings]
    never advances: for a non-empty array no number of iterations is
    enough for the call to finish. *)
Theorem batch_size_zero_never_finishes
    apiKey batchPost post (texts : list jsstring) (fuel : nat) :
  texts <> [] ->
  generateBatchEmbeddings apiKey batchPost post texts 0 fuel = None.
Proof.
  intros Hne. unfold generateBatchEmbeddings.
  rewrite (batchLoop_zero_stuck apiKey batchPost post texts fuel Hne).
  destruct texts; [congruence|reflexivity].
Qed.

Lemma batch_size_zero_never_finishes_witness :
  generateBatchEmbeddings true (fun _ _ => BatchItems [])
    (fun _ _ => ReplyInvalid) [js "first text"] 0 1000 = None.
Proof.
  exact (batch_size_zero_never_finishes true (fun _ _ => BatchItems [])
           (fun _ _ => ReplyInvalid) [js "first text"] 1000 ltac:(discriminate)).
Defined.

End EmbeddingProps.

(** ** The health check of the RAG service *)

Module HealthProps.
Import RagService Orchestrator RagHealth.

(** The embedding call of the jina service always returns. *)
Lemma generateEmbedding_returns_snd M apiKey post text maxRetries :
  exists tr v,
    JinaService.generateEmbedding M apiKey post text maxRetries = (tr, Returns v).
Proof.
  destruct (JinaProps.generateEmbedding_returns M apiKey post text maxRetries)
    as (tr & v & H & _). eauto.
Qed.

(** X28: the health check never reports a degraded service. It probes
    the model with a single request and no wait, and reports "healthy"
    for a text of more than ten code units, "overloaded" for a failure
    whose message contains "503" and "error" for any other failure. The
    embedding is reported healthy whenever the embedding service has no
    key or fails, because the mock embedding stands in. *)
Theorem healthCheck_always_operational (w : World) (otherTruthy : bool) :
  (exists embedding gemini',
      healthCheck w otherTruthy = Operational embedding (js "healthy") gemini'
      /\ (gemini' = js "healthy" \/ gemini' = js "overloaded" \/ gemini' = js "error")
      /\ (gemini' = js "healthy" <->
          exists text, geminiAttempt (gemini w (js "Hello") 1%nat) = Returns text))
  /\ fst (generateWithGemini (gemini w (js "Hello")) 1 1000) = [Call 1]
  /\ (jinaApiKey w = false
      \/ (forall attempt, exists e,
            JinaService.jinaAttempt
              (jinaPost w (substring0 JinaService.maxInputLength (js "test query"))
                 attempt) = Throws e) ->
      exists gemini',
        healthCheck w otherTruthy = Operational (js "healthy") (js "healthy") gemini').
Proof.
  assert (Hprobe : fst (generateWithGemini (gemini w (js "Hello")) 1 1000) = [Call 1]).
  { unfold generateWithGemini. cbn [geminiLoop].
    destruct (geminiAttempt (gemini w (js "Hello") 1%nat)) as [text|e]; [reflexivity|].
    cbn [Nat.ltb Nat.leb andb]. rewrite andb_false_r. reflexivity. }
  split; [|split; [exact Hprobe|]].
  - unfold healthCheck.
    destruct (generateEmbedding_returns_snd (math w) (jinaApiKey w)
                (jinaPost w) (js "test query") 2) as (tr & v & Hemb).
    rewrite Hemb. cbn [snd].
    unfold generateWithGemini. cbn [geminiLoop].
    destruct (geminiAttempt (gemini w (js "Hello") 1%nat)) as [text|e].
    + cbn [snd]. do 2 eexists. split; [reflexivity|]. split; [now left|].
      split; eauto.
    + cbn [Nat.ltb Nat.leb]. rewrite andb_false_r. cbn [Nat.eqb snd].
      do 2 eexists. split; [reflexivity|]. split.
      * destruct (includes (message e) (js "503")); auto.
      * split.
        -- destruct (includes (message e) (js "503")); discriminate.
        -- intros (text & Hcontra). discriminate.
  - intros Hmock. unfold healthCheck.
    assert (Hemb : snd (JinaService.generateEmbedding (math w) (jinaApiKey w)
                          (jinaPost w) (js "test query") 2)
                   = Returns (Some (JinaService.EmbArray
                        (JinaService.generateMockEmbedding (math w) (js "test query"))))).
    { unfold JinaService.generateEmbedding.
      destruct (jinaApiKey w) eqn:Hkey; cbn [negb]; [|reflexivity].
      destruct Hmock as [Hcontra|Hfail]; [discriminate|].
      cbn [JinaService.jinaLoop].
      destruct (Hfail 1%nat) as (e1 & ->). destruct (Hfail 2%nat) as (e2 & ->).
      cbn [Nat.eqb orb].
      destruct (JinaService.isClientError e1); reflexivity. }
    rewrite Hemb. eexists. reflexivity.
Qed.

Lemma healthCheck_always_operational_witness :
  healthCheck Scenario.allDown false
  = Operational (js "healthy") (js "healthy") (js "overloaded").
Proof.
  destruct (healthCheck_always_operational Scenario.allDown false)
    as (_ & _ & Hmock).
  destruct Hmock as (gemini' & Hreport).
  { right. intros attempt. eexists. reflexivity. }
  rewrite Hreport. vm_compute in Hreport. now injection Hreport as <-.
Defined.

End HealthProps.
(** ** Relevance scores *)

Module ScoreProps.
Import RagService Orchestrator.

Lemma SFcompare_refl_finite s m e :
  SpecFloat.SFcompare (SpecFloat.S754_finite s m e) (SpecFloat.S754_finite s m e)
  = Some Eq.
Proof.
  cbn. rewrite Z.compare_refl. destruct s; cbn; now rewrite Pos.compare_cont_refl.
Qed.

(** A score above the threshold is neither zero nor NaN, so
    [doc.score || 0] is the score itself. *)
Lemma scoreOrZero_relevant (s : float) :
  (relevanceThreshold <? s)%float = true -> scoreOrZero s = s.
Proof.
  intros Hlt. unfold scoreOrZero.
  rewrite FloatAxioms.ltb_spec in Hlt.
  rewrite !FloatAxioms.eqb_spec.
  change (Prim2SF 0) with (SpecFloat.S754_zero false).
  change (Prim2SF relevanceThreshold)
    with (SpecFloat.S754_finite false 6305039478318694 (-53)) in Hlt.
  destruct (Prim2SF s) as [sg|sg| |sg m e] eqn:Hs.
  - destruct sg; discriminate Hlt.
  - destruct sg; [discriminate Hlt|]. reflexivity.
  - discriminate Hlt.
  - unfold SpecFloat.SFeqb. rewrite SFcompare_refl_finite. destruct sg; reflexivity.
Qed.

Lemma sourcesOf_relevant (searchResults : list Candidate) :
  List.map relevanceScore (sourcesOf (relevantDocsOf searchResults))
  = List.map score (relevantDocsOf searchResults)
  /\ Forall (fun src => (relevanceThreshold <? relevanceScore src)%float = true)
       (sourcesOf (relevantDocsOf searchResults)).
Proof.
  unfold sourcesOf, relevantDocsOf.
  induction searchResults as [|doc rest [IHmap IHall]]; [split; constructor|].
  cbn [List.filter]. destruct (isRelevant doc) eqn:Hrel; [|split; assumption].
  cbn [List.map]. unfold isRelevant in Hrel.
  split.
  - f_equal; [|exact IHmap]. cbn [relevanceScore sourceOf].
    now apply scoreOrZero_relevant.
  - constructor; [|exact IHall]. cbn [relevanceScore sourceOf].
    now rewrite scoreOrZero_relevant.
Qed.

Lemma generateAnswer_sources w query relevantDocs result :
  generateAnswer w query relevantDocs = Returns result ->
  sources result = sourcesOf relevantDocs.
Proof.
  unfold generateAnswer.
  destruct (snd (generateWithGemini _ 3 2000)) as [ai|e]; [now intros [= <-]|].
  destruct (Fallback.generateFallbackResponse _ _ _); [now intros [= <-]|discriminate].
Qed.

(** X29: for every query string, every source in the result comes from
    a candidate that passed the relevance filter and shows that
    candidate's own score, which is above 0.7; the fallback value 0 of
    [doc.score || 0] never shows. *)
Theorem every_source_scores_above_threshold (w : World) (query sessionId : jsstring) :
  exists result,
    generateRAGResponse w (VString query) sessionId = Returns result
    /\ Forall (fun src => (relevanceThreshold <? relevanceScore src)%float = true)
         (sources result)
    /\ (sources result = []
        \/ exists searchResults,
             sources result = sourcesOf (relevantDocsOf searchResults)
             /\ List.map relevanceScore (sources result)
                = List.map score (relevantDocsOf searchResults)).
Proof.
  unfold generateRAGResponse.
  destruct (ragPipeline w query) as [result|e] eqn:Hpipe.
  2:{ eexists. split; [reflexivity|]. split; [constructor|now left]. }
  exists result. split; [reflexivity|].
  unfold ragPipeline in Hpipe.
  destruct (validateQuery (VString query)) as [reason|cleanQuery]; [discriminate|].
  destruct (snd (JinaService.generateEmbedding _ _ _ cleanQuery 2))
    as [[[embedding|]|]|e]; try discriminate.
  destruct (QdrantService.searchVectors _ _ embedding 5 _) as [searchResults|e];
    [|discriminate].
  apply generateAnswer_sources in Hpipe. rewrite Hpipe.
  destruct (sourcesOf_relevant searchResults) as [Hmap Hall].
  split; [exact Hall|]. right. exists searchResults. split; [reflexivity|exact Hmap].
Qed.

End ScoreProps.
